(** * The rules engine of mlpstorage

    A shallow embedding of [mlpstorage/rules.py]: the run data model, the
    rule checkers, the verifier that reduces findings to one category, and
    the dataset sizing function, followed by the properties proved of them.

    Conventions of the embedding.
    - Python integers are [Z]; [//] is [Z.div], which floors like Python
      whenever the divisor is not zero; a zero divisor raises.
    - Dynamically typed data (parameters, summaries, configuration
      documents) is a [Value]. Floats are not part of [Value]; where the
      code computes a float only to log it, what is kept is whether the
      computation raises.
    - Integers are unbounded. The limits the interpreter (CPython 3.11 on
      a 64-bit machine) puts on what is done with them are part of the
      runtime functions that meet them: the range of floats in [truediv],
      the 4300 digits of a decimal conversion in [int_of_str] and
      [format_int], the length of a sequence in [py_repeat]. The memory of
      the machine is not modelled.
    - A dict is the list of its items in insertion order, because the
      checks iterate over dicts and the order of their findings follows
      it. A Python set is a [gset].
    - A function that can raise returns a [result]; the exception carries
      its class and the text [str(e)] gives.
    - Every entry point is handed a logger object. Logging is a write-only
      effect and is left out, on the understanding that the text of a log
      line, like the text of a finding, can be built: the integers it shows
      stay within the 4300 digits. The exceptions are [run_checks], where
      the lines record which check methods were called, and the sizing
      function, whose size report does arithmetic of its own and is
      modelled with everything that makes it raise. *)

From Stdlib Require Import ZArith String Ascii List Bool Lia.
From stdpp Require Import base option list strings pretty gmap.

Local Open Scope Z_scope.

(** ** A fragment of the Python runtime *)

Module Py.

Inductive ExcClass :=
| ValueError
| TypeError
| KeyError
| AttributeError
| IndexError
| ZeroDivisionError
| OverflowError
| MemoryError
| UserException (name : string).

(** An instance of a subclass of [Exception]; [exc_text] is [str(e)]. *)
Record PyExc := mkExc { exc_class : ExcClass; exc_text : string }.

Inductive result (A : Type) :=
| Ok (a : A)
| Raise (e : PyExc).
Arguments Ok {A} a.
Arguments Raise {A} e.

#[global] Instance result_ret : MRet result := @Ok.
#[global] Instance result_bind : MBind result :=
  λ A B f m, match m with Ok a => f a | Raise e => Raise e end.

#[global] Instance result_fmap : FMap result :=
  λ A B f m, match m with Ok a => Ok (f a) | Raise e => Raise e end.

Definition raise {A} (c : ExcClass) (text : string) : result A :=
  Raise (mkExc c text).

Definition is_Ok {A} (r : result A) : bool :=
  match r with Ok _ => true | Raise _ => false end.

Definition exc_class_of {A} (r : result A) : option ExcClass :=
  match r with Ok _ => None | Raise e => Some (exc_class e) end.

(** Text of the messages the interpreter itself produces. They vary with
    the interpreter version; nothing below depends on their wording. *)
Definition repr_key (k : string) : string := "'" +:+ k +:+ "'".

(** *** Strings *)

(** [s.startswith(p)] *)
Definition startswith (s p : string) : bool := String.prefix p s.
#[global] Arguments startswith : simpl never.

(** [sub in s] *)
Fixpoint str_contains (sub s : string) : bool :=
  String.prefix sub s ||
  match s with
  | EmptyString => false
  | String _ s' => str_contains sub s'
  end.

(** [s[n:]] *)
Fixpoint str_drop (n : nat) (s : string) : string :=
  match n, s with
  | O, _ => s
  | S n', String _ s' => str_drop n' s'
  | S _, EmptyString => EmptyString
  end.

(** [s.replace(old, new)] for a non-empty [old]: occurrences are replaced
    from left to right and do not overlap. [skip] counts the characters of
    the occurrence just replaced that are still to be passed over. *)
Fixpoint str_replace_from (old new s : string) (skip : nat) : string :=
  match s with
  | EmptyString => EmptyString
  | String c s' =>
      match skip with
      | S k => str_replace_from old new s' k
      | O =>
          if String.prefix old s
          then new +:+ str_replace_from old new s' (String.length old - 1)
          else String c (str_replace_from old new s' O)
      end
  end.

Definition str_replace (s old new : string) : string :=
  str_replace_from old new s O.

(** [s.split(sep)] for a one-character separator. *)
Fixpoint str_split (sep : ascii) (s : string) : list string :=
  match s with
  | EmptyString => [EmptyString]
  | String c s' =>
      if Ascii.eqb c sep then EmptyString :: str_split sep s'
      else match str_split sep s' with
           | [] => [String c EmptyString]
           | w :: ws => String c w :: ws
           end
  end.

(** [sep.join(l)] *)
Fixpoint str_join (sep : string) (l : list string) : string :=
  match l with
  | [] => EmptyString
  | [x] => x
  | x :: rest => x +:+ sep +:+ str_join sep rest
  end.

(** *** Integers and text

    The interpreter converts between an integer and its decimal text only
    up to [sys.get_int_max_str_digits()] digits, 4300 unless the
    interpreter was started otherwise; beyond that, both [int(s)] and the
    formatting of an integer raise [ValueError]. *)
Definition INT_MAX_STR_DIGITS : nat := 4300.

(** [int(s)] in base ten: surrounding whitespace is dropped, one sign is
    allowed, and the digits may be grouped by single underscores. *)
Definition is_space (c : ascii) : bool :=
  let n := nat_of_ascii c in
  ((9 <=? n) && (n <=? 13))%nat || ((28 <=? n) && (n <=? 32))%nat.

Definition digit_of (c : ascii) : option Z :=
  let n := nat_of_ascii c in
  if ((48 <=? n) && (n <=? 57))%nat then Some (Z.of_nat (n - 48)) else None.

Fixpoint str_lstrip (s : string) : string :=
  match s with
  | String c s' => if is_space c then str_lstrip s' else s
  | EmptyString => EmptyString
  end.

Definition str_strip (s : string) : string :=
  String.rev (str_lstrip (String.rev (str_lstrip s))).

(** [after_digit] tells whether the previous character was a digit, which
    is where an underscore or the end of the literal may come. *)
Fixpoint parse_digits (s : string) (acc : Z) (after_digit : bool) : option Z :=
  match s with
  | EmptyString => if after_digit then Some acc else None
  | String c s' =>
      match digit_of c with
      | Some d => parse_digits s' (10 * acc + d) true
      | None =>
          if Ascii.eqb c "_" && after_digit then parse_digits s' acc false
          else None
      end
  end.

Fixpoint count_digits (s : string) : nat :=
  match s with
  | EmptyString => O
  | String c s' =>
      match digit_of c with
      | Some _ => S (count_digits s')
      | None => count_digits s'
      end
  end.

Definition int_of_str (s : string) : result Z :=
  let body := str_strip s in
  let parsed :=
    match body with
    | String "-" ds => Z.opp <$> parse_digits ds 0 false
    | String "+" ds => parse_digits ds 0 false
    | _ => parse_digits body 0 false
    end in
  match parsed with
  | Some z =>
      if (INT_MAX_STR_DIGITS <? count_digits body)%nat then
        raise ValueError "Exceeds the limit (4300 digits) for integer string conversion"
      else Ok z
  | None => raise ValueError ("invalid literal for int() with base 10: " +:+ repr_key s)
  end.

(** [f'{z}'] and [str(z)] for an integer [z]: only whether the text can
    be produced is kept here; it cannot when [z] has more digits than the
    limit. *)
Definition format_int (z : Z) : result unit :=
  if 10 ^ Z.of_nat INT_MAX_STR_DIGITS <=? Z.abs z then
    raise ValueError "Exceeds the limit (4300 digits) for integer string conversion"
  else Ok ().

(** *** True division of integers

    [a / b] for integers is the quotient rounded to the nearest float,
    ties to even. Floats are not modelled; what is kept is whether the
    division can be done: the rounded quotient has to be finite, that is,
    below [2^1024 - 2^970] in absolute value, half a step above the
    largest float. *)
Definition truediv (a b : Z) : result unit :=
  if b =? 0 then raise ZeroDivisionError "division by zero"
  else if Z.abs b * (2 ^ 1024 - 2 ^ 970) <=? Z.abs a then
    raise OverflowError "integer division result too large for a float"
  else Ok ().

End Py.
Export Py.

(** ** Constants of [mlpstorage.config] *)

(** Modelled from the spec: the enumeration [PARAM_VALIDATION] of
    [mlpstorage.config], which is imported by [rules.py] and not part of
    it. The spec gives a finding the classification tags OPEN, CLOSED and
    INVALID, and [rules.py] uses exactly these three members. *)
Inductive PARAM_VALIDATION := CLOSED | OPEN | INVALID.

#[global] Instance PARAM_VALIDATION_eq_dec : EqDecision PARAM_VALIDATION.
Proof. solve_decision. Defined.

#[global] Instance PARAM_VALIDATION_countable : Countable PARAM_VALIDATION.
Proof.
  refine (inj_countable'
            (λ v, match v with CLOSED => 0%nat | OPEN => 1%nat | INVALID => 2%nat end)
            (λ n, match n with 0%nat => CLOSED | 1%nat => OPEN | _ => INVALID end) _).
  by intros [].
Defined.

(** [cat.value.upper()] *)
Definition validation_upper (v : PARAM_VALIDATION) : string :=
  match v with CLOSED => "CLOSED" | OPEN => "OPEN" | INVALID => "INVALID" end.

(** Modelled from the spec: the enumeration [BENCHMARK_TYPES] of
    [mlpstorage.config]; [rules.py] names the members training,
    vector_database and checkpointing. *)
Inductive BENCHMARK_TYPES := training | vector_database | checkpointing.

#[global] Instance BENCHMARK_TYPES_eq_dec : EqDecision BENCHMARK_TYPES.
Proof. solve_decision. Defined.

#[global] Instance BENCHMARK_TYPES_countable : Countable BENCHMARK_TYPES.
Proof.
  refine (inj_countable'
            (λ t, match t with
                  | training => 0%nat | vector_database => 1%nat | checkpointing => 2%nat
                  end)
            (λ n, match n with
                  | 0%nat => training | 1%nat => vector_database | _ => checkpointing
                  end) _).
  by intros [].
Defined.

(** [benchmark_type.name] *)
Definition benchmark_type_name (t : BENCHMARK_TYPES) : string :=
  match t with
  | training => "training"
  | vector_database => "vector_database"
  | checkpointing => "checkpointing"
  end.

(** ** Dynamically typed values *)

#[warnings="-register-all"]
Inductive Value :=
| VNone
| VBool (b : bool)
| VInt (z : Z)
| VStr (s : string)
| VList (l : list Value)
| VDict (d : list (string * Value))
| VBenchmarkType (t : BENCHMARK_TYPES).

(** A dict as the list of its items, oldest first. *)
Abbreviation PyDict := (list (string * Value)).

Definition empty_dict : Value := VDict [].

Fixpoint dict_lookup {V} (k : string) (d : list (string * V)) : option V :=
  match d with
  | [] => None
  | (k', v) :: d' => if String.eqb k k' then Some v else dict_lookup k d'
  end.

(** [d[k] = v]: an existing key keeps its place, a new one goes last. *)
Fixpoint dict_set {V} (k : string) (v : V) (d : list (string * V)) : list (string * V) :=
  match d with
  | [] => [(k, v)]
  | (k', v') :: d' =>
      if String.eqb k k' then (k, v) :: d' else (k', v') :: dict_set k v d'
  end.

(** [bool(v)] *)
Definition truthy (v : Value) : bool :=
  match v with
  | VNone => false
  | VBool b => b
  | VInt z => negb (z =? 0)
  | VStr s => negb (String.eqb s "")
  | VList l => match l with [] => false | _ => true end
  | VDict d => match d with [] => false | _ => true end
  | VBenchmarkType _ => true
  end.

Definition type_name (v : Value) : string :=
  match v with
  | VNone => "NoneType"
  | VBool _ => "bool"
  | VInt _ => "int"
  | VStr _ => "str"
  | VList _ => "list"
  | VDict _ => "dict"
  | VBenchmarkType _ => "BENCHMARK_TYPES"
  end.

Definition no_attribute {A} (v : Value) (attr : string) : result A :=
  raise AttributeError
        ("'" +:+ type_name v +:+ "' object has no attribute '" +:+ attr +:+ "'").

(** [v.get(k, dflt)] *)
Definition py_get (v : Value) (k : string) (dflt : Value) : result Value :=
  match v with
  | VDict d => Ok (default dflt (dict_lookup k d))
  | _ => no_attribute v "get"
  end.

(** [v[k]] for a string [k] *)
Definition py_getitem (v : Value) (k : string) : result Value :=
  match v with
  | VDict d =>
      match dict_lookup k d with
      | Some x => Ok x
      | None => raise KeyError (repr_key k)
      end
  | VStr _ => raise TypeError "string indices must be integers"
  | VList _ => raise TypeError "list indices must be integers or slices, not str"
  | _ => raise TypeError ("'" +:+ type_name v +:+ "' object is not subscriptable")
  end.

(** [k in v] for a string [k] *)
Definition py_contains (k : string) (v : Value) : result bool :=
  match v with
  | VDict d => Ok (bool_decide (is_Some (dict_lookup k d)))
  | VStr s => Ok (str_contains k s)
  | VList l =>
      Ok (existsb (λ x, match x with VStr s => String.eqb s k | _ => false end) l)
  | _ => raise TypeError ("argument of type '" +:+ type_name v +:+ "' is not iterable")
  end.

(** [for x in v] *)
Definition py_iter (v : Value) : result (list Value) :=
  match v with
  | VList l => Ok l
  | VDict d => Ok (map (λ kv, VStr kv.1) d)
  | VStr s => Ok (map (λ c, VStr (String c EmptyString)) (list_ascii_of_string s))
  | _ => raise TypeError ("'" +:+ type_name v +:+ "' object is not iterable")
  end.

(** What [a op b] raises when the operands have no such operation. *)
Definition binop_type_error {A} (op : string) (a b : Value) : result A :=
  raise TypeError ("unsupported operand type(s) for " +:+ op +:+ ": '" +:+ type_name a
                     +:+ "' and '" +:+ type_name b +:+ "'").

(** The integer a value is in arithmetic, when it is one; [bool] is a
    subclass of [int]. *)
Definition int_like (v : Value) : option Z :=
  match v with
  | VInt z => Some z
  | VBool b => Some (if b then 1 else 0)
  | _ => None
  end.

(** The right operand [v] of [z op v], for an integer [z] and an
    addition [op]: it has to be an integer too. *)
Definition as_int (op : string) (v : Value) : result Z :=
  match v with
  | VInt z => Ok z
  | VBool b => Ok (if b then 1 else 0)
  | _ => binop_type_error op (VInt 0) v
  end.

(** Both operands of [a op b] as integers, for an operation that only
    integers have among the values here, such as [//]. *)
Definition int_operands (op : string) (a b : Value) : result (Z * Z) :=
  match int_like a, int_like b with
  | Some x, Some y => Ok (x, y)
  | _, _ => binop_type_error op a b
  end.

(** [int(v)] *)
Definition py_int (v : Value) : result Z :=
  match v with
  | VInt z => Ok z
  | VBool b => Ok (if b then 1 else 0)
  | VStr s => int_of_str s
  | _ => raise TypeError
               ("int() argument must be a string, a bytes-like object or a real number, not '"
                  +:+ type_name v +:+ "'")
  end.

(** [sum(v)] *)
Definition py_sum (v : Value) : result Z :=
  items ← py_iter v;
  foldl (λ acc x, a ← acc; n ← as_int "+" x; mret (a + n)) (Ok 0) items.

(** [v == True] and [v == False] *)
Definition eq_True (v : Value) : bool :=
  match v with VBool b => b | VInt z => z =? 1 | _ => false end.
Definition eq_False (v : Value) : bool :=
  match v with VBool b => negb b | VInt z => z =? 0 | _ => false end.

(** [v == s] for a string [s] *)
Definition eq_str (v : Value) (s : string) : bool :=
  match v with VStr s' => String.eqb s' s | _ => false end.

(** [a // b] *)
Definition floordiv (a b : Z) : result Z :=
  if b =? 0 then raise ZeroDivisionError "integer division or modulo by zero"
  else Ok (a `div` b).

(** [s * n] for a string [s] and a count [n] *)
Fixpoint str_repeat (n : nat) (s : string) : string :=
  match n with
  | O => EmptyString
  | S n' => s +:+ str_repeat n' s
  end.

(** [v * n] for an integer [n]: a product for a number, a repetition for
    a string or a list. *)
Definition py_mul_int (v : Value) (n : Z) : result Value :=
  match v with
  | VInt z => Ok (VInt (z * n))
  | VBool b => Ok (VInt ((if b then 1 else 0) * n))
  | VStr s => Ok (VStr (str_repeat (Z.to_nat n) s))
  | VList l => Ok (VList (mjoin (replicate (Z.to_nat n) l)))
  | _ => raise TypeError ("unsupported operand type(s) for *: '" +:+ type_name v
                            +:+ "' and 'int'")
  end.

(** A string or a list: the values that can be repeated. *)
Definition is_sequence (v : Value) : bool :=
  match v with VStr _ | VList _ => true | _ => false end.

(** The largest index and length of a sequence, on a 64-bit build. *)
Definition SSIZE_MAX : Z := 2 ^ 63 - 1.

(** [seq * n] and [n * seq] for a string or a list [seq] and an integer
    [n]. The count has to be an index and the length of the result has to
    be one. Beyond that the repetition is taken to succeed: the memory of
    the machine is not modelled. *)
Definition py_repeat (seq : Value) (n : Z) : result Value :=
  if (n <? - SSIZE_MAX - 1) || (SSIZE_MAX <? n) then
    raise OverflowError "cannot fit 'int' into an index-sized integer"
  else
    match seq with
    | VStr s =>
        if (n <? 1) || (Z.of_nat (String.length s) =? 0) then Ok (VStr EmptyString)
        else if SSIZE_MAX `div` n <? Z.of_nat (String.length s) then
          raise OverflowError "repeated string is too long"
        else Ok (VStr (str_repeat (Z.to_nat n) s))
    | VList l =>
        if (Z.of_nat (length l) =? 0) || (n <=? 0) then Ok (VList [])
        else if SSIZE_MAX `div` n <? Z.of_nat (length l) then raise MemoryError EmptyString
        else Ok (VList (mjoin (replicate (Z.to_nat n) l)))
    | _ => binop_type_error "*" seq (VInt n)
    end.

(** [a * b]: the product of two integers, or the repetition of a
    sequence. *)
Definition py_mul (a b : Value) : result Value :=
  match int_like a, int_like b with
  | Some x, Some y => Ok (VInt (x * y))
  | None, Some n => if is_sequence a then py_repeat a n else binop_type_error "*" a b
  | Some n, None => if is_sequence b then py_repeat b n else binop_type_error "*" a b
  | None, None =>
      if is_sequence a then
        raise TypeError ("can't multiply sequence by non-int of type '" +:+ type_name b
                           +:+ "'")
      else if is_sequence b then
        raise TypeError ("can't multiply sequence by non-int of type '" +:+ type_name a
                           +:+ "'")
      else binop_type_error "*" a b
  end.

(** [f'{v}'] where the source formats a number: an integer has to stay
    within the digit limit; text and [None] can always be shown. *)
Definition format_number (v : Value) : result unit :=
  match int_like v with
  | Some z => format_int z
  | None => Ok ()
  end.

(** [s.endswith(p)] *)
Definition endswith (s p : string) : bool := startswith (String.rev s) (String.rev p).

(** [os.fspath(v)] for the values of the model: only a string is a path. *)
Definition fspath (v : Value) : result string :=
  match v with
  | VStr s => Ok s
  | _ => raise TypeError ("expected str, bytes or os.PathLike object, not "
                            +:+ type_name v)
  end.

(** [os.path.join(a, b)] on a POSIX system. *)
Definition path_join (a b : string) : string :=
  if startswith b "/" then b
  else if String.eqb a "" || endswith a "/" then a +:+ b
  else a +:+ "/" +:+ b.

(** ** The data model *)

(** One outcome of evaluating a rule. *)
Record Issue := mkIssue {
  validation : PARAM_VALIDATION;
  message : string;
  parameter : option string;
  expected : option Value;
  actual : option Value;
  severity : string;
}.

Module RunID.
Record t := mk {
  program : string;
  command : Value;
  model : Value;
  run_datetime : Value;
}.
End RunID.

Module ProcessedRun.
Record t := mk {
  run_id : RunID.t;
  benchmark_type : string;
  run_parameters : PyDict;
  run_metrics : PyDict;
  issues : list Issue;
}.


End ProcessedRun.

Module HostMemoryInfo.
Record t := mk {
  total : Z;
  available : option Z;
  used : option Z;
  free : option Z;
  active : option Z;
  inactive : option Z;
  buffers : option Z;
  cached : option Z;
  shared : option Z;
}.

Definition from_total_mem_int (total_mem_int : Z) : t :=
  mk total_mem_int None None None None None None None None.

(** [data.get(key, 0) * 1024], an entry of the first [converted_dict]. *)
Definition scaled (data : Value) (key : string) : result Value :=
  v ← py_get data key (VInt 0);
  py_mul_int v 1024.

(** [int(v.split(" ")[0])], an entry of the second [converted_dict]. *)
Definition first_word_int (v : Value) : result Z :=
  match v with
  | VStr s =>
      match str_split " " s with
      | word :: _ => int_of_str word
      | [] => raise IndexError "list index out of range"
      end
  | _ => no_attribute v "split"
  end.

Definition from_proc_meminfo_dict (data : Value) : result t :=
  total ← scaled data "MemTotal";
  available ← scaled data "MemAvailable";
  used ← scaled data "MemUsed";
  free ← scaled data "MemFree";
  active ← scaled data "Active";
  inactive ← scaled data "Inactive";
  buffers ← scaled data "Buffers";
  cached ← scaled data "Cached";
  shared ← scaled data "Shmem";
  total ← first_word_int total;
  available ← first_word_int available;
  used ← first_word_int used;
  free ← first_word_int free;
  active ← first_word_int active;
  inactive ← first_word_int inactive;
  buffers ← first_word_int buffers;
  cached ← first_word_int cached;
  shared ← first_word_int shared;
  mret (mk total (Some available) (Some used) (Some free) (Some active)
           (Some inactive) (Some buffers) (Some cached) (Some shared)).
End HostMemoryInfo.

Module HostCPUInfo.
Record t := mk {
  num_cores : Z;
  num_logical_cores : Z;
  model : string;
  architecture : string;
}.
End HostCPUInfo.

Module HostInfo.
Record t := mk {
  hostname : string;
  memory : HostMemoryInfo.t;
  cpu : option HostCPUInfo.t;
}.
End HostInfo.

Module ClusterInformation.
Record t := mk {
  host_info_list : list HostInfo.t;
  total_memory_bytes : Z;
  total_cores : Z;
}.

Definition calculate_aggregated_info (self : t) : t :=
  foldl (λ acc host_info,
           mk (host_info_list acc)
              (total_memory_bytes acc + HostMemoryInfo.total (HostInfo.memory host_info))
              (match HostInfo.cpu host_info with
               | Some cpu => total_cores acc + HostCPUInfo.num_cores cpu
               | None => total_cores acc
               end))
        self (host_info_list self).

Definition init (host_info_list : list HostInfo.t) (calculate : bool) : t :=
  let self := mk host_info_list 0 0 in
  if calculate then calculate_aggregated_info self else self.

Definition from_dlio_summary_json (summary : Value) : result t :=
  host_memories ← py_get summary "host_memory_GB" VNone;
  host_cpus ← py_get summary "host_cpu_count" VNone;
  num_hosts ← py_get summary "num_hosts" VNone;
  let inst := init [] false in
  mem ← py_sum host_memories;
  cores ← py_sum host_cpus;
  mret (mk (host_info_list inst) (mem * 1024 * 1024 * 1024) cores).
End ClusterInformation.

(** The result files of one run, as loaded from its directory. *)
Module BenchmarkResult.
Record t := mk {
  benchmark_result_root_dir : string;
  metadata : Value;
  summary : Value;
  hydra_configs : PyDict;
}.
End BenchmarkResult.

(** Modelled from the spec: the live benchmark object of
    [mlpstorage.benchmarks], which [rules.py] receives and does not define,
    reduced to what [_process_benchmark_instance] reads of it. [args] is
    [vars(benchmark.args)]; [combined_params] and [cluster_information] are
    [None] when the object has no such attribute. *)
Module Benchmark.
Record t := mk {
  BENCHMARK_TYPE : BENCHMARK_TYPES;
  args : PyDict;
  run_datetime : Value;
  combined_params : option Value;
  params_dict : list (string * string);
  cluster_information : option ClusterInformation.t;
}.
End Benchmark.

(** Where a run was populated from. [__init__] keeps both arguments and
    accepts them only when exactly one is given, so a run holds one. *)
Inductive RunSource :=
| FromInstance (benchmark_instance : Benchmark.t)
| FromResult (benchmark_result : BenchmarkResult.t).

(** What the [run_id] property returns: a path, or a [RunID] object. *)
Inductive RunIdent :=
| IdPath (path : string)
| IdObject (id : option RunID.t).

Module BenchmarkRun.
Record t := mk {
  benchmark_type : option BENCHMARK_TYPES;
  model : Value;
  accelerator : Value;
  command : Value;
  num_processes : Value;
  parameters : Value;
  override_parameters : list (string * string);
  system_info : option ClusterInformation.t;
  metrics : Value;
  _run_id : option RunID.t;
  _category : option PARAM_VALIDATION;
  _issues : list Issue;
  run_datetime : Value;
  result_root_dir : Value;
  source : RunSource;
}.

Definition benchmark_result (self : t) : option BenchmarkResult.t :=
  match source self with FromResult r => Some r | FromInstance _ => None end.

Definition benchmark_instance (self : t) : option Benchmark.t :=
  match source self with FromInstance b => Some b | FromResult _ => None end.

Definition post_execution (self : t) : bool :=
  match source self with FromResult _ => true | FromInstance _ => false end.

Definition issues (self : t) : list Issue := _issues self.
Definition category (self : t) : option PARAM_VALIDATION := _category self.

Definition set_issues (self : t) (issues : list Issue) : t :=
  mk (benchmark_type self) (model self) (accelerator self) (command self)
     (num_processes self) (parameters self) (override_parameters self)
     (system_info self) (metrics self) (_run_id self) (_category self)
     issues (run_datetime self) (result_root_dir self) (source self).

Definition set_category (self : t) (category : PARAM_VALIDATION) : t :=
  mk (benchmark_type self) (model self) (accelerator self) (command self)
     (num_processes self) (parameters self) (override_parameters self)
     (system_info self) (metrics self) (_run_id self) (Some category)
     (_issues self) (run_datetime self) (result_root_dir self) (source self).

Definition run_id (self : t) : RunIdent :=
  match source self with
  | FromResult r => IdPath (BenchmarkResult.benchmark_result_root_dir r)
  | FromInstance _ => IdObject (_run_id self)
  end.

(** The attributes as [__init__] sets them before it reads the source. *)
Definition blank (source : RunSource) : t :=
  mk None VNone VNone VNone VNone empty_dict [] None empty_dict None None []
     VNone VNone source.

Definition process_benchmark_instance (self : t) (b : Benchmark.t) : result t :=
  let args := Benchmark.args b in
  num_processes ←
    match dict_lookup "num_processes" args with
    | Some n => Ok n
    | None => raise AttributeError "'Namespace' object has no attribute 'num_processes'"
    end;
  mret (mk (Some (Benchmark.BENCHMARK_TYPE b))
           (default VNone (dict_lookup "model" args))
           (accelerator self)
           (default VNone (dict_lookup "command" args))
           num_processes
           (default (VDict args) (Benchmark.combined_params b))
           (Benchmark.params_dict b)
           (match Benchmark.cluster_information b with
            | Some ci => Some ci
            | None => system_info self
            end)
           (metrics self) (_run_id self) (_category self) (_issues self)
           (Benchmark.run_datetime b) (result_root_dir self) (source self)).

(** [[i for i in items if i.startswith(prefix)]] *)
Fixpoint select_startswith (items : list Value) (prefix : string)
  : result (list string) :=
  match items with
  | [] => Ok []
  | VStr s :: rest =>
      keep ← select_startswith rest prefix;
      mret (if startswith s prefix then s :: keep else keep)
  | v :: _ => no_attribute v "startswith"
  end.

(** The loop over the literal [key=value] override strings. *)
Fixpoint read_overrides (params : list Value) (acc : list (string * string))
  : result (list (string * string)) :=
  match params with
  | [] => Ok acc
  | VStr param :: rest =>
      match str_split "=" param with
      | [p; v] =>
          read_overrides rest
            (if startswith p "++workload."
             then dict_set (str_drop (String.length "++workload.") p) v acc
             else acc)
      | [] | [_] => raise ValueError "not enough values to unpack (expected 2, got 1)"
      | _ => raise ValueError "too many values to unpack (expected 2)"
      end
  | v :: _ => no_attribute v "split"
  end.

Definition process_benchmark_result (self : t) (br : BenchmarkResult.t) : result t :=
  let summary := BenchmarkResult.summary br in
  let hydra_configs := VDict (BenchmarkResult.hydra_configs br) in
  summary_workload ← py_get summary "workload" empty_dict;
  config_yaml ← py_get hydra_configs "config.yaml" empty_dict;
  hydra_workload_config ← py_get config_yaml "workload" empty_dict;
  hydra_workload_overrides ← py_get hydra_configs "overrides.yaml" empty_dict;
  hydra_workflow ← py_get hydra_workload_config "workflow" empty_dict;
  generate_data ← py_get hydra_workflow "generate_data" empty_dict;
  train ← py_get hydra_workflow "train" empty_dict;
  checkpoint ← py_get hydra_workflow "checkpoint" empty_dict;
  items ← py_iter hydra_workload_overrides;
  workloads ← select_startswith items "workload=";
  let benchmark_type :=
    if truthy generate_data || truthy train then Some training
    else if truthy checkpoint then Some checkpointing
    else benchmark_type self in
  model_config ← py_get hydra_workload_config "model" empty_dict;
  name ← py_get model_config "name" VNone;
  model ←
    match name with
    | VStr s => Ok (str_replace (str_replace s "llama_" "llama3_") "_" "-")
    | _ => no_attribute name "replace"
    end;
  num_processes ← py_getitem summary "num_accelerators";
  '(command, accelerator) ←
    match benchmark_type with
    | Some training =>
        '(command, accelerator) ←
          (if truthy train then
             match workloads with
             | [] => raise IndexError "list index out of range"
             | w :: _ =>
                 match str_split "_" w with
                 | _ :: a :: _ => Ok (VStr "run_benchmark", VStr a)
                 | _ => raise IndexError "list index out of range"
                 end
             end
           else Ok (command self, accelerator self));
        mret (if truthy generate_data then VStr "datagen" else command, accelerator)
    | _ => Ok (command self, accelerator self)
    end;
  run_datetime ← py_get summary "start" VNone;
  overrides_yaml ← py_get hydra_configs "overrides.yaml" (VList []);
  params ← py_iter overrides_yaml;
  override_parameters ← read_overrides params (override_parameters self);
  metrics ← py_get summary "metric" VNone;
  system_info ← ClusterInformation.from_dlio_summary_json summary;
  mret (mk benchmark_type (VStr model) accelerator command num_processes
           hydra_workload_config override_parameters (Some system_info) metrics
           (_run_id self) (_category self) (_issues self) run_datetime
           (result_root_dir self) (source self)).

(** [BenchmarkRun(benchmark_result, benchmark_instance, logger)]. The
    sources are objects or [None]; an object is truthy. *)
Definition init (benchmark_result : option BenchmarkResult.t)
           (benchmark_instance : option Benchmark.t) : result t :=
  match benchmark_result, benchmark_instance with
  | None, None =>
      raise ValueError "Either benchmark_result or benchmark_instance must be provided"
  | Some _, Some _ =>
      raise ValueError "Only one of benchmark_result and benchmark_instance can be provided"
  | _, _ =>
      self ←
        match benchmark_instance, benchmark_result with
        | Some b, _ => process_benchmark_instance (blank (FromInstance b)) b
        | None, Some r => process_benchmark_result (blank (FromResult r)) r
        | None, None =>
            raise ValueError "Either benchmark_result or benchmark_instance must be provided"
        end;
      program ←
        match benchmark_type self with
        | Some t => Ok (benchmark_type_name t)
        | None => no_attribute VNone "name"
        end;
      mret (mk (benchmark_type self) (model self) (accelerator self) (command self)
               (num_processes self) (parameters self) (override_parameters self)
               (system_info self) (metrics self)
               (Some (RunID.mk program (command self) (model self) (run_datetime self)))
               (_category self) (_issues self) (run_datetime self)
               (result_root_dir self) (source self))
  end.
End BenchmarkRun.

(** ** The dataset sizing function *)

(** Modelled from the spec: the command-line arguments object handed to
    [calculate_training_data_size] for a manual override of memory and host
    count; it is built outside [rules.py]. Only the attributes the function
    reads are kept, [hosts] as the list whose length it takes. *)
Module Args.
Record t := mk {
  client_host_memory_in_gb : Value;
  num_client_hosts : Value;
  clienthost_host_memory_in_gb : Value;
  hosts : list string;
  num_processes : Value;
}.
End Args.

Definition calculate_training_data_size
           (args : option Args.t) (cluster_information : option ClusterInformation.t)
           (dataset_params reader_params : Value) (num_processes : Value)
  : result (Z * Z * Z) :=
  let required_subfolders_count := 0 in
  '(total_mem_bytes, num_processes) ←
    match args with
    | None =>
        match cluster_information with
        | Some ci => Ok (VInt (ClusterInformation.total_memory_bytes ci), num_processes)
        | None => no_attribute VNone "total_memory_bytes"
        end
    | Some args =>
        if truthy (Args.client_host_memory_in_gb args) && truthy (Args.num_client_hosts args)
        then
          kb ← py_mul (Args.client_host_memory_in_gb args) (VInt 1024);
          mb ← py_mul kb (VInt 1024);
          per_host_memory_in_bytes ← py_mul mb (VInt 1024);
          let num_hosts := Args.num_client_hosts args in
          total_mem_bytes ← py_mul per_host_memory_in_bytes num_hosts;
          mret (total_mem_bytes, Args.num_processes args)
        else if truthy (Args.clienthost_host_memory_in_gb args)
                && negb (truthy (Args.num_client_hosts args))
        then
          kb ← py_mul (Args.clienthost_host_memory_in_gb args) (VInt 1024);
          mb ← py_mul kb (VInt 1024);
          per_host_memory_in_bytes ← py_mul mb (VInt 1024);
          let num_hosts := VInt (Z.of_nat (length (Args.hosts args))) in
          total_mem_bytes ← py_mul per_host_memory_in_bytes num_hosts;
          mret (total_mem_bytes, Args.num_processes args)
        else raise ValueError "Either args or cluster_information is required"
    end;
  dataset_size_bytes ← py_mul (VInt 5) total_mem_bytes;
  samples_v ← py_getitem dataset_params "num_samples_per_file";
  record_v ← py_getitem dataset_params "record_length_bytes";
  file_size_bytes ← py_mul samples_v record_v;
  '(dataset_size_bytes, file_size_bytes) ←
    int_operands "//" dataset_size_bytes file_size_bytes;
  min_num_files_by_bytes ← floordiv dataset_size_bytes file_size_bytes;
  samples_v ← py_getitem dataset_params "num_samples_per_file";
  num_samples_by_bytes ← py_mul (VInt min_num_files_by_bytes) samples_v;
  scaled_processes ← py_mul (VInt 500) num_processes;
  batch_v ← py_getitem reader_params "batch_size";
  min_samples ← py_mul scaled_processes batch_v;
  samples_v ← py_getitem dataset_params "num_samples_per_file";
  '(min_samples, num_samples_per_file) ← int_operands "//" min_samples samples_v;
  min_num_files_by_samples ← floordiv min_samples num_samples_per_file;
  let required_file_count := Z.max min_num_files_by_bytes min_num_files_by_samples in
  let total_disk_bytes := required_file_count * file_size_bytes in
  (* the six lines of the size report, in the order they are logged *)
  _ ← format_int required_file_count;
  _ ← format_int min_samples;
  _ ← format_int min_num_files_by_samples;
  _ ← format_int min_num_files_by_bytes;
  _ ← truediv (required_file_count * file_size_bytes) 1024;
  _ ← format_number num_samples_by_bytes;
  mret (required_file_count, required_subfolders_count, total_disk_bytes).

(** ** Rule checkers *)

(** What a check method hands back: nothing, one finding, or a list. *)
Inductive CheckReturn :=
| RNone
| RIssue (issue : Issue)
| RIssues (issues : list Issue).

(** A bound check method: its [__name__] and what calling it does. The
    check methods read the checker's run(s) and change nothing, so a call
    is determined by the checker. *)
Record CheckMethod := mkCheck {
  method_name : string;
  call : result CheckReturn;
}.

Inductive LogLevel := LogDebug | LogError.
Definition LogLine : Type := LogLevel * string.

Module RulesChecker.
(** [self.check_methods]: the callables whose name starts with
    [check_], in the order [dir(self)] lists them, which is sorted. *)
Definition t := list CheckMethod.

Definition failure_issue (check : CheckMethod) (e : PyExc) : Issue :=
  mkIssue INVALID
          ("Check " +:+ method_name check +:+ " failed with error: " +:+ exc_text e)
          None None None "error".

(** The body of the loop of [run_checks], on the findings and the log
    lines collected so far. *)
Definition run_check (state : list Issue * list LogLine) (check_method : CheckMethod)
  : list Issue * list LogLine :=
  let '(issues, log) := state in
  let log := log ++ [(LogDebug, "Running check " +:+ method_name check_method)] in
  match call check_method with
  | Ok RNone => (issues, log)
  | Ok (RIssues []) => (issues, log)
  | Ok (RIssues method_issues) => (issues ++ method_issues, log)
  | Ok (RIssue method_issue) => (issues ++ [method_issue], log)
  | Raise e =>
      (issues ++ [failure_issue check_method e],
       log ++ [(LogError, "Error running check " +:+ method_name check_method
                            +:+ ": " +:+ exc_text e)])
  end.

Definition run_checks_log (self : t) : list Issue * list LogLine :=
  foldl run_check ([], []) self.

Definition run_checks (self : t) : list Issue := (run_checks_log self).1.
End RulesChecker.

Module MultiRunRulesChecker.
(** [{run.category for run in self.benchmark_runs}] *)
Definition category_set (benchmark_runs : list BenchmarkRun.t)
  : gset (option PARAM_VALIDATION) :=
  list_to_set (BenchmarkRun.category <$> benchmark_runs).

(** [[cat.value.upper() for cat in category_set]]. Python does not fix
    the order in which a set is iterated; [elements] picks one. *)
Fixpoint upper_values (cats : list (option PARAM_VALIDATION)) : result (list Value) :=
  match cats with
  | [] => Ok []
  | Some cat :: rest =>
      names ← upper_values rest;
      mret (VStr (validation_upper cat) :: names)
  | None :: _ => no_attribute VNone "value"
  end.

Definition category_issue (v : PARAM_VALIDATION) (message : string)
           (category_set : gset (option PARAM_VALIDATION)) : result CheckReturn :=
  actual ← upper_values (elements category_set);
  mret (RIssue (mkIssue v message (Some "category") (Some (VStr "OPEN or CLOSED"))
                        (Some (VList actual)) "error")).

Definition check_runs_valid (benchmark_runs : list BenchmarkRun.t) : result CheckReturn :=
  let category_set := category_set benchmark_runs in
  if bool_decide (Some INVALID ∈ category_set) then
    category_issue INVALID "Invalid runs found." category_set
  else if bool_decide (Some OPEN ∈ category_set) then
    category_issue OPEN "All runs satisfy the OPEN or CLOSED category" category_set
  else if bool_decide ({[Some CLOSED]} = category_set) then
    category_issue CLOSED "All runs satisfy the CLOSED category" category_set
  else Ok RNone.
End MultiRunRulesChecker.

Module TrainingRunRulesChecker.
Section WithConfig.
(** The model name [UNET] of [mlpstorage.config]. *)
Variable UNET : string.

Definition str_benchmark_type (t : option BENCHMARK_TYPES) : string :=
  match t with
  | Some t => "BENCHMARK_TYPES." +:+ benchmark_type_name t
  | None => "None"
  end.

Definition check_benchmark_type (benchmark_run : BenchmarkRun.t) : result CheckReturn :=
  let t := BenchmarkRun.benchmark_type benchmark_run in
  if bool_decide (t ≠ Some training) then
    Ok (RIssue (mkIssue INVALID ("Invalid benchmark type: " +:+ str_benchmark_type t)
                        (Some "benchmark_type") (Some (VBenchmarkType training))
                        (Some (from_option VBenchmarkType VNone t)) "error"))
  else Ok RNone.

Definition check_num_files_train (benchmark_run : BenchmarkRun.t) : result CheckReturn :=
  let parameters := BenchmarkRun.parameters benchmark_run in
  has_dataset ← py_contains "dataset" parameters;
  if negb has_dataset then
    Ok (RIssue (mkIssue INVALID "Missing dataset parameters" (Some "dataset")
                        None None "error"))
  else
    dataset_params ← py_getitem parameters "dataset";
    has_num_files ← py_contains "num_files_train" dataset_params;
    if negb has_num_files then
      Ok (RIssue (mkIssue INVALID "Missing num_files_train parameter"
                          (Some "dataset.num_files_train") None None "error"))
    else
      num_files_v ← py_getitem dataset_params "num_files_train";
      configured_num_files ← py_int num_files_v;
      dataset_params ← py_getitem parameters "dataset";
      reader_params ← py_getitem parameters "reader";
      '(required_num_files, _, _) ←
        calculate_training_data_size None (BenchmarkRun.system_info benchmark_run)
          dataset_params reader_params (BenchmarkRun.num_processes benchmark_run);
      if configured_num_files <? required_num_files then
        Ok (RIssue (mkIssue INVALID "Insufficient number of training files"
                            (Some "dataset.num_files_train")
                            (Some (VStr (">= " +:+ pretty required_num_files)))
                            (Some (VInt configured_num_files)) "error"))
      else Ok RNone.

Definition closed_allowed_params : list string :=
  ["dataset.num_files_train"; "dataset.num_subfolders_train"; "dataset.data_folder";
   "reader.read_threads"; "reader.computation_threads"; "reader.transfer_size";
   "reader.odirect"; "reader.prefetch_size"; "checkpoint.checkpoint_folder";
   "storage.storage_type"; "storage.storage_root"].

Definition open_allowed_params : list string :=
  ["framework"; "dataset.format"; "dataset.num_samples_per_file"; "reader.data_loader"].

(** The body of the loop of [check_allowed_params]. *)
Definition check_override (issues : list Issue) (item : string * string) : list Issue :=
  let '(param, value) := item in
  if startswith param "workflow" then issues
  else if bool_decide (param ∈ closed_allowed_params) then
    issues ++ [mkIssue CLOSED
                       ("Closed parameter override allowed: " +:+ param +:+ " = " +:+ value)
                       (Some "Overrode Parameters") None (Some (VStr value)) "error"]
  else if bool_decide (param ∈ open_allowed_params) then
    issues ++ [mkIssue OPEN
                       ("Open parameter override allowed: " +:+ param +:+ " = " +:+ value)
                       (Some "Overrode Parameters") None (Some (VStr value)) "error"]
  else
    issues ++ [mkIssue INVALID
                       ("Disallowed parameter override: " +:+ param +:+ " = " +:+ value)
                       (Some "Overrode Parameters") (Some (VStr "None"))
                       (Some (VStr value)) "error"].

Definition check_allowed_params (benchmark_run : BenchmarkRun.t) : result CheckReturn :=
  Ok (RIssues (foldl check_override [] (BenchmarkRun.override_parameters benchmark_run))).

(** The loop of [check_workflow_parameters]; it returns from inside. *)
Fixpoint workflow_loop (benchmark_run : BenchmarkRun.t) (items : PyDict) : CheckReturn :=
  match items with
  | [] => RNone
  | (param, value) :: rest =>
      if eq_str (BenchmarkRun.model benchmark_run) UNET
         && eq_str (BenchmarkRun.command benchmark_run) "run_benchmark"
         && String.eqb param "checkpoint"
      then
        if eq_True value then
          RIssue (mkIssue CLOSED "Unet3D training requires executing a checkpoing"
                          (Some "workflow.checkpoint") (Some (VStr "True"))
                          (Some value) "error")
        else if eq_False value then
          RIssue (mkIssue INVALID
                          "Unet3D training requires executing a checkpoint. The parameter 'workflow.checkpoint' is set to False"
                          (Some "workflow.checkpoint") (Some (VStr "True"))
                          (Some value) "error")
        else workflow_loop benchmark_run rest
      else workflow_loop benchmark_run rest
  end.

Definition check_workflow_parameters (benchmark_run : BenchmarkRun.t)
  : result CheckReturn :=
  workflow_params ← py_get (BenchmarkRun.parameters benchmark_run) "workflow" empty_dict;
  match workflow_params with
  | VDict items => Ok (workflow_loop benchmark_run items)
  | _ => no_attribute workflow_params "items"
  end.

Definition check_odirect_supported_model (benchmark_run : BenchmarkRun.t)
  : result CheckReturn :=
  let parameters := BenchmarkRun.parameters benchmark_run in
  if eq_str (BenchmarkRun.model benchmark_run) UNET then Ok RNone
  else
    reader ← py_get parameters "reader" empty_dict;
    odirect ← py_get reader "odirect" VNone;
    if truthy odirect then
      Ok (RIssue (mkIssue INVALID
                          "The reader.odirect option is only supported for Unet3d model"
                          (Some "reader.odirect") (Some (VStr "False"))
                          (Some odirect) "error"))
    else Ok RNone.

Definition check_checkpoint_files_in_code (benchmark_run : BenchmarkRun.t)
  : result CheckReturn := Ok RNone.
Definition check_num_epochs (benchmark_run : BenchmarkRun.t)
  : result CheckReturn := Ok RNone.
Definition check_inter_test_times (benchmark_run : BenchmarkRun.t)
  : result CheckReturn := Ok RNone.
Definition check_file_system_caching (benchmark_run : BenchmarkRun.t)
  : result CheckReturn := Ok RNone.

Definition init (benchmark_run : BenchmarkRun.t) : RulesChecker.t :=
  [ mkCheck "check_allowed_params" (check_allowed_params benchmark_run);
    mkCheck "check_benchmark_type" (check_benchmark_type benchmark_run);
    mkCheck "check_checkpoint_files_in_code" (check_checkpoint_files_in_code benchmark_run);
    mkCheck "check_file_system_caching" (check_file_system_caching benchmark_run);
    mkCheck "check_inter_test_times" (check_inter_test_times benchmark_run);
    mkCheck "check_num_epochs" (check_num_epochs benchmark_run);
    mkCheck "check_num_files_train" (check_num_files_train benchmark_run);
    mkCheck "check_odirect_supported_model" (check_odirect_supported_model benchmark_run);
    mkCheck "check_workflow_parameters" (check_workflow_parameters benchmark_run) ].
End WithConfig.
End TrainingRunRulesChecker.

Module CheckpointingRunRulesChecker.
Definition check_benchmark_type (benchmark_run : BenchmarkRun.t) : result CheckReturn :=
  Ok RNone.

Definition init (benchmark_run : BenchmarkRun.t) : RulesChecker.t :=
  [ mkCheck "check_benchmark_type" (check_benchmark_type benchmark_run) ].
End CheckpointingRunRulesChecker.

Module CheckpointSubmissionRulesChecker.
(** [x.get('checkpoint', {}).get(name, 0)], as an operand of [+=]. *)
Definition checkpoint_count (run : BenchmarkRun.t) (name : string) : result Z :=
  checkpoint ← py_get (BenchmarkRun.parameters run) "checkpoint" empty_dict;
  count ← py_get checkpoint name (VInt 0);
  as_int "+=" count.

(** The body of the loop of [check_num_runs], on
    [(num_writes, num_reads)]. *)
Definition count_run (counts : result (Z * Z)) (run : BenchmarkRun.t) : result (Z * Z) :=
  '(num_writes, num_reads) ← counts;
  if bool_decide (BenchmarkRun.benchmark_type run = Some checkpointing) then
    writes ← checkpoint_count run "num_checkpoints_write";
    reads ← checkpoint_count run "num_checkpoints_read";
    mret (num_writes + writes, num_reads + reads)
  else mret (num_writes, num_reads).

Definition check_num_runs (benchmark_runs : list BenchmarkRun.t) : result CheckReturn :=
  '(num_writes, num_reads) ← foldl count_run (Ok (0, 0)) benchmark_runs;
  let issues := [] in
  let issues :=
    if negb (num_reads =? 10) then
      issues ++ [mkIssue INVALID
                         ("Expected 10 total read operations, but found " +:+ pretty num_reads)
                         (Some "checkpoint.num_checkpoints_read")
                         (Some (VInt 10)) (Some (VInt num_reads)) "error"]
    else
      issues ++ [mkIssue CLOSED "Found expected 10 total read operations"
                         (Some "checkpoint.num_checkpoints_read")
                         (Some (VInt 10)) (Some (VInt num_reads)) "error"] in
  let issues :=
    if negb (num_writes =? 10) then
      issues ++ [mkIssue INVALID
                         ("Expected 10 total write operations, but found " +:+ pretty num_writes)
                         (Some "checkpoint.num_checkpoints_write")
                         (Some (VInt 10)) (Some (VInt num_writes)) "error"]
    else
      issues ++ [mkIssue CLOSED "Found expected 10 total write operations"
                         (Some "checkpoint.num_checkpoints_write")
                         (Some (VInt 10)) (Some (VInt num_writes)) "error"] in
  let issues :=
    if (num_writes =? 10) && (num_reads =? 10) then
      issues ++ [mkIssue CLOSED "Found expected 10 total read and write operations"
                         (Some "checkpoint.num_checkpoints_read")
                         (Some (VInt 10)) (Some (VInt 10)) "error"]
    else issues in
  mret (RIssues issues).

Definition init (benchmark_runs : list BenchmarkRun.t) : RulesChecker.t :=
  [ mkCheck "check_num_runs" (check_num_runs benchmark_runs);
    mkCheck "check_runs_valid" (MultiRunRulesChecker.check_runs_valid benchmark_runs) ].
End CheckpointSubmissionRulesChecker.

Module TrainingSubmissionRulesChecker.
Definition check_num_runs (benchmark_runs : list BenchmarkRun.t) : result CheckReturn :=
  Ok RNone.

Definition init (benchmark_runs : list BenchmarkRun.t) : RulesChecker.t :=
  [ mkCheck "check_num_runs" (check_num_runs benchmark_runs);
    mkCheck "check_runs_valid" (MultiRunRulesChecker.check_runs_valid benchmark_runs) ].
End TrainingSubmissionRulesChecker.

(** ** The verifier *)

Inductive Mode := single | multi.

(** What the caller passes to [BenchmarkVerifier]: runs, or a live
    benchmark object that wants itself verified before it executes. *)
Inductive VerifierArg :=
| ARun (benchmark_run : BenchmarkRun.t)
| ABenchmark (benchmark : Benchmark.t).

Module BenchmarkVerifier.
(** [rules_checker] is [None] while the attribute is not set. *)
Record t := mk {
  mode : Mode;
  benchmark_runs : list BenchmarkRun.t;
  rules_checker : option RulesChecker.t;
  issues : list Issue;
}.

Section WithConfig.
Variable UNET : string.

(** The runs of a multi-run call; a live benchmark object among them has
    no [benchmark_type] attribute. *)
Fixpoint as_runs (args : list VerifierArg) : result (list BenchmarkRun.t) :=
  match args with
  | [] => Ok []
  | ARun r :: rest => runs ← as_runs rest; mret (r :: runs)
  | ABenchmark _ :: _ =>
      raise AttributeError "'Benchmark' object has no attribute 'benchmark_type'"
  end.

Definition init (args : list VerifierArg) : result t :=
  match args with
  | [] => raise ValueError "At least one benchmark run is required"
  | [arg] =>
      benchmark_run ←
        match arg with
        | ABenchmark b => BenchmarkRun.init None (Some b)
        | ARun r => Ok r
        end;
      let rules_checker :=
        match BenchmarkRun.benchmark_type benchmark_run with
        | Some training => Some (TrainingRunRulesChecker.init UNET benchmark_run)
        | Some checkpointing => Some (CheckpointingRunRulesChecker.init benchmark_run)
        | _ => None
        end in
      mret (mk single [benchmark_run] rules_checker [])
  | _ =>
      runs ← as_runs args;
      let benchmark_types : gset (option BENCHMARK_TYPES) :=
        list_to_set (BenchmarkRun.benchmark_type <$> runs) in
      if (1 <? size benchmark_types)%nat then
        raise ValueError
              "Multi-run verification requires all runs are from the same benchmark type. Got types: {benchmark_types}"
      else
        let rules_checker :=
          match elements benchmark_types with
          | Some training :: _ => Some (TrainingSubmissionRulesChecker.init runs)
          | Some checkpointing :: _ => Some (CheckpointSubmissionRulesChecker.init runs)
          | _ => None
          end in
        mret (mk multi runs rules_checker [])
  end.
End WithConfig.

(** The status line [verify] starts with: in single mode it shows the
    first run id; in multi mode it joins the run ids, which have to be
    strings for that. *)
Fixpoint joinable (run_ids : list RunIdent) : result (list string) :=
  match run_ids with
  | [] => Ok []
  | IdPath p :: rest => ps ← joinable rest; mret (p :: ps)
  | IdObject _ :: _ => raise TypeError "sequence item: expected str instance, RunID found"
  end.

Definition announce (self : t) : result unit :=
  let run_ids := BenchmarkRun.run_id <$> benchmark_runs self in
  match mode self with
  | single =>
      match run_ids with
      | _ :: _ => Ok ()
      | [] => raise IndexError "list index out of range"
      end
  | multi => ids ← joinable run_ids; mret ()
  end.

(** The body of the counting loop, on
    [(num_invalid, num_open, num_closed)]. *)
Definition count_issue (counts : result (Z * Z * Z)) (issue : Issue) : result (Z * Z * Z) :=
  '(num_invalid, num_open, num_closed) ← counts;
  if bool_decide (validation issue = INVALID) then
    mret (num_invalid + 1, num_open, num_closed)
  else if bool_decide (validation issue = CLOSED) then
    mret (num_invalid, num_open, num_closed + 1)
  else if bool_decide (validation issue = OPEN) then
    mret (num_invalid, num_open + 1, num_closed)
  else raise ValueError "Unknown validation type".

(** [self.benchmark_runs[0].issues = issues] and
    [self.benchmark_runs[0].category = category] *)
Definition set_first_issues (runs : list BenchmarkRun.t) (issues : list Issue)
  : list BenchmarkRun.t :=
  match runs with
  | r :: rest => BenchmarkRun.set_issues r issues :: rest
  | [] => []
  end.

Definition set_first_category (runs : list BenchmarkRun.t) (category : PARAM_VALIDATION)
  : list BenchmarkRun.t :=
  match runs with
  | r :: rest => BenchmarkRun.set_category r category :: rest
  | [] => []
  end.

Definition conclude (self : t) (issues : list Issue) (runs : list BenchmarkRun.t)
           (category : PARAM_VALIDATION) : PARAM_VALIDATION * t :=
  let runs :=
    match mode self with
    | single => set_first_category runs category
    | multi => runs
    end in
  (category, mk (mode self) runs (rules_checker self) issues).

Definition verify (self : t) : result (PARAM_VALIDATION * t) :=
  _ ← announce self;
  checker ←
    match rules_checker self with
    | Some checker => Ok checker
    | None => raise AttributeError
                    "'BenchmarkVerifier' object has no attribute 'rules_checker'"
    end;
  let issues := RulesChecker.run_checks checker in
  '(num_invalid, num_open, num_closed) ← foldl count_issue (Ok (0, 0, 0)) issues;
  let runs :=
    match mode self with
    | single => set_first_issues (benchmark_runs self) issues
    | multi => benchmark_runs self
    end in
  if 0 <? num_invalid then mret (conclude self issues runs INVALID)
  else if 0 <? num_open then mret (conclude self issues runs OPEN)
  else mret (conclude self issues runs CLOSED).
End BenchmarkVerifier.

(** ** Where the results of a benchmark go *)

Section OutputLocation.
(** The time stamp [DATETIME_STR] of [mlpstorage.config], taken when the
    program starts. *)
Variable DATETIME_STR : string.

(** [benchmark.args.<name>] *)
Definition args_attribute (benchmark : Benchmark.t) (name : string) : result Value :=
  match dict_lookup name (Benchmark.args benchmark) with
  | Some v => Ok v
  | None => raise AttributeError
                  ("'Namespace' object has no attribute '" +:+ name +:+ "'")
  end.

(** [output_location = os.path.join(output_location, benchmark.args.<name>)] *)
Definition join_attribute (benchmark : Benchmark.t) (output_location : string)
           (name : string) : result string :=
  v ← args_attribute benchmark name;
  component ← fspath v;
  mret (path_join output_location component).

(** The enumeration has three members, so the last branch of the source,
    for a benchmark type it does not know, has no counterpart here. *)
Definition generate_output_location (benchmark : Benchmark.t) (datetime_str : option string)
  : result string :=
  let datetime_str := default DATETIME_STR datetime_str in
  results_dir ← args_attribute benchmark "results_dir";
  let type_name := benchmark_type_name (Benchmark.BENCHMARK_TYPE benchmark) in
  match Benchmark.BENCHMARK_TYPE benchmark with
  | training =>
      if bool_decide (dict_lookup "model" (Benchmark.args benchmark) = None) then
        raise ValueError "Model name is required for training benchmark output location"
      else
        output_location ← fspath results_dir;
        let output_location := path_join output_location type_name in
        output_location ← join_attribute benchmark output_location "model";
        output_location ← join_attribute benchmark output_location "command";
        mret (path_join output_location datetime_str)
  | vector_database =>
      output_location ← fspath results_dir;
      let output_location := path_join output_location type_name in
      output_location ← join_attribute benchmark output_location "command";
      mret (path_join output_location datetime_str)
  | checkpointing =>
      if bool_decide (dict_lookup "model" (Benchmark.args benchmark) = None) then
        raise ValueError "Model name is required for training benchmark output location"
      else
        output_location ← fspath results_dir;
        let output_location := path_join output_location type_name in
        output_location ← join_attribute benchmark output_location "model";
        mret (path_join output_location datetime_str)
  end.
End OutputLocation.

(** ** Vocabulary of the statements *)

(** The inputs of the sizing function on the measured path: a cluster
    with [M] bytes of memory, [S] samples per file of [R] bytes each, and a
    reader batch size of [B]. *)
Definition sizing_inputs (ci : ClusterInformation.t) (dataset_params reader_params : Value)
           (M S R B : Z) : Prop :=
  ClusterInformation.total_memory_bytes ci = M
  ∧ py_getitem dataset_params "num_samples_per_file" = Ok (VInt S)
  ∧ py_getitem dataset_params "record_length_bytes" = Ok (VInt R)
  ∧ py_getitem reader_params "batch_size" = Ok (VInt B).

(** The integers the interpreter still writes out as text, and the byte
    counts whose size in MB it still computes as a float, are below these
    limits in absolute value. *)
Definition INT_TEXT_LIMIT : Z := 10 ^ 4300.
Definition FLOAT_MB_LIMIT : Z := 2 ^ 1034 - 2 ^ 980.

(** The size report of the sizing function can be written for these
    inputs: the six numbers it logs, in the order it logs them, are within
    the limits. *)
Definition size_report_writable (M S R B P : Z) : Prop :=
  let by_bytes := (5 * M) `div` (S * R) in
  let by_samples := (500 * P * B) `div` S in
  let count := Z.max by_bytes by_samples in
  Z.abs count < INT_TEXT_LIMIT
  ∧ Z.abs (500 * P * B) < INT_TEXT_LIMIT
  ∧ Z.abs by_samples < INT_TEXT_LIMIT
  ∧ Z.abs by_bytes < INT_TEXT_LIMIT
  ∧ Z.abs (count * (S * R)) < FLOAT_MB_LIMIT
  ∧ Z.abs (by_bytes * S) < INT_TEXT_LIMIT.

(** The sizing function returned, with [n] as the required file count. *)
Definition returns_file_count (r : result (Z * Z * Z)) (n : Z) : Prop :=
  ∃ subfolders disk, r = Ok (n, subfolders, disk).

(** What one check method adds to the findings and to the log. *)
Definition check_findings (c : CheckMethod) : list Issue :=
  (RulesChecker.run_check ([], []) c).1.
Definition check_log (c : CheckMethod) : list LogLine :=
  (RulesChecker.run_check ([], []) c).2.

(** How many findings of a list carry a given classification. *)
Definition count_validation (v : PARAM_VALIDATION) (l : list Issue) : Z :=
  Z.of_nat (length (filter (λ i, validation i = v) l)).

(** Override keys under the workflow namespace are exempt from the
    allow-list check. *)
Definition exempt (param : string) : Prop := startswith param "workflow" = true.

Definition non_exempt_overrides (run : BenchmarkRun.t) : list (string * string) :=
  filter (λ item, ¬ exempt item.1) (BenchmarkRun.override_parameters run).

(** The finding [i] classifies the override [item] by the allow-lists. *)
Definition classifies (item : string * string) (i : Issue) : Prop :=
  let closed := TrainingRunRulesChecker.closed_allowed_params in
  let open := TrainingRunRulesChecker.open_allowed_params in
  (item.1 ∈ closed → validation i = CLOSED)
  ∧ (item.1 ∈ open → validation i = OPEN)
  ∧ (item.1 ∉ closed → item.1 ∉ open →
     validation i = INVALID
     ∧ expected i = Some (VStr "None")
     ∧ message i = "Disallowed parameter override: " +:+ item.1 +:+ " = " +:+ item.2).



Definition total (counts : list Z) : Z := foldr Z.add 0 counts.


(** ** Sample inputs *)

Definition cluster_1TiB : ClusterInformation.t := ClusterInformation.mk [] (2 ^ 40) 64.
Definition scenario_dataset : Value :=
  VDict [("num_samples_per_file", VInt 1000); ("record_length_bytes", VInt 100000)].
Definition scenario_reader : Value := VDict [("batch_size", VInt 32)].

(** A cluster whose memory, in bytes, is beyond the range of a float, with
    files of one sample of one byte. *)
Definition cluster_beyond_float : ClusterInformation.t :=
  ClusterInformation.mk [] (10 ^ 320) 64.
Definition unit_dataset : Value :=
  VDict [("num_samples_per_file", VInt 1); ("record_length_bytes", VInt 1)].
Definition unit_reader : Value := VDict [("batch_size", VInt 1)].

(** The result files of a checkpointing run of llama3-8b on 8 processes
    that writes [writes] checkpoints and reads [reads]. *)
Definition checkpoint_result (dir : string) (writes reads : Z) : BenchmarkResult.t :=
  BenchmarkResult.mk dir (VDict [])
    (VDict [("workload", VDict [("model", VDict [("name", VStr "llama_8b")])]);
            ("num_accelerators", VInt 8);
            ("start", VStr "2025-01-01T00:00:00");
            ("metric", VDict []);
            ("host_memory_GB", VList [VInt 512; VInt 512]);
            ("host_cpu_count", VList [VInt 64; VInt 64]);
            ("num_hosts", VInt 2)])
    [("config.yaml",
      VDict [("workload",
              VDict [("model", VDict [("name", VStr "llama_8b")]);
                     ("workflow", VDict [("generate_data", VBool false);
                                         ("train", VBool false);
                                         ("checkpoint", VBool true)]);
                     ("checkpoint", VDict [("num_checkpoints_write", VInt writes);
                                           ("num_checkpoints_read", VInt reads)])])]);
     ("overrides.yaml",
      VList [VStr "workload=llama3_8b";
             VStr ("++workload.checkpoint.num_checkpoints_write=" +:+ pretty writes);
             VStr ("++workload.checkpoint.num_checkpoints_read=" +:+ pretty reads)])].

(** The run [BenchmarkRun(benchmark_result=...)] builds from these files. *)
Definition checkpoint_run (dir : string) (writes reads : Z) : BenchmarkRun.t :=
  let r := checkpoint_result dir writes reads in
  BenchmarkRun.mk (Some checkpointing) (VStr "llama3-8b") VNone VNone (VInt 8)
    (VDict [("model", VDict [("name", VStr "llama_8b")]);
            ("workflow", VDict [("generate_data", VBool false);
                                ("train", VBool false);
                                ("checkpoint", VBool true)]);
            ("checkpoint", VDict [("num_checkpoints_write", VInt writes);
                                  ("num_checkpoints_read", VInt reads)])])
    [("checkpoint.num_checkpoints_write", pretty writes);
     ("checkpoint.num_checkpoints_read", pretty reads)]
    (Some (ClusterInformation.mk [] (1024 * 1024 * 1024 * 1024) 128))
    (VDict [])
    (Some (RunID.mk "checkpointing" VNone (VStr "llama3-8b") (VStr "2025-01-01T00:00:00")))
    None [] (VStr "2025-01-01T00:00:00") VNone (FromResult r).

(** A live training benchmark, before it executes. *)
Definition live_training : Benchmark.t :=
  Benchmark.mk training
    [("model", VStr "unet3d"); ("command", VStr "run"); ("num_processes", VInt 8)]
    (VStr "20250101_000000") None
    [("dataset.num_files_train", "60000"); ("reader.data_loader", "dali");
     ("workflow.checkpoint", "True"); ("dataset.record_length_bytes", "4096")]
    (Some cluster_1TiB).

Definition live_training_run : BenchmarkRun.t :=
  BenchmarkRun.mk (Some training) (VStr "unet3d") VNone (VStr "run") (VInt 8)
    (VDict (Benchmark.args live_training))
    (Benchmark.params_dict live_training)
    (Some cluster_1TiB) (VDict [])
    (Some (RunID.mk "training" (VStr "run") (VStr "unet3d") (VStr "20250101_000000")))
    None [] (VStr "20250101_000000") VNone (FromInstance live_training).

(** A training run on the 1 TiB cluster that was told to use [num_files]
    training files; [reader] is its reader section, if it has one. *)
Definition scenario_training_run (num_files : Z) (reader : option Value) : BenchmarkRun.t :=
  BenchmarkRun.mk (Some training) (VStr "resnet50") (VStr "h100") (VStr "run_benchmark")
    (VInt 8)
    (VDict ([("dataset",
              VDict [("num_files_train", VInt num_files);
                     ("num_samples_per_file", VInt 1000);
                     ("record_length_bytes", VInt 100000)])]
            ++ from_option (λ r, [("reader", r)]) [] reader))
    [("dataset.num_files_train", pretty num_files)]
    (Some cluster_1TiB) (VDict [])
    (Some (RunID.mk "training" (VStr "run_benchmark") (VStr "resnet50")
                    (VStr "20250101_000000")))
    None [] (VStr "20250101_000000") VNone (FromInstance live_training).

(** Three check methods, the second of which raises. *)
Definition sample_finding (v : PARAM_VALIDATION) (text : string) : Issue :=
  mkIssue v text None None None "error".

Definition sample_checks : RulesChecker.t :=
  [ mkCheck "check_a" (Ok (RIssue (sample_finding OPEN "a")));
    mkCheck "check_b" (raise KeyError "'reader'");
    mkCheck "check_c" (Ok (RIssues [sample_finding CLOSED "c1"; sample_finding CLOSED "c2"])) ].

(** A checkpointing submission that splits its ten writes and ten reads
    over two runs, before and after each run was verified on its own. *)
Definition run_a : BenchmarkRun.t := checkpoint_run "/results/a" 10 0.
Definition run_b : BenchmarkRun.t := checkpoint_run "/results/b" 0 10.

Definition verified (run : BenchmarkRun.t) : BenchmarkRun.t :=
  BenchmarkRun.set_category (BenchmarkRun.set_issues run []) CLOSED.

Definition submission : list BenchmarkRun.t := [verified run_a; verified run_b].

Definition submission_verifier : BenchmarkVerifier.t :=
  BenchmarkVerifier.mk multi submission
    (Some (CheckpointSubmissionRulesChecker.init submission)) [].

(** ** More vocabulary *)


(** The verifier [self] with [checker] as its rules checker. *)
Definition with_checker (self : BenchmarkVerifier.t) (checker : RulesChecker.t)
  : BenchmarkVerifier.t :=
  BenchmarkVerifier.mk (BenchmarkVerifier.mode self) (BenchmarkVerifier.benchmark_runs self)
                       (Some checker) (BenchmarkVerifier.issues self).

(** The memory and the cores of a list of hosts, added up; a host
    without CPU information has no cores to add. *)
Definition memory_of (hosts : list HostInfo.t) : Z :=
  total ((λ h, HostMemoryInfo.total (HostInfo.memory h)) <$> hosts).
Definition cores_of (hosts : list HostInfo.t) : Z :=
  total ((λ h, from_option HostCPUInfo.num_cores 0 (HostInfo.cpu h)) <$> hosts).

(** A training run that was told to use [N] training files, on a cluster
    with [M] bytes of memory, with [S] samples per file of [R] bytes, a
    batch size of [B] and [P] processes. *)
Definition file_count_inputs (run : BenchmarkRun.t) (N M S R B P : Z) : Prop :=
  ∃ parameters dataset reader ci,
    BenchmarkRun.parameters run = VDict parameters
    ∧ dict_lookup "dataset" parameters = Some (VDict dataset)
    ∧ dict_lookup "num_files_train" dataset = Some (VInt N)
    ∧ dict_lookup "reader" parameters = Some reader
    ∧ BenchmarkRun.system_info run = Some ci
    ∧ sizing_inputs ci (VDict dataset) reader M S R B
    ∧ BenchmarkRun.num_processes run = VInt P.

(** The stage [stage] of the workflow section of the resolved
    configuration of a result, [{}] when it is not there. *)
Definition workflow_stage (r : BenchmarkResult.t) (stage : string) : result Value :=
  config_yaml ← py_get (VDict (BenchmarkResult.hydra_configs r)) "config.yaml" empty_dict;
  workload ← py_get config_yaml "workload" empty_dict;
  workflow ← py_get workload "workflow" empty_dict;
  py_get workflow stage empty_dict.

(** ** More sample inputs *)

Definition manual_args : Args.t :=
  Args.mk (VInt 512) (VInt 2) VNone ["node1"; "node2"] (VInt 8).

Definition args_without_memory : Args.t :=
  Args.mk VNone VNone VNone ["node1"] (VInt 8).

Definition two_hosts : list HostInfo.t :=
  [ HostInfo.mk "node1" (HostMemoryInfo.from_total_mem_int (512 * 2 ^ 30))
                (Some (HostCPUInfo.mk 64 128 "epyc" "x86_64"));
    HostInfo.mk "node2" (HostMemoryInfo.from_total_mem_int (512 * 2 ^ 30)) None ].

(** The parameters of [scenario_training_run], with a workflow section
    that turns the checkpoint stage on or off. *)
Definition unet_run (checkpoint : Value) (odirect : Value) : BenchmarkRun.t :=
  BenchmarkRun.mk (Some training) (VStr "unet3d") (VStr "h100") (VStr "run_benchmark")
    (VInt 8)
    (VDict [("workflow", VDict [("generate_data", VBool false); ("train", VBool true);
                                ("checkpoint", checkpoint)]);
            ("reader", VDict [("batch_size", VInt 7); ("odirect", odirect)])])
    [] (Some cluster_1TiB) (VDict []) None None [] VNone VNone (FromInstance live_training).

(** The category [verify] resolves for a list of findings. *)
Definition resolved_category (findings : list Issue) : PARAM_VALIDATION :=
  if 0 <? count_validation INVALID findings then INVALID
  else if 0 <? count_validation OPEN findings then OPEN
  else CLOSED.

(** A live checkpointing benchmark and the run built from it. *)
Definition live_checkpointing : Benchmark.t :=
  Benchmark.mk checkpointing
    [("model", VStr "llama3-8b"); ("command", VStr "run"); ("num_processes", VInt 8);
     ("results_dir", VStr "/results")]
    (VStr "20250101_000000") None [] None.

Definition live_checkpointing_run : BenchmarkRun.t :=
  BenchmarkRun.mk (Some checkpointing) (VStr "llama3-8b") VNone (VStr "run") (VInt 8)
    (VDict (Benchmark.args live_checkpointing)) [] None (VDict [])
    (Some (RunID.mk "checkpointing" (VStr "run") (VStr "llama3-8b")
                    (VStr "20250101_000000")))
    (Some CLOSED) [] (VStr "20250101_000000") VNone (FromInstance live_checkpointing).

(** A submission with one run that was built from a live benchmark. *)
Definition live_submission_verifier : BenchmarkVerifier.t :=
  BenchmarkVerifier.mk multi [verified run_a; live_checkpointing_run]
    (Some (CheckpointSubmissionRulesChecker.init [verified run_a; live_checkpointing_run]))
    [].

Definition single_verifier : BenchmarkVerifier.t :=
  BenchmarkVerifier.mk single [run_a] (Some (CheckpointingRunRulesChecker.init run_a)) [].

(** Two runs agree in everything but their findings and their category. *)
Definition same_run_data (a b : BenchmarkRun.t) : Prop :=
  BenchmarkRun.benchmark_type a = BenchmarkRun.benchmark_type b
  ∧ BenchmarkRun.model a = BenchmarkRun.model b
  ∧ BenchmarkRun.accelerator a = BenchmarkRun.accelerator b
  ∧ BenchmarkRun.command a = BenchmarkRun.command b
  ∧ BenchmarkRun.num_processes a = BenchmarkRun.num_processes b
  ∧ BenchmarkRun.parameters a = BenchmarkRun.parameters b
  ∧ BenchmarkRun.override_parameters a = BenchmarkRun.override_parameters b
  ∧ BenchmarkRun.system_info a = BenchmarkRun.system_info b
  ∧ BenchmarkRun.metrics a = BenchmarkRun.metrics b
  ∧ BenchmarkRun._run_id a = BenchmarkRun._run_id b
  ∧ BenchmarkRun.run_datetime a = BenchmarkRun.run_datetime b
  ∧ BenchmarkRun.result_root_dir a = BenchmarkRun.result_root_dir b
  ∧ BenchmarkRun.source a = BenchmarkRun.source b.

(** The run [run_a] as an earlier verification, of other rules, would
    have left it: with an INVALID finding and the category INVALID. *)
Definition stale_finding : Issue :=
  mkIssue INVALID "Left over from an earlier verification" (Some "checkpoint") None None
          "error".

Definition stale_run : BenchmarkRun.t :=
  BenchmarkRun.mk (Some checkpointing) (BenchmarkRun.model run_a)
    (BenchmarkRun.accelerator run_a) (BenchmarkRun.command run_a)
    (BenchmarkRun.num_processes run_a) (BenchmarkRun.parameters run_a)
    (BenchmarkRun.override_parameters run_a) (BenchmarkRun.system_info run_a)
    (BenchmarkRun.metrics run_a) (BenchmarkRun._run_id run_a)
    (Some INVALID) [stale_finding]
    (BenchmarkRun.run_datetime run_a) (BenchmarkRun.result_root_dir run_a)
    (BenchmarkRun.source run_a).

Definition stale_verifier : BenchmarkVerifier.t :=
  BenchmarkVerifier.mk single [stale_run]
    (Some (CheckpointingRunRulesChecker.init stale_run)) [].

(** The verifier [verify] hands back, or the one it was given if it
    raised. *)
Definition verifier_after (self : BenchmarkVerifier.t) : BenchmarkVerifier.t :=
  match BenchmarkVerifier.verify self with
  | Ok (_, self') => self'
  | Raise _ => self
  end.

(** The run [run] once it was found to be of category [category]. *)
Definition classified_as (category : PARAM_VALIDATION) (run : BenchmarkRun.t)
  : BenchmarkRun.t :=
  BenchmarkRun.set_category (BenchmarkRun.set_issues run []) category.


(** A training run, built from result files, that was not verified. *)
Definition training_result_run (dir : string) : BenchmarkRun.t :=
  BenchmarkRun.mk (Some training) (VStr "unet3d") (VStr "h100") (VStr "run_benchmark")
    (VInt 8) (VDict []) [] (Some cluster_1TiB) (VDict []) None None [] VNone VNone
    (FromResult (BenchmarkResult.mk dir VNone (VDict []) [])).

(** The result files of a run of unet3d that generated its data, trained
    and wrote checkpoints in one go, with a repeated override. *)
Definition training_result : BenchmarkResult.t :=
  BenchmarkResult.mk "/results/training" VNone
    (VDict [("num_accelerators", VInt 8);
            ("start", VStr "2025-01-01T00:00:00");
            ("metric", VDict []);
            ("host_memory_GB", VList [VInt 512]);
            ("host_cpu_count", VList [VInt 64]);
            ("num_hosts", VInt 1)])
    [("config.yaml",
      VDict [("workload",
              VDict [("model", VDict [("name", VStr "llama_70b_zero")]);
                     ("workflow", VDict [("generate_data", VBool true);
                                         ("train", VBool true);
                                         ("checkpoint", VBool true)])])]);
     ("overrides.yaml",
      VList [VStr "workload=unet3d_h100";
             VStr "++workload.dataset.num_files_train=100";
             VStr "++workload.reader.read_threads=4";
             VStr "++workload.dataset.num_files_train=200";
             VStr "hydra.run.dir=/results/training"])].

(** What a construction returned, or an empty run if it raised. *)
Definition constructed (r : result BenchmarkRun.t) : BenchmarkRun.t :=
  match r with
  | Ok run => run
  | Raise _ => BenchmarkRun.blank (FromResult training_result)
  end.

Definition training_result_run_built : BenchmarkRun.t :=
  Eval vm_compute in constructed (BenchmarkRun.init (Some training_result) None).

(** ** Vocabulary for hosts and output locations *)

(** The keys of [/proc/meminfo] that [from_proc_meminfo_dict] reads. *)
Definition meminfo_keys : list string :=
  ["MemTotal"; "MemAvailable"; "MemUsed"; "MemFree"; "Active"; "Inactive";
   "Buffers"; "Cached"; "Shmem"].

(** The entry [key] of [data] is a text such as [16384 kB]: a first word
    without a blank, which is the literal of [n], then a blank and the
    rest. The literal stays within the interpreter's limit on the length
    of an integer literal. *)
Definition meminfo_entry (data : PyDict) (key : string) (n : Z) : Prop :=
  ∃ word rest,
    dict_lookup key data = Some (VStr (word +:+ " " +:+ rest))
    ∧ str_contains " " word = false
    ∧ (String.length word ≤ 4300)%nat
    ∧ int_of_str word = Ok n.

(** A directory name that another component can be appended to with a
    separator: not empty and without a trailing slash. *)
Definition open_dir (s : string) : bool :=
  negb (String.eqb s "") && negb (endswith s "/").

(** One component of a relative path: not empty, no slash at either end. *)
Definition segment (s : string) : bool :=
  open_dir s && negb (startswith s "/").

(** The integers of a summary array. *)
Definition int_array (l : list Z) : Value := VList (VInt <$> l).

(** ** Sample host and output data *)

Definition meminfo_sample : PyDict :=
  [("MemTotal", VStr "16384 kB"); ("MemAvailable", VStr "8192 kB");
   ("MemUsed", VStr "4096 kB"); ("MemFree", VStr "2048 kB");
   ("Active", VStr "1024 kB"); ("Inactive", VStr "512 kB");
   ("Buffers", VStr "256 kB"); ("Cached", VStr "128 kB"); ("Shmem", VStr "64 kB")].

(** The entries of [/proc/meminfo] as the kernel names them: there is no
    [MemUsed] among them. *)
Definition meminfo_of_kernel : PyDict :=
  [("MemTotal", VStr "16384 kB"); ("MemAvailable", VStr "8192 kB");
   ("MemFree", VStr "2048 kB");
   ("Active", VStr "1024 kB"); ("Inactive", VStr "512 kB");
   ("Buffers", VStr "256 kB"); ("Cached", VStr "128 kB"); ("Shmem", VStr "64 kB")].

Definition live_vectordb : Benchmark.t :=
  Benchmark.mk vector_database
    [("command", VStr "run"); ("num_processes", VInt 1); ("results_dir", VStr "/results")]
    (VStr "20250101_000000") None [] None.

(** The components that [generate_output_location] puts between the
    name of the benchmark type and the date. *)
Definition location_components (t : BENCHMARK_TYPES) (model command : string)
  : list string :=
  match t with
  | training => [model; command]
  | vector_database => [command]
  | checkpointing => [model]
  end.

(** A live vector database benchmark. *)
Definition live_vectordb_run : BenchmarkRun.t :=
  Eval vm_compute in constructed (BenchmarkRun.init None (Some live_vectordb)).

(** ** First runs of the model *)

(** Conjunctions of closed facts that evaluation settles. *)
Ltac by_computation :=
  try unfold size_report_writable; cbv zeta;
  repeat match goal with |- _ ∧ _ => split end; vm_compute; reflexivity.

(** The limits of the interpreter, at their edges. *)
Example int_of_str_digit_limit :
  is_Ok (int_of_str (str_repeat 4300 "1")) = true
  ∧ is_Ok (int_of_str (str_repeat 4301 "1")) = false
  ∧ int_of_str (str_repeat 4300 "0") = Ok 0.
Proof. by_computation. Qed.

Example format_int_digit_limit :
  format_int (10 ^ 4300 - 1) = Ok ()
  ∧ format_int (- (10 ^ 4300 - 1)) = Ok ()
  ∧ is_Ok (format_int (10 ^ 4300)) = false.
Proof. by_computation. Qed.

Example truediv_float_range :
  truediv (2 ^ 1034 - 2 ^ 980 - 1) 1024 = Ok ()
  ∧ truediv (- (2 ^ 1034 - 2 ^ 980 - 1)) 1024 = Ok ()
  ∧ truediv (2 ^ 1034 - 2 ^ 980) 1024
    = raise OverflowError "integer division result too large for a float".
Proof. by_computation. Qed.

(** The sizing function on operands that are not integers: a string as
    the process count is repeated first, so that a missing batch size is
    what raises; with a batch size the repetition goes through and the
    floor division raises, unless the count is no index. *)
Example sizing_with_text_for_processes :
  exc_class_of (calculate_training_data_size None (Some cluster_1TiB) scenario_dataset
                  (VDict []) (VStr "8"))
  = Some KeyError
  ∧ calculate_training_data_size None (Some cluster_1TiB) scenario_dataset
      scenario_reader (VStr "8")
    = raise TypeError "unsupported operand type(s) for //: 'str' and 'int'"
  ∧ calculate_training_data_size None (Some cluster_1TiB) scenario_dataset
      (VDict [("batch_size", VInt (10 ^ 30))]) (VStr "8")
    = raise OverflowError "cannot fit 'int' into an index-sized integer"
  ∧ calculate_training_data_size None (Some cluster_1TiB) scenario_dataset
      scenario_reader VNone
    = raise TypeError "unsupported operand type(s) for *: 'int' and 'NoneType'".
Proof. by_computation. Qed.


Example checkpoint_run_constructed :
  BenchmarkRun.init (Some (checkpoint_result "/results/a" 10 0)) None
  = Ok (checkpoint_run "/results/a" 10 0).
Proof. vm_compute. reflexivity. Qed.

Example live_training_run_constructed :
  BenchmarkRun.init None (Some live_training) = Ok live_training_run.
Proof. vm_compute. reflexivity. Qed.

Example submission_verifier_constructed :
  BenchmarkVerifier.init "unet3d" [ARun (verified run_a); ARun (verified run_b)]
  = Ok submission_verifier.
Proof. vm_compute. reflexivity. Qed.

Example submission_verified :
  (λ r, r.1) <$> BenchmarkVerifier.verify submission_verifier = Ok CLOSED.
Proof. vm_compute. reflexivity. Qed.

(** Seven reads in all: the reads finding is INVALID, the writes finding
    is CLOSED, and the submission is INVALID. *)
Example seven_reads_submission_invalid :
  (self ← BenchmarkVerifier.init "unet3d"
            [ARun (verified (checkpoint_run "/results/a" 10 3));
             ARun (verified (checkpoint_run "/results/b" 0 4))];
   outcome ← BenchmarkVerifier.verify self;
   mret (outcome.1, validation <$> BenchmarkVerifier.issues outcome.2))
  = Ok (INVALID, [INVALID; CLOSED; CLOSED]).
Proof. vm_compute. reflexivity. Qed.

(** A live training benchmark that verifies itself before it runs: one
    override is not allowed and its arguments hold no dataset section. *)
Example live_training_invalid :
  (self ← BenchmarkVerifier.init "unet3d" [ABenchmark live_training];
   outcome ← BenchmarkVerifier.verify self;
   mret (outcome.1, validation <$> BenchmarkVerifier.issues outcome.2))
  = Ok (INVALID, [CLOSED; OPEN; INVALID; INVALID]).
Proof. vm_compute. reflexivity. Qed.

(** The file-count check against the sizing function, and what becomes
    of it when the reader section it needs is not there. *)
Example too_few_training_files :
  RulesChecker.run_checks
    (TrainingRunRulesChecker.init "unet3d" (scenario_training_run 50000 (Some scenario_reader)))
  = [ mkIssue CLOSED "Closed parameter override allowed: dataset.num_files_train = 50000"
              (Some "Overrode Parameters") None (Some (VStr "50000")) "error";
      mkIssue INVALID "Insufficient number of training files"
              (Some "dataset.num_files_train") (Some (VStr ">= 54975"))
              (Some (VInt 50000)) "error" ].
Proof. vm_compute. reflexivity. Qed.

Example missing_reader_section :
  RulesChecker.run_checks
    (TrainingRunRulesChecker.init "unet3d" (scenario_training_run 60000 None))
  = [ mkIssue CLOSED "Closed parameter override allowed: dataset.num_files_train = 60000"
              (Some "Overrode Parameters") None (Some (VStr "60000")) "error";
      mkIssue INVALID "Check check_num_files_train failed with error: 'reader'"
              None None None "error" ].
Proof. vm_compute. reflexivity. Qed.

Example sample_checks_run :
  RulesChecker.run_checks sample_checks
  = [ sample_finding OPEN "a";
      sample_finding INVALID "Check check_b failed with error: 'reader'";
      sample_finding CLOSED "c1"; sample_finding CLOSED "c2" ].
Proof. reflexivity. Qed.

(** * Properties *)

(** ** The sizing function *)

Lemma bind_Ok {A B} (m : result A) (f : A → result B) (y : B) :
  m ≫= f = Ok y → ∃ x, m = Ok x ∧ f x = Ok y.
Proof. destruct m as [x | e]; [| done]. intros H. by exists x. Qed.

Lemma Ok_bind {A B} (m : result A) (f : A → result B) (x : A) (y : B) :
  m = Ok x → f x = Ok y → m ≫= f = Ok y.
Proof. by intros -> ?. Qed.

Lemma floordiv_ok (a b : Z) : b ≠ 0 → floordiv a b = Ok (a `div` b).
Proof.
  intros Hb. unfold floordiv.
  destruct (Z.eqb_spec b 0); done.
Qed.

Lemma limits_ordered : 0 < FLOAT_MB_LIMIT ∧ FLOAT_MB_LIMIT < INT_TEXT_LIMIT.
Proof. split; vm_compute; reflexivity. Qed.

Lemma format_int_Ok (z : Z) : format_int z = Ok () ↔ Z.abs z < INT_TEXT_LIMIT.
Proof.
  unfold format_int.
  change (10 ^ Z.of_nat INT_MAX_STR_DIGITS) with INT_TEXT_LIMIT.
  destruct (Z.leb_spec INT_TEXT_LIMIT (Z.abs z)); split; (done || lia).
Qed.

Lemma truediv_1024_Ok (a : Z) : truediv a 1024 = Ok () ↔ Z.abs a < FLOAT_MB_LIMIT.
Proof.
  unfold truediv.
  change (Z.abs 1024 * (2 ^ 1024 - 2 ^ 970)) with FLOAT_MB_LIMIT.
  change (1024 =? 0) with false. cbv iota.
  destruct (Z.leb_spec FLOAT_MB_LIMIT (Z.abs a)); split; (done || lia).
Qed.

(** On the measured path the function comes to its size report with
    the numbers of a closed formula. *)
Lemma sizing_measured_report ci dataset_params reader_params M S R B P :
  sizing_inputs ci dataset_params reader_params M S R B →
  S ≠ 0 → R ≠ 0 →
  calculate_training_data_size None (Some ci) dataset_params reader_params (VInt P)
  = (let by_bytes := (5 * M) `div` (S * R) in
     let by_samples := (500 * P * B) `div` S in
     let n := Z.max by_bytes by_samples in
     _ ← format_int n;
     _ ← format_int (500 * P * B);
     _ ← format_int by_samples;
     _ ← format_int by_bytes;
     _ ← truediv (n * (S * R)) 1024;
     _ ← format_int (by_bytes * S);
     Ok (n, 0, n * (S * R))).
Proof.
  intros (HM & HS & HR & HB) HS0 HR0.
  unfold calculate_training_data_size.
  rewrite HM, HS, HR, HB.
  cbn [mbind result_bind mret result_ret py_mul int_like int_operands format_number].
  rewrite (floordiv_ok (5 * M) (S * R)) by lia.
  cbn [mbind result_bind mret result_ret py_mul int_like int_operands format_number].
  rewrite (floordiv_ok (500 * P * B) S) by done.
  reflexivity.
Qed.

Lemma sizing_measured ci dataset_params reader_params M S R B P :
  sizing_inputs ci dataset_params reader_params M S R B →
  S ≠ 0 → R ≠ 0 →
  size_report_writable M S R B P →
  calculate_training_data_size None (Some ci) dataset_params reader_params (VInt P)
  = Ok (let n := Z.max ((5 * M) `div` (S * R)) ((500 * P * B) `div` S) in
        (n, 0, n * (S * R))).
Proof.
  intros Hin HS0 HR0 (H1 & H2 & H3 & H4 & H5 & H6).
  rewrite (sizing_measured_report _ _ _ _ _ _ _ _ Hin HS0 HR0). cbv zeta.
  apply format_int_Ok in H1, H2, H3, H4, H6. apply truediv_1024_Ok in H5.
  by rewrite H1, H2, H3, H4, H5, H6.
Qed.

(** Whatever the function returns on the measured path is what the
    formula gives, and its report was written. *)
Lemma sizing_measured_inv ci dataset_params reader_params M S R B P result :
  sizing_inputs ci dataset_params reader_params M S R B →
  S ≠ 0 → R ≠ 0 →
  calculate_training_data_size None (Some ci) dataset_params reader_params (VInt P)
  = Ok result →
  size_report_writable M S R B P
  ∧ result = (let n := Z.max ((5 * M) `div` (S * R)) ((500 * P * B) `div` S) in
              (n, 0, n * (S * R))).
Proof.
  intros Hin HS0 HR0.
  rewrite (sizing_measured_report _ _ _ _ _ _ _ _ Hin HS0 HR0). cbv zeta. intros H.
  apply bind_Ok in H as ([] & H1 & H). apply bind_Ok in H as ([] & H2 & H).
  apply bind_Ok in H as ([] & H3 & H). apply bind_Ok in H as ([] & H4 & H).
  apply bind_Ok in H as ([] & H5 & H). apply bind_Ok in H as ([] & H6 & H).
  injection H as <-.
  apply format_int_Ok in H1, H2, H3, H4, H6. apply truediv_1024_Ok in H5.
  by repeat split.
Qed.

(** Without a positive file shape there is no result: a file of zero
    bytes makes the division raise. *)
Lemma sizing_zero_file_size ci dataset_params reader_params M S R B P :
  sizing_inputs ci dataset_params reader_params M S R B →
  S * R = 0 →
  ∃ text,
    calculate_training_data_size None (Some ci) dataset_params reader_params (VInt P)
    = raise ZeroDivisionError text.
Proof.
  intros (HM & HS & HR & HB) H0.
  unfold calculate_training_data_size.
  rewrite HM, HS, HR, HB.
  cbn [mbind result_bind mret result_ret py_mul int_like int_operands].
  unfold floordiv at 1. rewrite H0. by eexists.
Qed.

Lemma file_count_mono (M M' S R B B' P P' : Z) :
  0 < S → 0 < R → M ≤ M' → 500 * P * B ≤ 500 * P' * B' →
  Z.max ((5 * M) `div` (S * R)) ((500 * P * B) `div` S)
  ≤ Z.max ((5 * M') `div` (S * R)) ((500 * P' * B') `div` S).
Proof.
  intros HS HR HM HPB.
  apply Z.max_le_compat; apply Z.div_le_mono; lia.
Qed.

(** C2, as the spec words it: for every memory [M] the function would
    return the file count of the formula. It does not: before it returns
    the function writes a size report, and for a memory of [10^320] bytes,
    with files of one sample of one byte, the size in MB of that report is
    beyond the range of a float; the division raises [OverflowError]. *)
Lemma calculate_training_data_size_beyond_float :
  (∃ text,
     calculate_training_data_size None (Some cluster_beyond_float) unit_dataset
       unit_reader (VInt 1)
     = raise OverflowError text)
  ∧ ¬ ∃ requiredFileCount,
        requiredFileCount = Z.max ((5 * 10 ^ 320) `div` (1 * 1)) ((500 * 1 * 1) `div` 1)
        ∧ calculate_training_data_size None (Some cluster_beyond_float) unit_dataset
            unit_reader (VInt 1)
          = Ok (requiredFileCount, 0, requiredFileCount * 1 * 1).
Proof.
  assert (∃ text,
            calculate_training_data_size None (Some cluster_beyond_float) unit_dataset
              unit_reader (VInt 1)
            = raise OverflowError text) as [text Hraise]
    by (eexists; vm_compute; reflexivity).
  split; [by exists text |].
  intros (n & _ & Hret). rewrite Hraise in Hret. discriminate Hret.
Qed.

(** C2, amended. On the measured path, for a cluster with [M] bytes of
    memory, [S > 0] samples per file, records of [R > 0] bytes, batch size
    [B] and [P] processes, and as long as the size report can be written
    (the integers it shows have at most 4300 digits, and the dataset size
    in bytes is below [2^1034 - 2^980] in absolute value, so that its size
    in MB is a float), the sizing function returns the file count
    [max (5*M // (S*R)) (500*P*B // S)], zero subfolders, and a disk size
    of that file count times [S * R]. When the report cannot be written
    the function raises and returns nothing. *)
Theorem calculate_training_data_size_formula
        ci dataset_params reader_params (M S R B P : Z) :
  sizing_inputs ci dataset_params reader_params M S R B →
  0 < S → 0 < R →
  ∃ requiredFileCount,
    requiredFileCount = Z.max ((5 * M) `div` (S * R)) ((500 * P * B) `div` S)
    ∧ (size_report_writable M S R B P →
       calculate_training_data_size None (Some ci) dataset_params reader_params (VInt P)
       = Ok (requiredFileCount, 0, requiredFileCount * S * R))
    ∧ (¬ size_report_writable M S R B P →
       is_Ok (calculate_training_data_size None (Some ci) dataset_params reader_params
                (VInt P))
       = false).
Proof.
  intros Hin HS HR. eexists; split; [reflexivity |]. split.
  - intros Hreport.
    rewrite (sizing_measured _ _ _ _ _ _ _ _ Hin) by (done || lia).
    cbv zeta. by rewrite Z.mul_assoc.
  - intros Hreport.
    destruct (calculate_training_data_size None (Some ci) dataset_params reader_params
                (VInt P)) as [result | e] eqn:Hcall; [| reflexivity].
    apply (sizing_measured_inv _ _ _ _ _ _ _ _ _ Hin) in Hcall as [Hwritable _];
      [done | lia | lia].
Qed.

Lemma calculate_training_data_size_formula_witness :
  size_report_writable (2 ^ 40) 1000 100000 32 8
  ∧ ∃ requiredFileCount,
      requiredFileCount
      = Z.max ((5 * 2 ^ 40) `div` (1000 * 100000)) ((500 * 8 * 32) `div` 1000)
      ∧ (size_report_writable (2 ^ 40) 1000 100000 32 8 →
         calculate_training_data_size None (Some cluster_1TiB) scenario_dataset
           scenario_reader (VInt 8)
         = Ok (requiredFileCount, 0, requiredFileCount * 1000 * 100000))
      ∧ (¬ size_report_writable (2 ^ 40) 1000 100000 32 8 →
         is_Ok (calculate_training_data_size None (Some cluster_1TiB) scenario_dataset
                  scenario_reader (VInt 8))
         = false).
Proof.
  split; [by_computation |].
  apply (calculate_training_data_size_formula cluster_1TiB scenario_dataset
           scenario_reader (2 ^ 40) 1000 100000 32 8).
  - repeat split; reflexivity.
  - lia.
  - lia.
Defined.

(** C8, as the spec words it: in the 1 TiB scenario the size-driven
    minimum would be 58982 files and that would be the file count
    returned. It is not: [5 * 2^40 // 10^8] is 54975. *)
Lemma scenario_1TiB_is_not_58982 :
  ¬ ((5 * 2 ^ 40) `div` (1000 * 100000) = 58982
     ∧ (500 * 8 * 32) `div` 1000 = 128
     ∧ returns_file_count
         (calculate_training_data_size None (Some cluster_1TiB) scenario_dataset
            scenario_reader (VInt 8))
         58982).
Proof.
  intros (_ & _ & (s & d & Hret)). vm_compute in Hret. discriminate.
Qed.

(** C8, amended. In the scenario with 1 TiB of memory, 1000 samples per
    file, records of 100000 bytes, batch size 32 and 8 processes, the
    size-driven minimum is 54975 files, the step-driven minimum is 128
    files, and the function returns 54975 files. *)
Theorem scenario_1TiB_file_count :
  (5 * 2 ^ 40) `div` (1000 * 100000) = 54975
  ∧ (500 * 8 * 32) `div` 1000 = 128
  ∧ returns_file_count
      (calculate_training_data_size None (Some cluster_1TiB) scenario_dataset
         scenario_reader (VInt 8))
      54975.
Proof.
  split; [reflexivity |]. split; [reflexivity |].
  exists 0, 5497500000000. reflexivity.
Qed.

(** C9. On valid inputs (a positive file shape, a batch size and a process
    count that are not negative) for which the function returns a file
    count, a file count it returns for more memory, for more processes or
    for a larger batch size, the other inputs staying as they are, is never
    smaller; and it does return one there whenever its size report can be
    written for the larger input. *)
Theorem required_file_count_monotonic
        ci dataset_params reader_params (M S R B P : Z) :
  sizing_inputs ci dataset_params reader_params M S R B →
  0 < S → 0 < R → 0 ≤ B → 0 ≤ P →
  size_report_writable M S R B P →
  ∃ n,
    returns_file_count
      (calculate_training_data_size None (Some ci) dataset_params reader_params (VInt P)) n
    ∧ (∀ ci',
         M ≤ ClusterInformation.total_memory_bytes ci' →
         (size_report_writable (ClusterInformation.total_memory_bytes ci') S R B P →
          ∃ n',
            returns_file_count
              (calculate_training_data_size None (Some ci') dataset_params reader_params
                 (VInt P)) n')
         ∧ ∀ n',
             returns_file_count
               (calculate_training_data_size None (Some ci') dataset_params reader_params
                  (VInt P)) n' →
             n ≤ n')
    ∧ (∀ P',
         P ≤ P' →
         (size_report_writable M S R B P' →
          ∃ n',
            returns_file_count
              (calculate_training_data_size None (Some ci) dataset_params reader_params
                 (VInt P')) n')
         ∧ ∀ n',
             returns_file_count
               (calculate_training_data_size None (Some ci) dataset_params reader_params
                  (VInt P')) n' →
             n ≤ n')
    ∧ (∀ reader_params' B',
         py_getitem reader_params' "batch_size" = Ok (VInt B') →
         B ≤ B' →
         (size_report_writable M S R B' P →
          ∃ n',
            returns_file_count
              (calculate_training_data_size None (Some ci) dataset_params reader_params'
                 (VInt P)) n')
         ∧ ∀ n',
             returns_file_count
               (calculate_training_data_size None (Some ci) dataset_params reader_params'
                  (VInt P)) n' →
             n ≤ n').
Proof.
  intros Hin HS HR HB HP Hreport.
  pose proof Hin as (HM & HSl & HRl & HBl).
  eexists. split.
  { rewrite (sizing_measured _ _ _ _ _ _ _ _ Hin) by (done || lia). by eexists _, _. }
  split; [| split].
  - intros ci' HM'.
    assert (sizing_inputs ci' dataset_params reader_params
              (ClusterInformation.total_memory_bytes ci') S R B) as Hin'
      by (by repeat split).
    split.
    + intros Hreport'.
      rewrite (sizing_measured _ _ _ _ _ _ _ _ Hin') by (done || lia). by eexists _, _, _.
    + intros n' (s' & d' & Hret).
      apply (sizing_measured_inv _ _ _ _ _ _ _ _ _ Hin') in Hret as [_ Hret];
        [| lia | lia].
      injection Hret as -> _ _. apply file_count_mono; lia.
  - intros P' HP'. split.
    + intros Hreport'.
      rewrite (sizing_measured _ _ _ _ _ _ _ _ Hin) by (done || lia). by eexists _, _, _.
    + intros n' (s' & d' & Hret).
      apply (sizing_measured_inv _ _ _ _ _ _ _ _ _ Hin) in Hret as [_ Hret];
        [| lia | lia].
      injection Hret as -> _ _. apply file_count_mono; nia.
  - intros reader_params' B' HB'l HB'.
    assert (sizing_inputs ci dataset_params reader_params' M S R B') as Hin'
      by (by repeat split).
    split.
    + intros Hreport'.
      rewrite (sizing_measured _ _ _ _ _ _ _ _ Hin') by (done || lia). by eexists _, _, _.
    + intros n' (s' & d' & Hret).
      apply (sizing_measured_inv _ _ _ _ _ _ _ _ _ Hin') in Hret as [_ Hret];
        [| lia | lia].
      injection Hret as -> _ _. apply file_count_mono; nia.
Qed.

Lemma required_file_count_monotonic_witness :
  ∃ n,
    returns_file_count
      (calculate_training_data_size None (Some cluster_1TiB) scenario_dataset
         scenario_reader (VInt 8)) n
    ∧ (∀ ci',
         2 ^ 40 ≤ ClusterInformation.total_memory_bytes ci' →
         (size_report_writable (ClusterInformation.total_memory_bytes ci') 1000 100000 32 8 →
          ∃ n',
            returns_file_count
              (calculate_training_data_size None (Some ci') scenario_dataset
                 scenario_reader (VInt 8)) n')
         ∧ ∀ n',
             returns_file_count
               (calculate_training_data_size None (Some ci') scenario_dataset
                  scenario_reader (VInt 8)) n' →
             n ≤ n')
    ∧ (∀ P',
         8 ≤ P' →
         (size_report_writable (2 ^ 40) 1000 100000 32 P' →
          ∃ n',
            returns_file_count
              (calculate_training_data_size None (Some cluster_1TiB) scenario_dataset
                 scenario_reader (VInt P')) n')
         ∧ ∀ n',
             returns_file_count
               (calculate_training_data_size None (Some cluster_1TiB) scenario_dataset
                  scenario_reader (VInt P')) n' →
             n ≤ n')
    ∧ (∀ reader_params' B',
         py_getitem reader_params' "batch_size" = Ok (VInt B') →
         32 ≤ B' →
         (size_report_writable (2 ^ 40) 1000 100000 B' 8 →
          ∃ n',
            returns_file_count
              (calculate_training_data_size None (Some cluster_1TiB) scenario_dataset
                 reader_params' (VInt 8)) n')
         ∧ ∀ n',
             returns_file_count
               (calculate_training_data_size None (Some cluster_1TiB) scenario_dataset
                  reader_params' (VInt 8)) n' →
             n ≤ n').
Proof.
  apply (required_file_count_monotonic cluster_1TiB scenario_dataset scenario_reader
           (2 ^ 40) 1000 100000 32 8).
  - repeat split; reflexivity.
  - lia.
  - lia.
  - lia.
  - lia.
  - by_computation.
Defined.

(** ** Running the checks *)

Section RunChecks.
Import RulesChecker.

Lemma run_check_acc issues log c :
  run_check (issues, log) c = (issues ++ check_findings c, log ++ check_log c).
Proof.
  unfold check_findings, check_log, run_check.
  destruct (call c) as [[| i | [| i l]] | e]; cbn;
    rewrite ?app_nil_r, <- ?app_assoc; reflexivity.
Qed.

Lemma run_checks_from issues log checks :
  foldl run_check (issues, log) checks
  = (issues ++ (run_checks_log checks).1, log ++ (run_checks_log checks).2).
Proof.
  revert issues log. induction checks as [| c checks IH]; intros issues log.
  - cbn. by rewrite !app_nil_r.
  - unfold run_checks_log. cbn [foldl].
    rewrite !run_check_acc, !IH. cbn. by rewrite !app_assoc.
Qed.

Lemma run_checks_log_app checks1 checks2 :
  run_checks_log (checks1 ++ checks2)
  = ((run_checks_log checks1).1 ++ (run_checks_log checks2).1,
     (run_checks_log checks1).2 ++ (run_checks_log checks2).2).
Proof.
  unfold run_checks_log at 1. rewrite foldl_app.
  fold (run_checks_log checks1).
  destruct (run_checks_log checks1) as [issues log].
  apply run_checks_from.
Qed.

Lemma run_checks_app checks1 checks2 :
  run_checks (checks1 ++ checks2) = run_checks checks1 ++ run_checks checks2.
Proof. unfold run_checks. by rewrite run_checks_log_app. Qed.

Lemma run_checks_cons c checks :
  run_checks (c :: checks) = check_findings c ++ run_checks checks.
Proof.
  change (c :: checks) with ([c] ++ checks). by rewrite run_checks_app.
Qed.

Lemma run_checks_log_cons c checks :
  (run_checks_log (c :: checks)).2 = check_log c ++ (run_checks_log checks).2.
Proof.
  change (c :: checks) with ([c] ++ checks). by rewrite run_checks_log_app.
Qed.

(** Every check method of the checker is called: its name is logged. *)
Lemma every_check_is_called checks c :
  c ∈ checks →
  (LogDebug, "Running check " +:+ method_name c) ∈ (run_checks_log checks).2.
Proof.
  induction checks as [| c' checks IH]; intros Hin.
  - by apply elem_of_nil in Hin.
  - rewrite run_checks_log_cons. apply elem_of_app.
    apply elem_of_cons in Hin as [-> | Hin]; [left | right; by apply IH].
    unfold check_log, run_check. cbn.
    destruct (call c') as [[| i | [| i l]] | e]; cbn; set_solver.
Qed.

Lemma failing_check_findings c e :
  call c = Raise e → check_findings c = [failure_issue c e].
Proof. intros H. unfold check_findings, run_check. by rewrite H. Qed.
End RunChecks.

(** C3. When one check method of a checker raises (an [Exception], which
    is what [run_checks] catches), [run_checks] still returns its list of
    findings. The findings of the check methods before
    and after the failing one are all there, as they are without it; the
    failing one stands for exactly one finding, INVALID, whose message names
    the check and carries the text of the error; and every check method of
    the checker has been called. *)
Theorem run_checks_isolates_failing_check
        (before after : list CheckMethod) (check : CheckMethod) (e : PyExc) :
  call check = Raise e →
  RulesChecker.run_checks (before ++ check :: after)
  = RulesChecker.run_checks before
    ++ [mkIssue INVALID
                ("Check " +:+ method_name check +:+ " failed with error: " +:+ exc_text e)
                None None None "error"]
    ++ RulesChecker.run_checks after
  ∧ ∀ c, c ∈ before ++ check :: after →
         (LogDebug, "Running check " +:+ method_name c)
         ∈ (RulesChecker.run_checks_log (before ++ check :: after)).2.
Proof.
  intros Hraise. split.
  - rewrite run_checks_app, run_checks_cons.
    by rewrite (failing_check_findings _ _ Hraise).
  - intros c. apply every_check_is_called.
Qed.

Lemma run_checks_isolates_failing_check_witness :
  RulesChecker.run_checks sample_checks
  = [sample_finding OPEN "a"]
    ++ [mkIssue INVALID "Check check_b failed with error: 'reader'" None None None "error"]
    ++ [sample_finding CLOSED "c1"; sample_finding CLOSED "c2"]
  ∧ ∀ c, c ∈ sample_checks →
         (LogDebug, "Running check " +:+ method_name c)
         ∈ (RulesChecker.run_checks_log sample_checks).2.
Proof.
  apply (run_checks_isolates_failing_check
           [mkCheck "check_a" (Ok (RIssue (sample_finding OPEN "a")))]
           [mkCheck "check_c"
                    (Ok (RIssues [sample_finding CLOSED "c1"; sample_finding CLOSED "c2"]))]
           (mkCheck "check_b" (raise KeyError "'reader'"))
           (mkExc KeyError "'reader'")).
  reflexivity.
Defined.

(** ** The verifier *)

Section Verify.
Import BenchmarkVerifier.

Lemma count_validation_nil v : count_validation v [] = 0.
Proof. reflexivity. Qed.

Lemma count_validation_cons v i l :
  count_validation v (i :: l)
  = (if bool_decide (validation i = v) then 1 else 0) + count_validation v l.
Proof.
  unfold count_validation. rewrite filter_cons.
  case_bool_decide; case_decide; try done; cbn [length]; lia.
Qed.

Lemma count_validation_nonneg v l : 0 ≤ count_validation v l.
Proof. unfold count_validation. lia. Qed.


(** The counting loop never meets an unknown classification, and its
    three counters are the numbers of findings of each kind. *)
Lemma count_issues_from (a b c : Z) (l : list Issue) :
  foldl count_issue (Ok (a, b, c)) l
  = Ok (a + count_validation INVALID l,
        b + count_validation OPEN l,
        c + count_validation CLOSED l).
Proof.
  revert a b c. induction l as [| i l IH]; intros a b c.
  - cbn. rewrite !count_validation_nil. by rewrite !Z.add_0_r.
  - cbn [foldl]. rewrite !count_validation_cons.
    unfold count_issue at 2. cbn.
    destruct (validation i); repeat case_bool_decide; try done;
      unfold mret, result_ret; rewrite IH; f_equal; repeat (f_equal; try lia).
Qed.

(** What [verify] comes to once the status line is out and the checker
    is known. *)
Lemma verify_unfold self checker :
  rules_checker self = Some checker →
  announce self = Ok () →
  let issues := RulesChecker.run_checks checker in
  let runs :=
    match mode self with
    | single => set_first_issues (benchmark_runs self) issues
    | multi => benchmark_runs self
    end in
  verify self
  = Ok (conclude self issues runs
          (if 0 <? count_validation INVALID issues then INVALID
           else if 0 <? count_validation OPEN issues then OPEN
           else CLOSED)).
Proof.
  intros Hchecker Hannounce. unfold verify.
  rewrite Hannounce, Hchecker. cbn.
  rewrite count_issues_from. cbn.
  rewrite !Z.add_0_l.
  destruct (0 <? count_validation INVALID _); [done |].
  by destruct (0 <? count_validation OPEN _).
Qed.

End Verify.



(** The only check method of the checkpointing single-run checker returns
    nothing, so the checker has no finding. *)
Lemma checkpointing_run_checker_silent run :
  RulesChecker.run_checks (CheckpointingRunRulesChecker.init run) = [].
Proof. reflexivity. Qed.

Lemma same_run_data_written (run : BenchmarkRun.t) (findings : list Issue)
      (category : PARAM_VALIDATION) :
  let run' := BenchmarkRun.set_category (BenchmarkRun.set_issues run findings) category in
  BenchmarkRun.issues run' = findings
  ∧ BenchmarkRun.category run' = Some category
  ∧ same_run_data run run'.
Proof. by repeat split. Qed.

(** C10. For a run whose benchmark type is checkpointing, the verifier
    built on that run alone is in single mode with the checkpointing
    single-run checker; that checker has no finding; [verify] returns CLOSED
    and hands the run back with an empty finding list, whatever findings
    it had before, with the category CLOSED, and otherwise as it was. *)
Theorem checkpointing_single_mode_closed (UNET : string) (run : BenchmarkRun.t) :
  BenchmarkRun.benchmark_type run = Some checkpointing →
  ∃ self self' run',
    BenchmarkVerifier.init UNET [ARun run] = Ok self
    ∧ BenchmarkVerifier.mode self = single
    ∧ BenchmarkVerifier.rules_checker self = Some (CheckpointingRunRulesChecker.init run)
    ∧ RulesChecker.run_checks (CheckpointingRunRulesChecker.init run) = []
    ∧ BenchmarkVerifier.verify self = Ok (CLOSED, self')
    ∧ BenchmarkVerifier.issues self' = []
    ∧ BenchmarkVerifier.benchmark_runs self' = [run']
    ∧ BenchmarkRun.issues run' = []
    ∧ BenchmarkRun.category run' = Some CLOSED
    ∧ same_run_data run run'.
Proof.
  intros Htype.
  eexists _, _, _. split.
  { cbn. rewrite Htype. reflexivity. }
  split; [reflexivity |]. split; [reflexivity |].
  split; [apply checkpointing_run_checker_silent |].
  split; [reflexivity |]. split; [reflexivity |]. split; [reflexivity |].
  apply same_run_data_written.
Qed.

Lemma checkpointing_single_mode_closed_witness :
  BenchmarkRun.issues stale_run = [stale_finding]
  ∧ ∃ self self' run',
      BenchmarkVerifier.init "unet3d" [ARun stale_run] = Ok self
      ∧ BenchmarkVerifier.mode self = single
      ∧ BenchmarkVerifier.rules_checker self
        = Some (CheckpointingRunRulesChecker.init stale_run)
      ∧ RulesChecker.run_checks (CheckpointingRunRulesChecker.init stale_run) = []
      ∧ BenchmarkVerifier.verify self = Ok (CLOSED, self')
      ∧ BenchmarkVerifier.issues self' = []
      ∧ BenchmarkVerifier.benchmark_runs self' = [run']
      ∧ BenchmarkRun.issues run' = []
      ∧ BenchmarkRun.category run' = Some CLOSED
      ∧ same_run_data stale_run run'.
Proof.
  split; [reflexivity |].
  apply (checkpointing_single_mode_closed "unet3d" stale_run).
  reflexivity.
Defined.

(** ** The override allow-list *)

Section AllowedParams.
Import TrainingRunRulesChecker.

Lemma allow_lists_disjoint param :
  param ∈ closed_allowed_params → param ∉ open_allowed_params.
Proof.
  unfold closed_allowed_params, open_allowed_params.
  rewrite !elem_of_cons, !elem_of_nil.
  intros Hc Ho.
  repeat (destruct Hc as [-> | Hc];
          [by repeat (destruct Ho as [Ho | Ho]; [discriminate Ho |]) |]).
  done.
Qed.

(** What one override adds to the findings collected so far. *)
Lemma check_override_acc issues item :
  check_override issues item = issues ++ check_override [] item.
Proof.
  unfold check_override. destruct item as [param value].
  repeat case_match; by rewrite ?app_nil_r.
Qed.

Lemma check_overrides_from issues items :
  foldl check_override issues items
  = issues ++ foldl check_override [] items.
Proof.
  revert issues. induction items as [| item items IH]; intros issues.
  - cbn. by rewrite app_nil_r.
  - cbn [foldl]. rewrite IH, (IH (check_override [] item)).
    by rewrite check_override_acc, app_assoc.
Qed.

Lemma check_override_exempt item :
  exempt item.1 → check_override [] item = [].
Proof.
  unfold exempt, check_override. destruct item as [param value]. cbn.
  by intros ->.
Qed.

Lemma check_override_classifies item :
  ¬ exempt item.1 → ∃ i, check_override [] item = [i] ∧ classifies item i.
Proof.
  unfold exempt, check_override, classifies. destruct item as [param value]. cbn.
  intros Hne. destruct (startswith param "workflow"); [done |].
  case_bool_decide as Hclosed; [| case_bool_decide as Hopen];
    eexists; (split; [reflexivity |]); cbn.
  - split; [done |]. split; [| done].
    intros Hopen. by destruct (allow_lists_disjoint _ Hclosed).
  - done.
  - done.
Qed.
End AllowedParams.

(** C4. The allow-list check returns a list that holds, for the overrides
    of the run that are not exempt and in their order, exactly one finding
    each: CLOSED for a key of the CLOSED-allowed list, OPEN for a key of
    the OPEN-allowed list, and for any other key INVALID with
    expected = "None" and a message that names the key. Keys that start
    with the workflow namespace are exempt and have no finding. *)
Theorem check_allowed_params_classifies_overrides (run : BenchmarkRun.t) :
  ∃ findings,
    TrainingRunRulesChecker.check_allowed_params run = Ok (RIssues findings)
    ∧ Forall2 classifies (non_exempt_overrides run) findings.
Proof.
  unfold TrainingRunRulesChecker.check_allowed_params, non_exempt_overrides.
  eexists. split; [reflexivity |].
  induction (BenchmarkRun.override_parameters run) as [| item items IH].
  - constructor.
  - cbn [foldl]. rewrite check_overrides_from, filter_cons.
    case_decide as Hex.
    + destruct (check_override_classifies item Hex) as (i & -> & Hi).
      by constructor.
    + by rewrite (check_override_exempt item Hex).

Qed.

Example check_allowed_params_live_training :
  TrainingRunRulesChecker.check_allowed_params live_training_run
  = Ok (RIssues
          [ mkIssue CLOSED "Closed parameter override allowed: dataset.num_files_train = 60000"
                    (Some "Overrode Parameters") None (Some (VStr "60000")) "error";
            mkIssue OPEN "Open parameter override allowed: reader.data_loader = dali"
                    (Some "Overrode Parameters") None (Some (VStr "dali")) "error";
            mkIssue INVALID
                    "Disallowed parameter override: dataset.record_length_bytes = 4096"
                    (Some "Overrode Parameters") (Some (VStr "None"))
                    (Some (VStr "4096")) "error" ]).
Proof. vm_compute. reflexivity. Qed.

(** ** The checkpointing run count *)

Section CheckpointCounts.
Import CheckpointSubmissionRulesChecker.


End CheckpointCounts.



(** The scenarios of the spec: ten writes in one run and ten reads in
    another; and a submission with seven reads in all. *)
Example check_num_runs_split :
  CheckpointSubmissionRulesChecker.check_num_runs [run_a; run_b]
  = Ok (RIssues
          [ mkIssue CLOSED "Found expected 10 total read operations"
                    (Some "checkpoint.num_checkpoints_read")
                    (Some (VInt 10)) (Some (VInt 10)) "error";
            mkIssue CLOSED "Found expected 10 total write operations"
                    (Some "checkpoint.num_checkpoints_write")
                    (Some (VInt 10)) (Some (VInt 10)) "error";
            mkIssue CLOSED "Found expected 10 total read and write operations"
                    (Some "checkpoint.num_checkpoints_read")
                    (Some (VInt 10)) (Some (VInt 10)) "error" ]).
Proof. vm_compute. reflexivity. Qed.

Example check_num_runs_seven_reads :
  CheckpointSubmissionRulesChecker.check_num_runs
    [checkpoint_run "/results/a" 10 3; checkpoint_run "/results/b" 0 4]
  = Ok (RIssues
          [ mkIssue INVALID "Expected 10 total read operations, but found 7"
                    (Some "checkpoint.num_checkpoints_read")
                    (Some (VInt 10)) (Some (VInt 7)) "error";
            mkIssue CLOSED "Found expected 10 total write operations"
                    (Some "checkpoint.num_checkpoints_write")
                    (Some (VInt 10)) (Some (VInt 10)) "error" ]).
Proof. vm_compute. reflexivity. Qed.

(** ** Constructing a run *)

(** C6. [BenchmarkRun] raises [ValueError] when given both a benchmark
    result and a benchmark instance, raises [ValueError] when given
    neither, and returns a run only when given exactly one of the two. *)
Theorem BenchmarkRun_needs_exactly_one_source :
  (∀ r b, ∃ text, BenchmarkRun.init (Some r) (Some b) = raise ValueError text)
  ∧ (∃ text, BenchmarkRun.init None None = raise ValueError text)
  ∧ (∀ benchmark_result benchmark_instance run,
       BenchmarkRun.init benchmark_result benchmark_instance = Ok run →
       (is_Some benchmark_result ∧ benchmark_instance = None)
       ∨ (benchmark_result = None ∧ is_Some benchmark_instance)).
Proof.
  split; [| split].
  - intros r b. by eexists.
  - by eexists.
  - intros [r |] [b |] run Hinit; try discriminate Hinit.
    + left. by split.
    + right. by split.
Qed.

Lemma BenchmarkRun_needs_exactly_one_source_witness :
  (is_Some (Some (checkpoint_result "/results/a" 10 0))
   ∧ (None : option Benchmark.t) = None)
  ∨ (Some (checkpoint_result "/results/a" 10 0) = None
     ∧ is_Some (None : option Benchmark.t)).
Proof.
  apply (proj2 (proj2 BenchmarkRun_needs_exactly_one_source)
           (Some (checkpoint_result "/results/a" 10 0)) None
           (checkpoint_run "/results/a" 10 0)).
  vm_compute. reflexivity.
Defined.

(** ** Category consistency of a submission *)

Section CategoryConsistency.
Import MultiRunRulesChecker.

Lemma elem_of_category_set runs c :
  c ∈ category_set runs ↔ ∃ run, run ∈ runs ∧ BenchmarkRun.category run = c.
Proof.
  unfold category_set. rewrite elem_of_list_to_set, list_elem_of_fmap.
  split; intros (run & H1 & H2); eauto.
Qed.

Lemma upper_values_resolved cats :
  Forall is_Some cats → ∃ names, upper_values cats = Ok names.
Proof.
  induction 1 as [| c cats [cat ->] _ [names IH]]; cbn.
  - by eexists.
  - rewrite IH. by eexists.
Qed.

Lemma category_issue_resolved (v : PARAM_VALIDATION) (text : string)
      (categories : gset (option PARAM_VALIDATION)) :
  (∀ c, c ∈ categories → is_Some c) →
  ∃ finding,
    category_issue v text categories = Ok (RIssue finding) ∧ validation finding = v.
Proof.
  intros Hres. unfold category_issue.
  destruct (upper_values_resolved (elements categories)) as [names ->].
  - apply Forall_forall. intros c Hc. apply Hres. by apply elem_of_elements.
  - cbn. by eexists.
Qed.

(** A run without a category, in a submission with no INVALID and no
    OPEN run, leaves the check without a finding. *)
Lemma check_runs_valid_unresolved runs :
  None ∈ category_set runs →
  Some INVALID ∉ category_set runs →
  Some OPEN ∉ category_set runs →
  check_runs_valid runs = Ok RNone.
Proof.
  intros Hnone Hinv Hopen. unfold check_runs_valid.
  rewrite !bool_decide_eq_false_2; [done | | done | done].
  intros Heq. rewrite <- Heq in Hnone. by apply elem_of_singleton in Hnone.
Qed.
End CategoryConsistency.

(** C7, as the spec words it: every multi-run submission would get
    exactly one finding from the category-consistency check. Two runs that
    were constructed and not verified yet have no category, and the check
    has no finding for them. *)
Lemma check_runs_valid_without_categories :
  MultiRunRulesChecker.check_runs_valid [run_a; run_b] = Ok RNone
  ∧ ¬ ∃ finding, MultiRunRulesChecker.check_runs_valid [run_a; run_b] = Ok (RIssue finding).
Proof.
  assert (MultiRunRulesChecker.check_runs_valid [run_a; run_b] = Ok RNone) as H.
  { vm_compute. reflexivity. }
  split; [done |]. intros [finding Hfinding]. congruence.
Qed.

(** C7, amended. For a submission that is not empty and whose runs all
    have a resolved category, the category-consistency check returns
    exactly one finding: INVALID if some run is INVALID; otherwise OPEN if
    some run is OPEN; otherwise, all runs being CLOSED, CLOSED. *)
Theorem check_runs_valid_resolved (runs : list BenchmarkRun.t) :
  runs ≠ [] →
  (∀ run, run ∈ runs → is_Some (BenchmarkRun.category run)) →
  ∃ finding,
    MultiRunRulesChecker.check_runs_valid runs = Ok (RIssue finding)
    ∧ ((∃ run, run ∈ runs ∧ BenchmarkRun.category run = Some INVALID) →
       validation finding = INVALID)
    ∧ ((∀ run, run ∈ runs → BenchmarkRun.category run ≠ Some INVALID) →
       (∃ run, run ∈ runs ∧ BenchmarkRun.category run = Some OPEN) →
       validation finding = OPEN)
    ∧ ((∀ run, run ∈ runs → BenchmarkRun.category run = Some CLOSED) →
       validation finding = CLOSED).
Proof.
  intros Hne Hres.
  assert (∀ c, c ∈ MultiRunRulesChecker.category_set runs → is_Some c) as Hset.
  { intros c (run & Hrun & <-)%elem_of_category_set. by apply Hres. }
  unfold MultiRunRulesChecker.check_runs_valid.
  case_bool_decide as Hinv; [| case_bool_decide as Hopen].
  - destruct (category_issue_resolved INVALID "Invalid runs found." _ Hset)
      as (finding & -> & Hv).
    exists finding. split; [done |]. split; [done |].
    apply elem_of_category_set in Hinv as (run & Hrun & Hcat).
    split.
    + intros Hnone. by destruct (Hnone run Hrun).
    + intros Hall. rewrite (Hall run Hrun) in Hcat. discriminate.
  - destruct (category_issue_resolved
                OPEN "All runs satisfy the OPEN or CLOSED category" _ Hset)
      as (finding & -> & Hv).
    exists finding. split; [done |].
    split.
    { intros (run & Hrun & Hcat). destruct Hinv. apply elem_of_category_set. eauto. }
    split; [done |].
    apply elem_of_category_set in Hopen as (run & Hrun & Hcat).
    intros Hall. rewrite (Hall run Hrun) in Hcat. discriminate.
  - assert (∀ run, run ∈ runs → BenchmarkRun.category run = Some CLOSED) as Hclosed.
    { intros run Hrun. destruct (Hres run Hrun) as [[| |] Hcat]; [done | |].
      - destruct Hopen. apply elem_of_category_set. eauto.
      - destruct Hinv. apply elem_of_category_set. eauto. }
    rewrite bool_decide_eq_true_2.
    + destruct (category_issue_resolved
                  CLOSED "All runs satisfy the CLOSED category" _ Hset)
        as (finding & -> & Hv).
      exists finding. split; [done |].
      split.
      { intros (run & Hrun & Hcat). rewrite (Hclosed run Hrun) in Hcat. discriminate. }
      split; [| done].
      intros _ (run & Hrun & Hcat). rewrite (Hclosed run Hrun) in Hcat. discriminate.
    + apply set_eq. intros c. rewrite elem_of_singleton, elem_of_category_set.
      split.
      * intros ->. destruct runs as [| run runs']; [done |].
        exists run. split; [left |]. apply Hclosed. left.
      * intros (run & Hrun & <-). by apply Hclosed.
Qed.

Lemma check_runs_valid_resolved_witness :
  ∃ finding,
    MultiRunRulesChecker.check_runs_valid submission = Ok (RIssue finding)
    ∧ ((∃ run, run ∈ submission ∧ BenchmarkRun.category run = Some INVALID) →
       validation finding = INVALID)
    ∧ ((∀ run, run ∈ submission → BenchmarkRun.category run ≠ Some INVALID) →
       (∃ run, run ∈ submission ∧ BenchmarkRun.category run = Some OPEN) →
       validation finding = OPEN)
    ∧ ((∀ run, run ∈ submission → BenchmarkRun.category run = Some CLOSED) →
       validation finding = CLOSED).
Proof.
  apply (check_runs_valid_resolved submission).
  - discriminate.
  - intros run Hrun. unfold submission in Hrun.
    apply elem_of_cons in Hrun as [-> | Hrun]; [by eexists |].
    apply elem_of_cons in Hrun as [-> | Hrun]; [by eexists |].
    by apply elem_of_nil in Hrun.
Defined.

(** * More properties of the code *)

(** ** The sizing function, continued *)

(** X1. Where the size report can be written, so that the sizing
    function returns, the dataset it asks for covers five times the memory
    up to less than one file, and 500 steps up to less than one file's
    samples: the divisions round down. The file count is not negative as
    soon as the memory or the step requirement is not. *)
Theorem sizing_covers_up_to_one_file
        ci dataset_params reader_params (M S R B P : Z) :
  sizing_inputs ci dataset_params reader_params M S R B →
  0 < S → 0 < R →
  size_report_writable M S R B P →
  ∃ n disk,
    calculate_training_data_size None (Some ci) dataset_params reader_params (VInt P)
    = Ok (n, 0, disk)
    ∧ disk = n * (S * R)
    ∧ 5 * M - S * R < disk
    ∧ 500 * P * B - S < n * S
    ∧ (0 ≤ M ∨ 0 ≤ P * B → 0 ≤ n).
Proof.
  intros Hin HS HR Hreport.
  rewrite (sizing_measured _ _ _ _ _ _ _ _ Hin) by (done || lia). cbv zeta.
  eexists _, _. split; [reflexivity |]. split; [reflexivity |].
  set (a := (5 * M) `div` (S * R)). set (b := (500 * P * B) `div` S).
  assert (5 * M < S * R * Z.succ a) by (apply Z.mul_succ_div_gt; lia).
  assert (500 * P * B < S * Z.succ b) by (by apply Z.mul_succ_div_gt).
  assert (0 ≤ M → 0 ≤ a) by (intros; apply Z.div_pos; lia).
  assert (0 ≤ P * B → 0 ≤ b) by (intros; apply Z.div_pos; lia).
  pose proof (Z.le_max_l a b). pose proof (Z.le_max_r a b).
  split; [nia |]. split; [nia |]. intros [? | ?]; lia.
Qed.

Lemma sizing_covers_up_to_one_file_witness :
  ∃ n disk,
    calculate_training_data_size None (Some cluster_1TiB) scenario_dataset
      scenario_reader (VInt 8)
    = Ok (n, 0, disk)
    ∧ disk = n * (1000 * 100000)
    ∧ 5 * 2 ^ 40 - 1000 * 100000 < disk
    ∧ 500 * 8 * 32 - 1000 < n * 1000
    ∧ (0 ≤ 2 ^ 40 ∨ 0 ≤ 8 * 32 → 0 ≤ n).
Proof.
  apply (sizing_covers_up_to_one_file cluster_1TiB scenario_dataset scenario_reader
           (2 ^ 40) 1000 100000 32 8).
  - repeat split; reflexivity.
  - lia.
  - lia.
  - by_computation.
Defined.

(** The shortfall is real: in the 1 TiB scenario the dataset asked for is
    smaller than five times the memory. *)
Example scenario_below_five_times_memory :
  ∃ n disk,
    calculate_training_data_size None (Some cluster_1TiB) scenario_dataset
      scenario_reader (VInt 8)
    = Ok (n, 0, disk)
    ∧ disk < 5 * 2 ^ 40.
Proof. eexists _, _. split; [reflexivity |]. reflexivity. Qed.

(** X2. With an args object that gives a memory per host [G] and a host
    count [H], both not zero, the function sizes for [G] GiB times [H] and
    for the process count of the args object; the cluster information and
    the process count it is called with play no part. *)
Theorem sizing_manual_override
        (args : Args.t) (G H : Z) cluster_information dataset_params reader_params
        num_processes :
  Args.client_host_memory_in_gb args = VInt G →
  Args.num_client_hosts args = VInt H →
  G ≠ 0 → H ≠ 0 →
  calculate_training_data_size (Some args) cluster_information dataset_params
    reader_params num_processes
  = calculate_training_data_size None
      (Some (ClusterInformation.mk [] (G * 1024 * 1024 * 1024 * H) 0))
      dataset_params reader_params (Args.num_processes args).
Proof.
  intros HG HH HG0 HH0. unfold calculate_training_data_size.
  rewrite HG, HH. cbn.
  destruct (Z.eqb_spec G 0); [done |]. destruct (Z.eqb_spec H 0); [done |].
  reflexivity.
Qed.

Lemma sizing_manual_override_witness :
  calculate_training_data_size (Some manual_args) None scenario_dataset
    scenario_reader VNone
  = calculate_training_data_size None
      (Some (ClusterInformation.mk [] (512 * 1024 * 1024 * 1024 * 2) 0))
      scenario_dataset scenario_reader (Args.num_processes manual_args).
Proof.
  apply (sizing_manual_override manual_args 512 2 None scenario_dataset scenario_reader
           VNone); [reflexivity | reflexivity | lia | lia].
Defined.

(** X3. An args object that gives no usable memory makes the function
    raise [ValueError], also when it is handed measured cluster
    information: the measurement is only read when there is no args object
    at all. *)
Theorem sizing_args_without_memory
        (args : Args.t) cluster_information dataset_params reader_params num_processes :
  truthy (Args.client_host_memory_in_gb args) && truthy (Args.num_client_hosts args)
  = false →
  truthy (Args.clienthost_host_memory_in_gb args)
  && negb (truthy (Args.num_client_hosts args)) = false →
  calculate_training_data_size (Some args) cluster_information dataset_params
    reader_params num_processes
  = raise ValueError "Either args or cluster_information is required".
Proof.
  intros H1 H2. unfold calculate_training_data_size. by rewrite H1, H2.
Qed.

Lemma sizing_args_without_memory_witness :
  calculate_training_data_size (Some args_without_memory) (Some cluster_1TiB)
    scenario_dataset scenario_reader (VInt 8)
  = raise ValueError "Either args or cluster_information is required".
Proof.
  apply (sizing_args_without_memory args_without_memory (Some cluster_1TiB)
           scenario_dataset scenario_reader (VInt 8)); reflexivity.
Defined.

(** X4. A file shape of zero bytes (no samples per file, or records of no
    length) makes the function raise [ZeroDivisionError]; it returns no
    file count for it. *)
Theorem sizing_zero_file_size_raises
        ci dataset_params reader_params (M S R B P : Z) :
  sizing_inputs ci dataset_params reader_params M S R B →
  S * R = 0 →
  ∃ e,
    calculate_training_data_size None (Some ci) dataset_params reader_params (VInt P)
    = Raise e
    ∧ exc_class e = ZeroDivisionError.
Proof.
  intros Hin H0.
  destruct (sizing_zero_file_size _ _ _ _ _ _ _ P Hin H0) as [text ->].
  by eexists.
Qed.

Lemma sizing_zero_file_size_raises_witness :
  ∃ e,
    calculate_training_data_size None (Some cluster_1TiB)
      (VDict [("num_samples_per_file", VInt 1000); ("record_length_bytes", VInt 0)])
      scenario_reader (VInt 8)
    = Raise e
    ∧ exc_class e = ZeroDivisionError.
Proof.
  apply (sizing_zero_file_size_raises cluster_1TiB
           (VDict [("num_samples_per_file", VInt 1000); ("record_length_bytes", VInt 0)])
           scenario_reader (2 ^ 40) 1000 0 32 8).
  - repeat split; reflexivity.
  - reflexivity.
Defined.

(** ** The checks of a training run *)

Section TrainingChecks.
Import TrainingRunRulesChecker.

Lemma py_contains_dict k d :
  py_contains k (VDict d) = Ok (bool_decide (is_Some (dict_lookup k d))).
Proof. reflexivity. Qed.

Lemma py_getitem_dict_Some k d v :
  dict_lookup k d = Some v → py_getitem (VDict d) k = Ok v.
Proof. intros H. cbn. by rewrite H. Qed.

Lemma py_getitem_dict_None k d :
  dict_lookup k d = None → py_getitem (VDict d) k = raise KeyError (repr_key k).
Proof. intros H. cbn. by rewrite H. Qed.

Lemma dict_lookup_cons {V} k k' (v : V) d :
  dict_lookup k ((k', v) :: d) = if String.eqb k k' then Some v else dict_lookup k d.
Proof. reflexivity. Qed.

Lemma workflow_loop_cons UNET run param value (rest : PyDict) :
  workflow_loop UNET run ((param, value) :: rest)
  = if eq_str (BenchmarkRun.model run) UNET
       && eq_str (BenchmarkRun.command run) "run_benchmark"
       && String.eqb param "checkpoint"
    then
      if eq_True value then
        RIssue (mkIssue CLOSED "Unet3D training requires executing a checkpoing"
                        (Some "workflow.checkpoint") (Some (VStr "True"))
                        (Some value) "error")
      else if eq_False value then
        RIssue (mkIssue INVALID
                        "Unet3D training requires executing a checkpoint. The parameter 'workflow.checkpoint' is set to False"
                        (Some "workflow.checkpoint") (Some (VStr "True"))
                        (Some value) "error")
      else workflow_loop UNET run rest
    else workflow_loop UNET run rest.
Proof. reflexivity. Qed.

(** With the checkpoint key out of the way the loop finds nothing. *)
Lemma workflow_loop_no_checkpoint UNET run (items : PyDict) :
  "checkpoint" ∉ items.*1 → workflow_loop UNET run items = RNone.
Proof.
  induction items as [| [param value] items IH]; [done |].
  rewrite fmap_cons, workflow_loop_cons. intros Hnot.
  apply not_elem_of_cons in Hnot as [Hne Hnot].
  destruct (String.eqb_spec param "checkpoint") as [-> | _]; [done |].
  rewrite andb_false_r. by apply IH.
Qed.

Lemma workflow_loop_not_applicable UNET run (items : PyDict) :
  eq_str (BenchmarkRun.model run) UNET
  && eq_str (BenchmarkRun.command run) "run_benchmark" = false →
  workflow_loop UNET run items = RNone.
Proof.
  intros Hna. induction items as [| [param value] items IH]; [done |].
  by rewrite workflow_loop_cons, Hna.
Qed.

(** For a dict, whose keys are distinct, the loop comes to a lookup. *)
Lemma workflow_loop_lookup UNET run (items : PyDict) :
  NoDup items.*1 →
  eq_str (BenchmarkRun.model run) UNET
  && eq_str (BenchmarkRun.command run) "run_benchmark" = true →
  workflow_loop UNET run items
  = match dict_lookup "checkpoint" items with
    | Some value =>
        if eq_True value then
          RIssue (mkIssue CLOSED "Unet3D training requires executing a checkpoing"
                          (Some "workflow.checkpoint") (Some (VStr "True"))
                          (Some value) "error")
        else if eq_False value then
          RIssue (mkIssue INVALID
                          "Unet3D training requires executing a checkpoint. The parameter 'workflow.checkpoint' is set to False"
                          (Some "workflow.checkpoint") (Some (VStr "True"))
                          (Some value) "error")
        else RNone
    | None => RNone
    end.
Proof.
  intros Hnodup Happ. induction items as [| [param value] items IH]; [done |].
  rewrite fmap_cons in Hnodup. apply NoDup_cons in Hnodup as [Hnot Hnodup].
  rewrite workflow_loop_cons, dict_lookup_cons, Happ, andb_true_l, String.eqb_sym.
  destruct (String.eqb_spec "checkpoint" param) as [<- | _]; [| by apply IH].
  destruct (eq_True value); [done |]. destruct (eq_False value); [done |].
  by apply workflow_loop_no_checkpoint.
Qed.
End TrainingChecks.

(** X5. For a training run whose parameters are in place and for which
    the sizing function can write its size report, the file-count check
    compares the configured number of training files with the file count
    the sizing function returns for the run: a number at least as large
    gets no finding, the required number itself included, and any smaller
    number gets one INVALID finding that shows the required number. *)
Theorem check_num_files_train_threshold (run : BenchmarkRun.t) (N M S R B P : Z) :
  file_count_inputs run N M S R B P →
  0 < S → 0 < R →
  size_report_writable M S R B P →
  let required := Z.max ((5 * M) `div` (S * R)) ((500 * P * B) `div` S) in
  (required ≤ N → TrainingRunRulesChecker.check_num_files_train run = Ok RNone)
  ∧ (N < required →
     ∃ i,
       TrainingRunRulesChecker.check_num_files_train run = Ok (RIssue i)
       ∧ validation i = INVALID
       ∧ parameter i = Some "dataset.num_files_train"
       ∧ expected i = Some (VStr (">= " +:+ pretty required))
       ∧ actual i = Some (VInt N)).
Proof.
  intros (parameters & dataset & reader & ci & Hp & Hd & Hn & Hr & Hci & Hin & HP) HS HR
         Hreport required.
  unfold TrainingRunRulesChecker.check_num_files_train.
  rewrite Hp, Hci, HP, py_contains_dict, Hd, !(py_getitem_dict_Some _ _ _ Hd),
    (py_getitem_dict_Some _ _ _ Hr).
  cbn -[calculate_training_data_size]. rewrite Hn.
  cbn -[calculate_training_data_size].
  rewrite (sizing_measured _ _ _ _ _ _ _ _ Hin) by (done || lia). cbn.
  fold required.
  destruct (Z.ltb_spec N required); split; intros; try lia; [| done].
  by eexists.
Qed.

Lemma check_num_files_train_threshold_witness :
  let required :=
    Z.max ((5 * 2 ^ 40) `div` (1000 * 100000)) ((500 * 8 * 32) `div` 1000) in
  (required ≤ 54975 →
   TrainingRunRulesChecker.check_num_files_train
     (scenario_training_run 54975 (Some scenario_reader)) = Ok RNone)
  ∧ (54975 < required →
     ∃ i,
       TrainingRunRulesChecker.check_num_files_train
         (scenario_training_run 54975 (Some scenario_reader)) = Ok (RIssue i)
       ∧ validation i = INVALID
       ∧ parameter i = Some "dataset.num_files_train"
       ∧ expected i = Some (VStr (">= " +:+ pretty required))
       ∧ actual i = Some (VInt 54975)).
Proof.
  apply (check_num_files_train_threshold
           (scenario_training_run 54975 (Some scenario_reader))
           54975 (2 ^ 40) 1000 100000 32 8).
  - eexists _, _, _, _. repeat split; reflexivity.
  - lia.
  - lia.
  - by_computation.
Defined.

(** X6. A run without a dataset section, or without [num_files_train] in
    it, gets an INVALID finding from the file-count check that names what
    is missing. A run without a reader section makes the check raise
    [KeyError]. *)
Theorem check_num_files_train_missing (run : BenchmarkRun.t) (parameters : PyDict) :
  BenchmarkRun.parameters run = VDict parameters →
  (dict_lookup "dataset" parameters = None →
   ∃ i, TrainingRunRulesChecker.check_num_files_train run = Ok (RIssue i)
        ∧ validation i = INVALID ∧ parameter i = Some "dataset")
  ∧ (∀ dataset,
       dict_lookup "dataset" parameters = Some (VDict dataset) →
       dict_lookup "num_files_train" dataset = None →
       ∃ i, TrainingRunRulesChecker.check_num_files_train run = Ok (RIssue i)
            ∧ validation i = INVALID ∧ parameter i = Some "dataset.num_files_train")
  ∧ (∀ dataset n,
       dict_lookup "dataset" parameters = Some (VDict dataset) →
       dict_lookup "num_files_train" dataset = Some (VInt n) →
       dict_lookup "reader" parameters = None →
       ∃ e, TrainingRunRulesChecker.check_num_files_train run = Raise e
            ∧ exc_class e = KeyError).
Proof.
  intros Hp. unfold TrainingRunRulesChecker.check_num_files_train.
  rewrite Hp, py_contains_dict. split; [| split].
  - intros ->. cbn. by eexists.
  - intros dataset Hd Hn. rewrite Hd, (py_getitem_dict_Some _ _ _ Hd).
    cbn. rewrite Hn. cbn. by eexists.
  - intros dataset n Hd Hn Hr.
    rewrite Hd, !(py_getitem_dict_Some _ _ _ Hd), (py_getitem_dict_None _ _ Hr).
    cbn. rewrite Hn. cbn. by eexists.
Qed.

Lemma check_num_files_train_missing_witness :
  ∃ e,
    TrainingRunRulesChecker.check_num_files_train (scenario_training_run 60000 None)
    = Raise e
    ∧ exc_class e = KeyError.
Proof.
  refine (proj2 (proj2 (check_num_files_train_missing (scenario_training_run 60000 None)
                          _ eq_refl)) _ 60000 eq_refl eq_refl eq_refl).
Defined.

(** X7. The direct-I/O check never has a finding for the model [UNET],
    whatever its parameters are. For any other model it has one INVALID
    finding when the reader section of the parameters holds a truthy
    [odirect], and none otherwise. *)
Theorem check_odirect_only_for_other_models (UNET : string) (run : BenchmarkRun.t) :
  (eq_str (BenchmarkRun.model run) UNET = true →
   TrainingRunRulesChecker.check_odirect_supported_model UNET run = Ok RNone)
  ∧ (eq_str (BenchmarkRun.model run) UNET = false →
     ∀ parameters reader,
       BenchmarkRun.parameters run = VDict parameters →
       default empty_dict (dict_lookup "reader" parameters) = VDict reader →
       let odirect := default VNone (dict_lookup "odirect" reader) in
       if truthy odirect then
         ∃ i,
           TrainingRunRulesChecker.check_odirect_supported_model UNET run = Ok (RIssue i)
           ∧ validation i = INVALID
           ∧ parameter i = Some "reader.odirect"
           ∧ actual i = Some odirect
       else TrainingRunRulesChecker.check_odirect_supported_model UNET run = Ok RNone).
Proof.
  unfold TrainingRunRulesChecker.check_odirect_supported_model. split.
  - by intros ->.
  - intros -> parameters reader Hp Hr. rewrite Hp. cbn. rewrite Hr. cbn.
    destruct (truthy (default VNone (dict_lookup "odirect" reader)));
      [by eexists | done].
Qed.

Lemma check_odirect_only_for_other_models_witness :
  TrainingRunRulesChecker.check_odirect_supported_model "unet3d" (unet_run (VBool true) (VInt 1))
  = Ok RNone.
Proof.
  apply (proj1 (check_odirect_only_for_other_models
                  "unet3d" (unet_run (VBool true) (VInt 1)))).
  reflexivity.
Defined.

(** X8. The workflow check only concerns the model [UNET] under the
    command [run_benchmark]; for every other run it has no finding. For
    such a run it reads the checkpoint stage of the workflow section: a
    stage equal to [True] gets a CLOSED finding, a stage equal to [False]
    an INVALID finding, and a stage that is missing, or is neither, gets
    none. *)
Theorem check_workflow_parameters_decides
        (UNET : string) (run : BenchmarkRun.t) (parameters items : PyDict) :
  BenchmarkRun.parameters run = VDict parameters →
  default empty_dict (dict_lookup "workflow" parameters) = VDict items →
  NoDup items.*1 →
  let applies :=
    eq_str (BenchmarkRun.model run) UNET
    && eq_str (BenchmarkRun.command run) "run_benchmark" in
  let stage := dict_lookup "checkpoint" items in
  let check := TrainingRunRulesChecker.check_workflow_parameters UNET run in
  (applies = false → check = Ok RNone)
  ∧ (applies = true → stage = None → check = Ok RNone)
  ∧ (applies = true → ∀ v, stage = Some v → eq_True v = true →
     ∃ i, check = Ok (RIssue i) ∧ validation i = CLOSED
          ∧ parameter i = Some "workflow.checkpoint")
  ∧ (applies = true → ∀ v, stage = Some v → eq_False v = true →
     ∃ i, check = Ok (RIssue i) ∧ validation i = INVALID
          ∧ parameter i = Some "workflow.checkpoint")
  ∧ (applies = true → ∀ v, stage = Some v → eq_True v = false → eq_False v = false →
     check = Ok RNone).
Proof.
  intros Hp Hw Hnodup applies stage check.
  assert (check = Ok (TrainingRunRulesChecker.workflow_loop UNET run items)) as ->.
  { unfold check, TrainingRunRulesChecker.check_workflow_parameters.
    rewrite Hp. cbn. by rewrite Hw. }
  split.
  { intros Hna. by rewrite workflow_loop_not_applicable. }
  assert (applies = true →
          TrainingRunRulesChecker.workflow_loop UNET run items
          = match stage with
            | Some value =>
                if eq_True value then
                  RIssue (mkIssue CLOSED "Unet3D training requires executing a checkpoing"
                                  (Some "workflow.checkpoint") (Some (VStr "True"))
                                  (Some value) "error")
                else if eq_False value then
                  RIssue (mkIssue INVALID
                                  "Unet3D training requires executing a checkpoint. The parameter 'workflow.checkpoint' is set to False"
                                  (Some "workflow.checkpoint") (Some (VStr "True"))
                                  (Some value) "error")
                else RNone
            | None => RNone
            end) as Hloop.
  { intros Happ. by apply workflow_loop_lookup. }
  split; [| split; [| split]].
  - intros Happ Hs. by rewrite (Hloop Happ), Hs.
  - intros Happ v Hs Ht. rewrite (Hloop Happ), Hs, Ht. by eexists.
  - intros Happ v Hs Hf. rewrite (Hloop Happ), Hs.
    destruct (eq_True v) eqn:Ht.
    + destruct v as [| [|] | z | | | |]; try done.
      cbn in Ht, Hf. lia.
    + rewrite Hf. by eexists.
  - intros Happ v Hs Ht Hf. by rewrite (Hloop Happ), Hs, Ht, Hf.
Qed.

Lemma check_workflow_parameters_decides_witness :
  ∃ i,
    TrainingRunRulesChecker.check_workflow_parameters "unet3d"
      (unet_run (VBool false) (VInt 0))
    = Ok (RIssue i)
    ∧ validation i = INVALID
    ∧ parameter i = Some "workflow.checkpoint".
Proof.
  refine (proj1 (proj2 (proj2 (proj2
            (check_workflow_parameters_decides "unet3d" (unet_run (VBool false) (VInt 0))
               _ _ eq_refl eq_refl _)))) eq_refl (VBool false) eq_refl eq_refl).
  apply (bool_decide_unpack _). vm_compute. exact I.
Defined.

(** ** The verifier, continued *)

Section VerifyMore.
Import BenchmarkVerifier.

Lemma announce_with_checker self checker :
  announce (with_checker self checker) = announce self.
Proof. reflexivity. Qed.



Lemma count_validation_app v l1 l2 :
  count_validation v (l1 ++ l2) = count_validation v l1 + count_validation v l2.
Proof. unfold count_validation. rewrite filter_app, length_app. lia. Qed.




Lemma verify_Ok_inv self category self' :
  verify self = Ok (category, self') →
  announce self = Ok ()
  ∧ ∃ checker, rules_checker self = Some checker.
Proof.
  unfold verify. intros Hv.
  destruct (announce self) as [[] | e]; [| done].
  destruct (rules_checker self) as [checker |]; [| done].
  eauto.
Qed.

Lemma run_id_of_result_run run :
  BenchmarkRun.post_execution run = true → ∃ path, BenchmarkRun.run_id run = IdPath path.
Proof.
  unfold BenchmarkRun.post_execution, BenchmarkRun.run_id.
  destruct (BenchmarkRun.source run); [done | by eexists].
Qed.

Lemma run_id_of_live_run run :
  BenchmarkRun.post_execution run = false → ∃ id, BenchmarkRun.run_id run = IdObject id.
Proof.
  unfold BenchmarkRun.post_execution, BenchmarkRun.run_id.
  destruct (BenchmarkRun.source run); [by eexists | done].
Qed.

Lemma joinable_paths (runs : list BenchmarkRun.t) :
  (∀ run, run ∈ runs → BenchmarkRun.post_execution run = true) →
  is_Ok (joinable (BenchmarkRun.run_id <$> runs)) = true.
Proof.
  induction runs as [| run runs IH]; intros Hall; [done |].
  rewrite fmap_cons. cbn [joinable].
  destruct (run_id_of_result_run run) as [path ->]; [apply Hall; left |].
  destruct (joinable (BenchmarkRun.run_id <$> runs)) eqn:Hj; [done |].
  rewrite <- IH; [done |]. intros r Hr. apply Hall. by right.
Qed.

Lemma joinable_live (runs : list BenchmarkRun.t) run :
  run ∈ runs → BenchmarkRun.post_execution run = false →
  ∃ e, joinable (BenchmarkRun.run_id <$> runs) = Raise e ∧ exc_class e = TypeError.
Proof.
  induction runs as [| r runs IH]; intros Hin Hlive.
  - by apply elem_of_nil in Hin.
  - rewrite fmap_cons. cbn [joinable].
    destruct (BenchmarkRun.run_id r) eqn:Hid; [| by eexists].
    apply elem_of_cons in Hin as [-> | Hin].
    + destruct (run_id_of_live_run r Hlive) as [id Hid']. congruence.
    + destruct (IH Hin Hlive) as (e & -> & He). by exists e.
Qed.
End VerifyMore.





(** X11. What [verify] changes. It keeps the mode and the checker and
    records the findings of the checker on the verifier. In multi mode it
    leaves every run as it is; in single mode the first run comes back
    with these findings in place of the ones it had, with the category
    returned, and otherwise as it was, and the other runs are untouched. *)
Theorem verify_writes_back_in_single_mode_only
        (self self' : BenchmarkVerifier.t) (category : PARAM_VALIDATION) :
  BenchmarkVerifier.verify self = Ok (category, self') →
  BenchmarkVerifier.mode self' = BenchmarkVerifier.mode self
  ∧ BenchmarkVerifier.rules_checker self' = BenchmarkVerifier.rules_checker self
  ∧ (∃ checker,
       BenchmarkVerifier.rules_checker self = Some checker
       ∧ BenchmarkVerifier.issues self' = RulesChecker.run_checks checker)
  ∧ (BenchmarkVerifier.mode self = multi →
     BenchmarkVerifier.benchmark_runs self' = BenchmarkVerifier.benchmark_runs self)
  ∧ (BenchmarkVerifier.mode self = single →
     ∃ run run' rest,
       BenchmarkVerifier.benchmark_runs self = run :: rest
       ∧ BenchmarkVerifier.benchmark_runs self' = run' :: rest
       ∧ BenchmarkRun.issues run' = BenchmarkVerifier.issues self'
       ∧ BenchmarkRun.category run' = Some category
       ∧ same_run_data run run').
Proof.
  intros Hv. destruct (verify_Ok_inv _ _ _ Hv) as (Hannounce & checker & Hchecker).
  rewrite (verify_unfold _ _ Hchecker Hannounce) in Hv.
  injection Hv as <- <-.
  split; [reflexivity |]. split; [reflexivity |].
  split; [by exists checker |].
  unfold BenchmarkVerifier.conclude. split.
  - intros Hm. by rewrite Hm.
  - intros Hm. rewrite Hm. cbn.
    unfold BenchmarkVerifier.announce in Hannounce. rewrite Hm in Hannounce.
    destruct (BenchmarkVerifier.benchmark_runs self) as [| run rest]; [done |].
    eexists run, _, rest. split; [reflexivity |]. split; [reflexivity |].
    apply same_run_data_written.
Qed.

Lemma verify_writes_back_in_single_mode_only_witness :
  BenchmarkRun.issues stale_run = [stale_finding]
  ∧ BenchmarkVerifier.mode (verifier_after stale_verifier)
    = BenchmarkVerifier.mode stale_verifier
  ∧ BenchmarkVerifier.rules_checker (verifier_after stale_verifier)
    = BenchmarkVerifier.rules_checker stale_verifier
  ∧ (∃ checker,
       BenchmarkVerifier.rules_checker stale_verifier = Some checker
       ∧ BenchmarkVerifier.issues (verifier_after stale_verifier)
         = RulesChecker.run_checks checker)
  ∧ (BenchmarkVerifier.mode stale_verifier = multi →
     BenchmarkVerifier.benchmark_runs (verifier_after stale_verifier)
     = BenchmarkVerifier.benchmark_runs stale_verifier)
  ∧ (BenchmarkVerifier.mode stale_verifier = single →
     ∃ run run' rest,
       BenchmarkVerifier.benchmark_runs stale_verifier = run :: rest
       ∧ BenchmarkVerifier.benchmark_runs (verifier_after stale_verifier) = run' :: rest
       ∧ BenchmarkRun.issues run' = BenchmarkVerifier.issues (verifier_after stale_verifier)
       ∧ BenchmarkRun.category run' = Some CLOSED
       ∧ same_run_data run run').
Proof.
  split; [reflexivity |].
  apply (verify_writes_back_in_single_mode_only stale_verifier
           (verifier_after stale_verifier) CLOSED).
  reflexivity.
Defined.



(** X13. In multi mode [verify] needs runs that were built from result
    files: their ids are paths, which the status line joins. A run that was
    built from a live benchmark has a [RunID] object as its id, and
    [verify] raises [TypeError] before any check is run. *)
Theorem verify_multi_needs_result_runs (self : BenchmarkVerifier.t) :
  BenchmarkVerifier.mode self = multi →
  ((∃ run, run ∈ BenchmarkVerifier.benchmark_runs self
           ∧ BenchmarkRun.post_execution run = false) →
   ∃ e, BenchmarkVerifier.verify self = Raise e ∧ exc_class e = TypeError)
  ∧ ((∀ run, run ∈ BenchmarkVerifier.benchmark_runs self →
             BenchmarkRun.post_execution run = true) →
     BenchmarkVerifier.announce self = Ok ()).
Proof.
  intros Hmode. unfold BenchmarkVerifier.verify, BenchmarkVerifier.announce.
  rewrite Hmode. split.
  - intros (run & Hin & Hlive).
    destruct (joinable_live _ _ Hin Hlive) as (e & -> & He). by exists e.
  - intros Hall. pose proof (joinable_paths _ Hall) as Hj.
    by destruct (BenchmarkVerifier.joinable _).
Qed.

Lemma verify_multi_needs_result_runs_witness :
  ∃ e, BenchmarkVerifier.verify live_submission_verifier = Raise e
       ∧ exc_class e = TypeError.
Proof.
  apply (proj1 (verify_multi_needs_result_runs live_submission_verifier eq_refl)).
  exists live_checkpointing_run. split; [| reflexivity].
  right. left.
Defined.

(** ** Building a verifier *)

Section VerifierInit.
Import BenchmarkVerifier.

Lemma as_runs_ARun (runs : list BenchmarkRun.t) : as_runs (ARun <$> runs) = Ok runs.
Proof.
  induction runs as [| r runs IH]; [done |].
  rewrite fmap_cons. cbn [as_runs]. by rewrite IH.
Qed.

(** What [__init__] comes to for two runs or more. *)
Lemma init_multi UNET (r1 r2 : BenchmarkRun.t) (rest : list BenchmarkRun.t) :
  let runs := r1 :: r2 :: rest in
  let benchmark_types : gset (option BENCHMARK_TYPES) :=
    list_to_set (BenchmarkRun.benchmark_type <$> runs) in
  init UNET (ARun <$> runs)
  = if (1 <? size benchmark_types)%nat then
      raise ValueError
            "Multi-run verification requires all runs are from the same benchmark type. Got types: {benchmark_types}"
    else
      Ok (mk multi runs
             match elements benchmark_types with
             | Some training :: _ => Some (TrainingSubmissionRulesChecker.init runs)
             | Some checkpointing :: _ => Some (CheckpointSubmissionRulesChecker.init runs)
             | _ => None
             end
             []).
Proof.
  intros runs benchmark_types. unfold init.
  change (ARun <$> runs) with (ARun r1 :: ARun r2 :: (ARun <$> rest)).
  cbv beta iota.
  change (ARun r1 :: ARun r2 :: (ARun <$> rest)) with (ARun <$> runs).
  by rewrite as_runs_ARun.
Qed.

(** What [__init__] comes to for one run. *)
Lemma init_single UNET (arg : VerifierArg) self :
  init UNET [arg] = Ok self →
  ∃ run,
    self = mk single [run]
              match BenchmarkRun.benchmark_type run with
              | Some training => Some (TrainingRunRulesChecker.init UNET run)
              | Some checkpointing => Some (CheckpointingRunRulesChecker.init run)
              | _ => None
              end
              [].
Proof.
  unfold init. destruct arg as [run | b].
  - intros [= <-]. by exists run.
  - destruct (BenchmarkRun.init None (Some b)) as [run | e]; [| done].
    intros [= <-]. by exists run.
Qed.

Lemma mixed_types_size (types : list (option BENCHMARK_TYPES)) x y :
  x ∈ types → y ∈ types → x ≠ y →
  (1 < size (list_to_set types : gset (option BENCHMARK_TYPES)))%nat.
Proof.
  intros Hx Hy Hne.
  assert (({[x]} ∪ {[y]} : gset (option BENCHMARK_TYPES)) ⊆ list_to_set types) as Hsub.
  { apply union_subseteq; split; apply singleton_subseteq_l;
      by apply elem_of_list_to_set. }
  apply subseteq_size in Hsub.
  rewrite size_union, !size_singleton in Hsub by set_solver. lia.
Qed.

Lemma same_type_set (types : list (option BENCHMARK_TYPES)) x :
  x ∈ types → (∀ y, y ∈ types → y = x) →
  (list_to_set types : gset (option BENCHMARK_TYPES)) = {[x]}.
Proof.
  intros Hx Hall. apply set_eq. intros y.
  rewrite elem_of_list_to_set, elem_of_singleton. split; [apply Hall | by intros ->].
Qed.

(** A submission of runs of one type gets the checker of that type. *)
Lemma init_same_type UNET (runs : list BenchmarkRun.t) (t : option BENCHMARK_TYPES) :
  (2 ≤ length runs)%nat →
  (∀ run, run ∈ runs → BenchmarkRun.benchmark_type run = t) →
  init UNET (ARun <$> runs)
  = Ok (mk multi runs
           match t with
           | Some training => Some (TrainingSubmissionRulesChecker.init runs)
           | Some checkpointing => Some (CheckpointSubmissionRulesChecker.init runs)
           | _ => None
           end
           []).
Proof.
  intros Hlen Hall.
  destruct runs as [| r1 [| r2 rest]]; [cbn in Hlen; lia | cbn in Hlen; lia |].
  rewrite init_multi.
  rewrite (same_type_set _ t).
  - rewrite size_singleton, elements_singleton. by destruct t as [[| |] |].
  - rewrite fmap_cons, (Hall r1) by left. left.
  - intros y (run & -> & Hrun)%list_elem_of_fmap. by apply Hall.
Qed.

(** The category-consistency check stands for an INVALID finding as
    soon as one run is INVALID, also when it raises over a run that has no
    category. *)
Lemma check_runs_valid_invalid (runs : list BenchmarkRun.t) run :
  run ∈ runs → BenchmarkRun.category run = Some INVALID →
  ∃ i,
    check_findings (mkCheck "check_runs_valid" (MultiRunRulesChecker.check_runs_valid runs))
    = [i]
    ∧ validation i = INVALID.
Proof.
  intros Hin Hcat. unfold check_findings, RulesChecker.run_check. cbn [call].
  unfold MultiRunRulesChecker.check_runs_valid.
  rewrite bool_decide_eq_true_2 by (apply elem_of_category_set; eauto).
  unfold MultiRunRulesChecker.category_issue.
  destruct (MultiRunRulesChecker.upper_values _) as [names | e]; cbn; by eexists.
Qed.

Lemma announce_result_runs (runs : list BenchmarkRun.t) checker issues :
  (∀ run, run ∈ runs → BenchmarkRun.post_execution run = true) →
  announce (mk multi runs checker issues) = Ok ().
Proof.
  intros Hall. unfold announce. cbn [mode benchmark_runs].
  pose proof (joinable_paths _ Hall) as Hj.
  by destruct (joinable _).
Qed.
End VerifierInit.

(** X14. Inside a verifier the benchmark-type guard never has a finding:
    [BenchmarkVerifier] hands a run to the training checker only when the
    run is of type training, and the guard of the checkpointing checker
    returns nothing. *)
Theorem benchmark_type_guard_never_fires
        (UNET : string) (args : list VerifierArg) (self : BenchmarkVerifier.t)
        (checker : RulesChecker.t) (c : CheckMethod) :
  BenchmarkVerifier.init UNET args = Ok self →
  BenchmarkVerifier.rules_checker self = Some checker →
  c ∈ checker →
  method_name c = "check_benchmark_type" →
  call c = Ok RNone.
Proof.
  intros Hinit Hchecker Hc Hname.
  destruct args as [| arg [| arg' rest]].
  - discriminate Hinit.
  - apply init_single in Hinit as [run ->]. cbn in Hchecker.
    destruct (BenchmarkRun.benchmark_type run) as [[| |] |] eqn:Htype;
      try discriminate Hchecker; injection Hchecker as <-.
    + unfold TrainingRunRulesChecker.init in Hc.
      repeat (apply elem_of_cons in Hc as [-> | Hc]; [try discriminate Hname |]).
      * cbn. unfold TrainingRunRulesChecker.check_benchmark_type.
        by rewrite Htype, bool_decide_eq_false_2 by (intros Hne; by apply Hne).
      * by apply elem_of_nil in Hc.
    + unfold CheckpointingRunRulesChecker.init in Hc.
      apply elem_of_cons in Hc as [-> | Hc]; [done |]. by apply elem_of_nil in Hc.
  - unfold BenchmarkVerifier.init in Hinit.
    destruct (BenchmarkVerifier.as_runs (arg :: arg' :: rest)) as [runs | e];
      [| discriminate Hinit].
    cbn -[Nat.ltb] in Hinit. destruct (1 <? _)%nat; [discriminate Hinit |].
    injection Hinit as <-. cbn in Hchecker.
    destruct (elements _) as [| [[| |] |] types]; try discriminate Hchecker;
      injection Hchecker as <-;
      repeat (apply elem_of_cons in Hc as [-> | Hc]; [discriminate Hname |]);
      by apply elem_of_nil in Hc.
Qed.

Lemma benchmark_type_guard_never_fires_witness :
  call (mkCheck "check_benchmark_type"
                (TrainingRunRulesChecker.check_benchmark_type live_training_run))
  = Ok RNone.
Proof.
  apply (benchmark_type_guard_never_fires "unet3d" [ABenchmark live_training]
           (BenchmarkVerifier.mk single [live_training_run]
              (Some (TrainingRunRulesChecker.init "unet3d" live_training_run)) [])
           (TrainingRunRulesChecker.init "unet3d" live_training_run)).
  - vm_compute. reflexivity.
  - reflexivity.
  - right. left.
  - reflexivity.
Defined.

(** X15. A verifier for two runs or more is built exactly when the runs
    are all of one benchmark type; it is then in multi mode and holds the
    runs as they were given. Runs of different types make
    [BenchmarkVerifier] raise [ValueError]. *)
Theorem verifier_needs_one_benchmark_type (UNET : string) (runs : list BenchmarkRun.t) :
  (2 ≤ length runs)%nat →
  ((∃ r1 r2, r1 ∈ runs ∧ r2 ∈ runs
             ∧ BenchmarkRun.benchmark_type r1 ≠ BenchmarkRun.benchmark_type r2) →
   ∃ e, BenchmarkVerifier.init UNET (ARun <$> runs) = Raise e
        ∧ exc_class e = ValueError)
  ∧ ((∀ r1 r2, r1 ∈ runs → r2 ∈ runs →
               BenchmarkRun.benchmark_type r1 = BenchmarkRun.benchmark_type r2) →
     ∃ self, BenchmarkVerifier.init UNET (ARun <$> runs) = Ok self
             ∧ BenchmarkVerifier.mode self = multi
             ∧ BenchmarkVerifier.benchmark_runs self = runs).
Proof.
  intros Hlen. split.
  - intros (r1 & r2 & H1 & H2 & Hne).
    destruct runs as [| r [| r' rest]]; [cbn in Hlen; lia | cbn in Hlen; lia |].
    rewrite init_multi.
    pose proof (mixed_types_size
                  (BenchmarkRun.benchmark_type <$> r :: r' :: rest) _ _
                  (list_elem_of_fmap_2 _ _ _ H1) (list_elem_of_fmap_2 _ _ _ H2) Hne) as Hsize.
    apply Nat.ltb_lt in Hsize. rewrite Hsize. by eexists.
  - intros Hsame.
    destruct runs as [| r rest] eqn:Hruns; [cbn in Hlen; lia |]. rewrite <- Hruns in *.
    rewrite (init_same_type UNET runs (BenchmarkRun.benchmark_type r)).
    + by eexists.
    + done.
    + intros run Hrun. apply Hsame; [done |]. rewrite Hruns. left.
Qed.

Lemma verifier_needs_one_benchmark_type_witness :
  ∃ e, BenchmarkVerifier.init "unet3d" (ARun <$> [run_a; training_result_run "/results/t"])
       = Raise e
       ∧ exc_class e = ValueError.
Proof.
  apply (proj1 (verifier_needs_one_benchmark_type
                  "unet3d" [run_a; training_result_run "/results/t"] (le_n 2))).
  exists run_a, (training_result_run "/results/t").
  split; [left |]. split; [right; left |]. discriminate.
Defined.

(** X16. One INVALID run makes the whole submission INVALID. For two or
    more runs of type training, or of type checkpointing, all built from
    result files, [verify] returns INVALID as soon as one run has the
    category INVALID, whatever the categories of the other runs are, set
    or not. *)
Theorem invalid_run_invalidates_submission
        (UNET : string) (runs : list BenchmarkRun.t) (t : BENCHMARK_TYPES) :
  (2 ≤ length runs)%nat →
  t = training ∨ t = checkpointing →
  (∀ run, run ∈ runs → BenchmarkRun.benchmark_type run = Some t) →
  (∀ run, run ∈ runs → BenchmarkRun.post_execution run = true) →
  (∃ run, run ∈ runs ∧ BenchmarkRun.category run = Some INVALID) →
  ∃ self self',
    BenchmarkVerifier.init UNET (ARun <$> runs) = Ok self
    ∧ BenchmarkVerifier.verify self = Ok (INVALID, self').
Proof.
  intros Hlen Ht Htype Hpost (run & Hrun & Hcat).
  rewrite (init_same_type UNET runs (Some t) Hlen Htype).
  destruct (check_runs_valid_invalid runs run Hrun Hcat) as (i & Hi & Hv).
  assert (∀ c : CheckMethod,
            0 < count_validation INVALID
                  (RulesChecker.run_checks
                     [c; mkCheck "check_runs_valid"
                                 (MultiRunRulesChecker.check_runs_valid runs)]))
    as Hcount.
  { intros c. rewrite run_checks_cons, run_checks_cons, Hi, count_validation_app.
    pose proof (count_validation_nonneg INVALID (check_findings c)).
    change ([i] ++ RulesChecker.run_checks []) with [i].
    rewrite count_validation_cons, bool_decide_eq_true_2, count_validation_nil by done.
    lia. }
  assert (∀ checker,
            ∃ self',
              BenchmarkVerifier.verify (BenchmarkVerifier.mk multi runs (Some checker) [])
              = Ok (resolved_category (RulesChecker.run_checks checker), self'))
    as Hverify.
  { intros checker. eexists. apply verify_unfold; [reflexivity |].
    by apply announce_result_runs. }
  destruct Ht as [-> | ->].
  - destruct (Hverify (TrainingSubmissionRulesChecker.init runs)) as [self' Hv'].
    eexists _, self'. split; [reflexivity |]. rewrite Hv'.
    do 2 f_equal. unfold resolved_category, TrainingSubmissionRulesChecker.init.
    by rewrite (proj2 (Z.ltb_lt _ _) (Hcount _)).
  - destruct (Hverify (CheckpointSubmissionRulesChecker.init runs)) as [self' Hv'].
    eexists _, self'. split; [reflexivity |]. rewrite Hv'.
    do 2 f_equal. unfold resolved_category, CheckpointSubmissionRulesChecker.init.
    by rewrite (proj2 (Z.ltb_lt _ _) (Hcount _)).
Qed.

Lemma invalid_run_invalidates_submission_witness :
  ∃ self self',
    BenchmarkVerifier.init "unet3d"
      (ARun <$> [classified_as INVALID run_a; run_b; classified_as OPEN run_b])
    = Ok self
    ∧ BenchmarkVerifier.verify self = Ok (INVALID, self').
Proof.
  apply (invalid_run_invalidates_submission "unet3d"
           [classified_as INVALID run_a; run_b; classified_as OPEN run_b] checkpointing).
  - cbn. lia.
  - by right.
  - intros run Hrun. repeat (apply elem_of_cons in Hrun as [-> | Hrun]; [reflexivity |]).
    by apply elem_of_nil in Hrun.
  - intros run Hrun. repeat (apply elem_of_cons in Hrun as [-> | Hrun]; [reflexivity |]).
    by apply elem_of_nil in Hrun.
  - exists (classified_as INVALID run_a). split; [left | reflexivity].
Defined.

(** X17. A training submission is judged by the categories its runs
    already carry, and by nothing else. When no run is INVALID or OPEN and
    at least one run has no category yet, because it was never verified on
    its own, [verify] has no finding at all and returns CLOSED. *)
Theorem unverified_training_submission_is_closed
        (UNET : string) (runs : list BenchmarkRun.t) :
  (2 ≤ length runs)%nat →
  (∀ run, run ∈ runs → BenchmarkRun.benchmark_type run = Some training) →
  (∀ run, run ∈ runs → BenchmarkRun.post_execution run = true) →
  (∀ run, run ∈ runs → BenchmarkRun.category run = None
                       ∨ BenchmarkRun.category run = Some CLOSED) →
  (∃ run, run ∈ runs ∧ BenchmarkRun.category run = None) →
  ∃ self self',
    BenchmarkVerifier.init UNET (ARun <$> runs) = Ok self
    ∧ BenchmarkVerifier.verify self = Ok (CLOSED, self')
    ∧ BenchmarkVerifier.issues self' = [].
Proof.
  intros Hlen Htype Hpost Hcats (run & Hrun & Hnone).
  rewrite (init_same_type UNET runs (Some training) Hlen Htype).
  assert (MultiRunRulesChecker.check_runs_valid runs = Ok RNone) as Hvalid.
  { apply check_runs_valid_unresolved.
    - apply elem_of_category_set. eauto.
    - intros (r & Hr & Hc)%elem_of_category_set. destruct (Hcats r Hr); congruence.
    - intros (r & Hr & Hc)%elem_of_category_set. destruct (Hcats r Hr); congruence. }
  assert (RulesChecker.run_checks (TrainingSubmissionRulesChecker.init runs) = [])
    as Hfindings.
  { unfold TrainingSubmissionRulesChecker.init.
    rewrite !run_checks_cons. unfold check_findings, RulesChecker.run_check. cbn [call].
    by rewrite Hvalid. }
  eexists _, _. split; [reflexivity |].
  rewrite (verify_unfold
             (BenchmarkVerifier.mk multi runs
                (Some (TrainingSubmissionRulesChecker.init runs)) [])
             (TrainingSubmissionRulesChecker.init runs) eq_refl)
    by (by apply announce_result_runs).
  rewrite Hfindings. split; reflexivity.
Qed.

Lemma unverified_training_submission_is_closed_witness :
  ∃ self self',
    BenchmarkVerifier.init "unet3d"
      (ARun <$> [training_result_run "/results/1"; training_result_run "/results/2"])
    = Ok self
    ∧ BenchmarkVerifier.verify self = Ok (CLOSED, self')
    ∧ BenchmarkVerifier.issues self' = [].
Proof.
  apply (unverified_training_submission_is_closed "unet3d"
           [training_result_run "/results/1"; training_result_run "/results/2"]).
  - cbn. lia.
  - intros run Hrun. repeat (apply elem_of_cons in Hrun as [-> | Hrun]; [reflexivity |]).
    by apply elem_of_nil in Hrun.
  - intros run Hrun. repeat (apply elem_of_cons in Hrun as [-> | Hrun]; [reflexivity |]).
    by apply elem_of_nil in Hrun.
  - intros run Hrun. left.
    repeat (apply elem_of_cons in Hrun as [-> | Hrun]; [reflexivity |]).
    by apply elem_of_nil in Hrun.
  - exists (training_result_run "/results/1"). split; [left | reflexivity].
Defined.

(** ** Runs built from result files *)

Section ResultRuns.
Import BenchmarkRun.

(** *** Strings: prefixes, and splitting against joining *)

Lemma app_String (c : ascii) (p s : string) : String c p +:+ s = String c (p +:+ s).
Proof. reflexivity. Qed.

Lemma str_app_assoc (a b c : string) : (a +:+ b) +:+ c = a +:+ (b +:+ c).
Proof.
  induction a as [| x a IH]; [reflexivity |].
  by rewrite !app_String, IH.
Qed.

Lemma prefix_drop (p s : string) :
  String.prefix p s = true → s = p +:+ str_drop (String.length p) s.
Proof.
  revert s. induction p as [| c p IH]; intros s Hp; [done |].
  destruct s as [| c' s]; [done |]. cbn [String.prefix] in Hp.
  destruct (ascii_dec c c') as [<- |]; [| done].
  cbn [String.length str_drop]. rewrite app_String. f_equal. by apply IH.
Qed.

Lemma str_split_nonempty sep s : str_split sep s ≠ [].
Proof.
  destruct s as [| c s]; cbn; [done |].
  destruct (Ascii.eqb c sep); [done |]. by destruct (str_split sep s).
Qed.

Lemma str_join_cons (sep x y : string) (l : list string) :
  str_join sep (x :: y :: l) = x +:+ sep +:+ str_join sep (y :: l).
Proof. reflexivity. Qed.

(** Joining the pieces of a split gives the string back. *)
Lemma str_join_split (sep : ascii) (s : string) :
  str_join (String sep EmptyString) (str_split sep s) = s.
Proof.
  induction s as [| c s IH]; [done |].
  cbn [str_split].
  destruct (Ascii.eqb_spec c sep) as [-> | _].
  - destruct (str_split sep s) as [| w ws] eqn:Hs; [by destruct (str_split_nonempty sep s) |].
    by rewrite str_join_cons, IH.
  - destruct (str_split sep s) as [| w [| w' ws]] eqn:Hs;
      [by destruct (str_split_nonempty sep s) | by rewrite <- IH |].
    rewrite str_join_cons, app_String. rewrite str_join_cons in IH. by rewrite IH.
Qed.

Lemma str_split_two sep s p v :
  str_split sep s = [p; v] → s = p +:+ String sep v.
Proof.
  intros Hs. rewrite <- (str_join_split sep s), Hs. reflexivity.
Qed.

(** After [replace("_", "-")] there is no underscore left. *)
Lemma str_replace_no_underscore (s : string) :
  str_contains "_" (str_replace s "_" "-") = false.
Proof.
  unfold str_replace. induction s as [| c s IH]; [done |].
  cbn [str_replace_from]. cbn [String.prefix].
  destruct (ascii_dec "_" c) as [<- | Hne].
  - destruct s; cbn [String.length Nat.sub]; cbn [String.append str_contains];
      cbn [String.prefix]; (destruct (ascii_dec "_" "-"); [done |]); exact IH.
  - cbn [str_contains String.prefix].
    destruct (ascii_dec "_" c); [done |]. exact IH.
Qed.

(** *** Dicts: setting a key *)

Lemma dict_set_keys {V} k (v : V) d :
  (dict_set k v d).*1 = if bool_decide (k ∈ d.*1) then d.*1 else d.*1 ++ [k].
Proof.
  induction d as [| [k' v'] d IH]; [done |].
  cbn [dict_set]. rewrite !fmap_cons. cbn [fst].
  destruct (String.eqb_spec k k') as [<- | Hne].
  - by rewrite bool_decide_eq_true_2 by left.
  - rewrite fmap_cons, IH. cbn [fst].
    case_bool_decide as Hin.
    + by rewrite bool_decide_eq_true_2 by by right.
    + rewrite bool_decide_eq_false_2; [done |].
      intros [? | ?]%elem_of_cons; done.
Qed.

Lemma dict_set_NoDup {V} k (v : V) d : NoDup d.*1 → NoDup (dict_set k v d).*1.
Proof.
  intros Hnd. rewrite dict_set_keys. case_bool_decide; [done |].
  apply NoDup_app. split; [done |]. split; [| apply NoDup_singleton].
  intros x Hx ->%list_elem_of_singleton. done.
Qed.

Lemma elem_of_dict_set {V} k (v : V) d k' v' :
  (k', v') ∈ dict_set k v d → (k', v') = (k, v) ∨ (k', v') ∈ d.
Proof.
  induction d as [| [k0 v0] d IH]; cbn [dict_set].
  - intros ->%list_elem_of_singleton. by left.
  - destruct (String.eqb k k0).
    + intros [-> | ?]%elem_of_cons; [by left | right; by right].
    + intros [-> | Hin]%elem_of_cons; [right; left |].
      destruct (IH Hin); [by left | right; by right].
Qed.

(** The value last set for a key is the one found. *)
Lemma dict_lookup_set {V} k (v : V) d : dict_lookup k (dict_set k v d) = Some v.
Proof.
  induction d as [| [k' v'] d IH]; cbn [dict_set dict_lookup].
  - by rewrite String.eqb_refl.
  - destruct (String.eqb k k') eqn:Hk; cbn [dict_lookup]; by rewrite ?String.eqb_refl, ?Hk.
Qed.

(** *** The loop over the literal overrides *)

Lemma read_overrides_Ok params acc out :
  read_overrides params acc = Ok out →
  (NoDup acc.*1 → NoDup out.*1)
  ∧ ∀ k v, (k, v) ∈ out →
           (k, v) ∈ acc ∨ VStr ("++workload." +:+ k +:+ "=" +:+ v) ∈ params.
Proof.
  revert acc. induction params as [| param params IH]; intros acc Hread.
  - injection Hread as <-. split; [done |]. intros k v Hin. by left.
  - cbn [read_overrides] in Hread.
    destruct param as [| | | s | | |]; try discriminate Hread.
    destruct (str_split "=" s) as [| p [| v' [| ? ?]]] eqn:Hsplit;
      try discriminate Hread.
    apply str_split_two in Hsplit as ->.
    apply IH in Hread as [Hnd Hfrom]. split.
    + intros Hacc. apply Hnd. unfold startswith.
      destruct (String.prefix "++workload." p); [by apply dict_set_NoDup | done].
    + intros k v Hin. destruct (Hfrom k v Hin) as [Hacc | Hparams]; [| right; by right].
      unfold startswith in Hacc.
      destruct (String.prefix "++workload." p) eqn:Hp; [| by left].
      apply prefix_drop in Hp.
      set (key := str_drop (String.length "++workload.") p) in *.
      apply elem_of_dict_set in Hacc as [Heq | Hacc]; [| by left].
      injection Heq as -> ->.
      right. apply elem_of_cons. left. f_equal.
      rewrite Hp. symmetry. apply str_app_assoc.
Qed.

(** *** What a successful construction from result files tells *)

Lemma process_benchmark_result_Ok self r run :
  process_benchmark_result self r = Ok run →
  ∃ g t c name params,
    workflow_stage r "generate_data" = Ok g
    ∧ workflow_stage r "train" = Ok t
    ∧ workflow_stage r "checkpoint" = Ok c
    ∧ benchmark_type run
      = (if truthy g || truthy t then Some training
         else if truthy c then Some checkpointing
         else benchmark_type self)
    ∧ model run = VStr (str_replace (str_replace name "llama_" "llama3_") "_" "-")
    ∧ match benchmark_type run with
      | Some training =>
          command run
          = (if truthy g then VStr "datagen"
             else if truthy t then VStr "run_benchmark"
             else command self)
      | _ => command run = command self ∧ accelerator run = accelerator self
      end
    ∧ (py_get (VDict (BenchmarkResult.hydra_configs r)) "overrides.yaml" (VList [])
       ≫= py_iter) = Ok params
    ∧ read_overrides params (override_parameters self) = Ok (override_parameters run)
    ∧ source run = source self
    ∧ _category run = _category self
    ∧ _issues run = _issues self
    ∧ _run_id run = _run_id self.
Proof.
  unfold process_benchmark_result. intros H.
  apply bind_Ok in H as (summary_workload & _ & H).
  apply bind_Ok in H as (config_yaml & Hcfg & H).
  apply bind_Ok in H as (workload & Hwl & H).
  apply bind_Ok in H as (overrides & _ & H).
  apply bind_Ok in H as (workflow & Hwf & H).
  apply bind_Ok in H as (g & Hg & H).
  apply bind_Ok in H as (t & Ht & H).
  apply bind_Ok in H as (c & Hc & H).
  apply bind_Ok in H as (items & _ & H).
  apply bind_Ok in H as (workloads & _ & H).
  apply bind_Ok in H as (model_config & _ & H).
  apply bind_Ok in H as (name & _ & H).
  apply bind_Ok in H as (model & Hmodel & H).
  apply bind_Ok in H as (num_processes & _ & H).
  apply bind_Ok in H as ([command accelerator] & Hcmd & H).
  apply bind_Ok in H as (run_datetime & _ & H).
  apply bind_Ok in H as (overrides_yaml & Hoy & H).
  apply bind_Ok in H as (params & Hparams & H).
  apply bind_Ok in H as (override_parameters & Hread & H).
  apply bind_Ok in H as (metrics & _ & H).
  apply bind_Ok in H as (system_info & _ & H).
  injection H as <-. cbn -[str_replace truthy].
  destruct name as [| | | s | | |]; try discriminate Hmodel. injection Hmodel as <-.
  exists g, t, c, s, params.
  assert (∀ stage v, py_get workflow stage empty_dict = Ok v →
                     workflow_stage r stage = Ok v) as Hstage.
  { intros stage v Hv. unfold workflow_stage. rewrite Hcfg. cbn [mbind result_bind].
    rewrite Hwl. cbn [mbind result_bind]. rewrite Hwf. exact Hv. }
  split; [by apply Hstage |]. split; [by apply Hstage |]. split; [by apply Hstage |].
  split; [reflexivity |]. split; [reflexivity |].
  split.
  { destruct (truthy g || truthy t) eqn:Hgt.
    - apply bind_Ok in Hcmd as ([command' accelerator'] & Hcmd' & Hcmd).
      injection Hcmd as <- <-.
      destruct (truthy g); [done |]. cbn in Hgt. rewrite Hgt in Hcmd' |- *.
      destruct workloads as [| w ws]; [done |].
      destruct (str_split "_" w) as [| ? [| a ?]]; try done.
      by injection Hcmd' as <- <-.
    - destruct (truthy c).
      + by injection Hcmd as <- <-.
      + destruct (benchmark_type self) as [[| |] |] eqn:Hself;
          try (by injection Hcmd as <- <-).
        apply bind_Ok in Hcmd as ([command' accelerator'] & Hcmd' & Hcmd).
        injection Hcmd as <- <-.
        apply orb_false_elim in Hgt as [Hg' Ht']. rewrite Hg', Ht' in *.
        by injection Hcmd' as <- <-. }
  split; [exact (Ok_bind _ _ _ _ Hoy Hparams) |].
  by repeat split.
Qed.

Lemma init_result_Ok r run :
  init (Some r) None = Ok run →
  ∃ run0 t,
    process_benchmark_result (blank (FromResult r)) r = Ok run0
    ∧ benchmark_type run0 = Some t
    ∧ run = mk (benchmark_type run0) (model run0) (accelerator run0) (command run0)
               (num_processes run0) (parameters run0) (override_parameters run0)
               (system_info run0) (metrics run0)
               (Some (RunID.mk (benchmark_type_name t) (command run0) (model run0)
                               (run_datetime run0)))
               (_category run0) (_issues run0) (run_datetime run0)
               (result_root_dir run0) (source run0).
Proof.
  unfold init. intros H.
  apply bind_Ok in H as (run0 & Hrun0 & H).
  apply bind_Ok in H as (program & Hprogram & H).
  injection H as <-.
  destruct (benchmark_type run0) as [t |] eqn:Ht; [| done].
  injection Hprogram as <-. exists run0, t. by rewrite Ht.
Qed.
End ResultRuns.

(** Appending to the literal overrides runs the loop on from where it was. *)
Lemma read_overrides_app (params more : list Value) (acc : list (string * string)) :
  BenchmarkRun.read_overrides (params ++ more) acc
  = BenchmarkRun.read_overrides params acc ≫= BenchmarkRun.read_overrides more.
Proof.
  revert acc. induction params as [| param params IH]; intros acc; [reflexivity |].
  cbn [app BenchmarkRun.read_overrides].
  destruct param as [| | | s | | |]; try reflexivity.
  destruct (str_split "=" s) as [| p [| v [| ? ?]]]; try reflexivity.
  apply IH.
Qed.

(** X18. [BenchmarkRun.__init__] with [_process_benchmark_result]: the type
    of a run that was built from result files is read off the workflow
    section of its resolved configuration. It is training when the
    [generate_data] or the [train] stage is truthy, whatever the
    [checkpoint] stage says, and checkpointing otherwise, and then the
    [checkpoint] stage is truthy: a result with no truthy stage gives no
    run, and no result gives a run of another type. *)
Theorem result_run_type_follows_workflow (r : BenchmarkResult.t) (run : BenchmarkRun.t) :
  BenchmarkRun.init (Some r) None = Ok run →
  ∃ g t c,
    workflow_stage r "generate_data" = Ok g
    ∧ workflow_stage r "train" = Ok t
    ∧ workflow_stage r "checkpoint" = Ok c
    ∧ BenchmarkRun.benchmark_type run
      = Some (if truthy g || truthy t then training else checkpointing)
    ∧ truthy g || truthy t || truthy c = true.
Proof.
  intros Hinit.
  apply init_result_Ok in Hinit as (run0 & ty & Hrun0 & Hty & ->).
  apply process_benchmark_result_Ok in Hrun0
    as (g & t & c & name & params & Hg & Ht & Hc & Htype & _).
  exists g, t, c. repeat (split; [assumption |]).
  cbn [BenchmarkRun.benchmark_type]. rewrite Hty in Htype |- *.
  destruct (truthy g || truthy t); [by split |].
  destruct (truthy c); [by split |]. discriminate Htype.
Qed.

Lemma result_run_type_follows_workflow_witness :
  ∃ g t c,
    workflow_stage training_result "generate_data" = Ok g
    ∧ workflow_stage training_result "train" = Ok t
    ∧ workflow_stage training_result "checkpoint" = Ok c
    ∧ BenchmarkRun.benchmark_type training_result_run_built
      = Some (if truthy g || truthy t then training else checkpointing)
    ∧ truthy g || truthy t || truthy c = true.
Proof.
  apply (result_run_type_follows_workflow training_result training_result_run_built).
  vm_compute. reflexivity.
Defined.

(** X19. [_process_benchmark_result]: the command of a training run built
    from result files is [datagen] as soon as the [generate_data] stage is
    truthy, also when the [train] stage is truthy too, and [run_benchmark]
    otherwise; a checkpointing run built from result files has neither a
    command nor an accelerator. *)
Theorem result_run_command_prefers_datagen (r : BenchmarkResult.t) (run : BenchmarkRun.t) :
  BenchmarkRun.init (Some r) None = Ok run →
  match BenchmarkRun.benchmark_type run with
  | Some training =>
      ∃ g, workflow_stage r "generate_data" = Ok g
           ∧ BenchmarkRun.command run
             = VStr (if truthy g then "datagen" else "run_benchmark")
  | _ => BenchmarkRun.command run = VNone ∧ BenchmarkRun.accelerator run = VNone
  end.
Proof.
  intros Hinit.
  apply init_result_Ok in Hinit as (run0 & ty & Hrun0 & Hty & ->).
  apply process_benchmark_result_Ok in Hrun0
    as (g & t & c & name & params & Hg & Ht & Hc & Htype & _ & Hcommand & _).
  cbn [BenchmarkRun.benchmark_type BenchmarkRun.command BenchmarkRun.accelerator].
  destruct (BenchmarkRun.benchmark_type run0) as [[| |] |] eqn:Hrun0; try exact Hcommand.
  exists g. split; [exact Hg |]. rewrite Hcommand.
  destruct (truthy g); [reflexivity |]. cbn [orb] in Htype.
  destruct (truthy t); [reflexivity |].
  destruct (truthy c); discriminate Htype.
Qed.

Lemma result_run_command_prefers_datagen_witness :
  workflow_stage training_result "train" = Ok (VBool true)
  ∧ match BenchmarkRun.benchmark_type training_result_run_built with
    | Some training =>
        ∃ g, workflow_stage training_result "generate_data" = Ok g
             ∧ BenchmarkRun.command training_result_run_built
               = VStr (if truthy g then "datagen" else "run_benchmark")
    | _ => BenchmarkRun.command training_result_run_built = VNone
           ∧ BenchmarkRun.accelerator training_result_run_built = VNone
    end.
Proof.
  split; [vm_compute; reflexivity |].
  apply (result_run_command_prefers_datagen training_result training_result_run_built).
  vm_compute. reflexivity.
Defined.

(** X20. [_process_benchmark_result]: the model of a run built from
    result files is a string with no underscore in it, since the last
    thing done to the configured name is [replace("_", "-")]. *)
Theorem result_run_model_has_no_underscore (r : BenchmarkResult.t) (run : BenchmarkRun.t) :
  BenchmarkRun.init (Some r) None = Ok run →
  ∃ m, BenchmarkRun.model run = VStr m ∧ str_contains "_" m = false.
Proof.
  intros Hinit.
  apply init_result_Ok in Hinit as (run0 & ty & Hrun0 & Hty & ->).
  apply process_benchmark_result_Ok in Hrun0
    as (g & t & c & name & params & _ & _ & _ & _ & Hmodel & _).
  cbn [BenchmarkRun.model]. rewrite Hmodel.
  eexists. split; [reflexivity |]. apply str_replace_no_underscore.
Qed.

Lemma result_run_model_has_no_underscore_witness :
  ∃ m, BenchmarkRun.model training_result_run_built = VStr m
       ∧ str_contains "_" m = false.
Proof.
  apply (result_run_model_has_no_underscore training_result training_result_run_built).
  vm_compute. reflexivity.
Defined.

(** X21. [_process_benchmark_result]: the override parameters of a run
    built from result files have each key once, and every one of them was
    written in [overrides.yaml] as the literal [++workload.<key>=<value>]:
    the loop makes up no override and keeps none that lacks the prefix. *)
Theorem result_run_overrides_come_from_literals
  (r : BenchmarkResult.t) (run : BenchmarkRun.t) :
  BenchmarkRun.init (Some r) None = Ok run →
  NoDup (BenchmarkRun.override_parameters run).*1
  ∧ ∃ params,
      (py_get (VDict (BenchmarkResult.hydra_configs r)) "overrides.yaml" (VList [])
       ≫= py_iter) = Ok params
      ∧ ∀ k v, (k, v) ∈ BenchmarkRun.override_parameters run →
               VStr ("++workload." +:+ k +:+ "=" +:+ v) ∈ params.
Proof.
  intros Hinit.
  apply init_result_Ok in Hinit as (run0 & ty & Hrun0 & Hty & ->).
  apply process_benchmark_result_Ok in Hrun0
    as (g & t & c & name & params & _ & _ & _ & _ & _ & _ & Hparams & Hread & _).
  cbn [BenchmarkRun.override_parameters].
  apply read_overrides_Ok in Hread as [Hnd Hfrom]. split.
  - apply Hnd. apply NoDup_nil_2.
  - exists params. split; [exact Hparams |].
    intros k v Hin. destruct (Hfrom k v Hin) as [Hblank | Hlit]; [| exact Hlit].
    by apply elem_of_nil in Hblank.
Qed.

Lemma result_run_overrides_come_from_literals_witness :
  NoDup (BenchmarkRun.override_parameters training_result_run_built).*1
  ∧ ∃ params,
      (py_get (VDict (BenchmarkResult.hydra_configs training_result)) "overrides.yaml"
              (VList [])
       ≫= py_iter) = Ok params
      ∧ ∀ k v, (k, v) ∈ BenchmarkRun.override_parameters training_result_run_built →
               VStr ("++workload." +:+ k +:+ "=" +:+ v) ∈ params.
Proof.
  apply (result_run_overrides_come_from_literals training_result training_result_run_built).
  vm_compute. reflexivity.
Defined.

(** X22. The loop over [overrides.yaml] in [_process_benchmark_result]:
    a key that is overridden more than once keeps the value of the last
    literal that names it. *)
Theorem read_overrides_last_wins
  (params : list Value) (s p v : string) (acc out : list (string * string)) :
  str_split "=" s = [p; v] →
  startswith p "++workload." = true →
  BenchmarkRun.read_overrides (params ++ [VStr s]) acc = Ok out →
  dict_lookup (str_drop (String.length "++workload.") p) out = Some v.
Proof.
  intros Hsplit Hprefix Hread.
  rewrite read_overrides_app in Hread.
  destruct (BenchmarkRun.read_overrides params acc) as [mid | e]; [| discriminate Hread].
  change (BenchmarkRun.read_overrides [VStr s] mid = Ok out) in Hread.
  cbn [BenchmarkRun.read_overrides] in Hread.
  rewrite Hsplit, Hprefix in Hread. injection Hread as <-.
  apply dict_lookup_set.
Qed.

Lemma read_overrides_last_wins_witness :
  dict_lookup (str_drop (String.length "++workload.") "++workload.dataset.num_files_train")
              (BenchmarkRun.override_parameters training_result_run_built)
  = Some "200".
Proof.
  apply (read_overrides_last_wins
           [VStr "workload=unet3d_h100";
            VStr "++workload.dataset.num_files_train=100";
            VStr "++workload.reader.read_threads=4"]
           "++workload.dataset.num_files_train=200"
           "++workload.dataset.num_files_train" "200" []);
    vm_compute; reflexivity.
Defined.

(** X23. [BenchmarkRun.__init__]: a run comes out of its construction
    unverified, with no category and no issues, whichever source it was
    built from; it counts as post-execution exactly when it was built from
    result files, and it carries a [RunID] whose program is the name of
    its benchmark type and whose other parts are its own command, model
    and date. *)
Theorem constructed_run_is_unverified
  (benchmark_result : option BenchmarkResult.t) (benchmark_instance : option Benchmark.t)
  (run : BenchmarkRun.t) :
  BenchmarkRun.init benchmark_result benchmark_instance = Ok run →
  BenchmarkRun.category run = None
  ∧ BenchmarkRun.issues run = []
  ∧ BenchmarkRun.post_execution run = bool_decide (benchmark_instance = None)
  ∧ ∃ ty, BenchmarkRun.benchmark_type run = Some ty
          ∧ BenchmarkRun._run_id run
            = Some (RunID.mk (benchmark_type_name ty) (BenchmarkRun.command run)
                             (BenchmarkRun.model run) (BenchmarkRun.run_datetime run)).
Proof.
  intros Hinit.
  destruct benchmark_result as [r |], benchmark_instance as [b |];
    try discriminate Hinit.
  - apply init_result_Ok in Hinit as (run0 & ty & Hrun0 & Hty & ->).
    apply process_benchmark_result_Ok in Hrun0
      as (g & t & c & name & params & _ & _ & _ & _ & _ & _ & _ & _
          & Hsource & Hcategory & Hissues & _).
    unfold BenchmarkRun.category, BenchmarkRun.issues, BenchmarkRun.post_execution.
    cbn [BenchmarkRun._category BenchmarkRun._issues BenchmarkRun.source
         BenchmarkRun.benchmark_type BenchmarkRun._run_id BenchmarkRun.command
         BenchmarkRun.model BenchmarkRun.run_datetime].
    rewrite Hsource, Hcategory, Hissues, Hty.
    repeat (split; [reflexivity |]). by exists ty.
  - unfold BenchmarkRun.init in Hinit.
    apply bind_Ok in Hinit as (run0 & Hrun0 & Hinit).
    apply bind_Ok in Hinit as (program & Hprogram & Hinit).
    injection Hinit as <-.
    unfold BenchmarkRun.process_benchmark_instance in Hrun0.
    apply bind_Ok in Hrun0 as (n & _ & Hrun0). injection Hrun0 as <-.
    injection Hprogram as <-.
    repeat (split; [reflexivity |]). by eexists.
Qed.

Lemma constructed_run_is_unverified_witness :
  BenchmarkRun.category live_training_run = None
  ∧ BenchmarkRun.issues live_training_run = []
  ∧ BenchmarkRun.post_execution live_training_run
    = bool_decide (Some live_training = None)
  ∧ ∃ ty, BenchmarkRun.benchmark_type live_training_run = Some ty
          ∧ BenchmarkRun._run_id live_training_run
            = Some (RunID.mk (benchmark_type_name ty)
                             (BenchmarkRun.command live_training_run)
                             (BenchmarkRun.model live_training_run)
                             (BenchmarkRun.run_datetime live_training_run)).
Proof.
  apply (constructed_run_is_unverified None (Some live_training) live_training_run).
  vm_compute. reflexivity.
Defined.


(** ** Host and cluster information *)

Lemma str_repeat_S (n : nat) (s : string) : str_repeat (S n) s = s +:+ str_repeat n s.
Proof. reflexivity. Qed.

(** The first piece of a split is what stands before the first separator. *)
Lemma str_split_first (sep : ascii) (w s : string) :
  str_contains (String sep EmptyString) w = false →
  ∃ ws, str_split sep (w +:+ String sep s) = w :: ws.
Proof.
  induction w as [| c w IH]; intros Hw.
  - exists (str_split sep s). change (EmptyString +:+ String sep s) with (String sep s).
    cbn [str_split]. by rewrite Ascii.eqb_refl.
  - cbn [str_contains String.prefix] in Hw.
    apply orb_false_elim in Hw as [Hc Hw].
    destruct (IH Hw) as [ws Hws]. exists ws.
    rewrite app_String. cbn [str_split].
    destruct (Ascii.eqb_spec c sep) as [-> | _].
    + destruct (ascii_dec sep sep); [| done]. by destruct w.
    + by rewrite Hws.
Qed.

Lemma scaled_entry (data : PyDict) (key : string) (n : Z) :
  meminfo_entry data key n →
  ∃ v, HostMemoryInfo.scaled (VDict data) key = Ok v
       ∧ HostMemoryInfo.first_word_int v = Ok n.
Proof.
  intros (word & rest & Hkey & Hword & _ & Hn).
  eexists. split.
  - unfold HostMemoryInfo.scaled. cbn [py_get]. rewrite Hkey. reflexivity.
  - unfold HostMemoryInfo.first_word_int.
    replace (Z.to_nat 1024) with (S (Z.to_nat 1023)) by reflexivity.
    set (again := str_repeat (Z.to_nat 1023) (word +:+ " " +:+ rest)).
    replace (str_repeat (S (Z.to_nat 1023)) (word +:+ " " +:+ rest))
      with (word +:+ String " " (rest +:+ again))
      by (rewrite str_repeat_S, !str_app_assoc; reflexivity).
    destruct (str_split_first " " word (rest +:+ again) Hword) as [ws Hws].
    rewrite Hws. exact Hn.
Qed.

Lemma scaled_missing (data : PyDict) (key : string) :
  dict_lookup key data = None →
  HostMemoryInfo.scaled (VDict data) key = Ok (VInt 0).
Proof.
  intros Hkey. unfold HostMemoryInfo.scaled. cbn [py_get]. rewrite Hkey. reflexivity.
Qed.

(** X24. [HostMemoryInfo.from_proc_meminfo_dict]: when the nine entries
    it reads are texts such as [16384 kB], every field of the result is the
    number in front of its entry. The multiplication by 1024 is applied to
    the text, which it only repeats, so the number is not scaled: [total]
    is the count of kB of [MemTotal], not a count of bytes. *)
Theorem from_proc_meminfo_dict_keeps_first_word
  (data : PyDict) (total available used free active inactive buffers cached shared : Z) :
  meminfo_entry data "MemTotal" total →
  meminfo_entry data "MemAvailable" available →
  meminfo_entry data "MemUsed" used →
  meminfo_entry data "MemFree" free →
  meminfo_entry data "Active" active →
  meminfo_entry data "Inactive" inactive →
  meminfo_entry data "Buffers" buffers →
  meminfo_entry data "Cached" cached →
  meminfo_entry data "Shmem" shared →
  HostMemoryInfo.from_proc_meminfo_dict (VDict data)
  = Ok (HostMemoryInfo.mk total (Some available) (Some used) (Some free) (Some active)
                          (Some inactive) (Some buffers) (Some cached) (Some shared)).
Proof.
  intros (v1 & Hs1 & Hw1)%scaled_entry (v2 & Hs2 & Hw2)%scaled_entry
         (v3 & Hs3 & Hw3)%scaled_entry (v4 & Hs4 & Hw4)%scaled_entry
         (v5 & Hs5 & Hw5)%scaled_entry (v6 & Hs6 & Hw6)%scaled_entry
         (v7 & Hs7 & Hw7)%scaled_entry (v8 & Hs8 & Hw8)%scaled_entry
         (v9 & Hs9 & Hw9)%scaled_entry.
  unfold HostMemoryInfo.from_proc_meminfo_dict.
  rewrite Hs1, Hs2, Hs3, Hs4, Hs5, Hs6, Hs7, Hs8, Hs9. cbn [mbind result_bind].
  rewrite Hw1, Hw2, Hw3, Hw4, Hw5, Hw6, Hw7, Hw8, Hw9. reflexivity.
Qed.

Lemma from_proc_meminfo_dict_keeps_first_word_witness :
  HostMemoryInfo.from_proc_meminfo_dict (VDict meminfo_sample)
  = Ok (HostMemoryInfo.mk 16384 (Some 8192) (Some 4096) (Some 2048) (Some 1024)
                          (Some 512) (Some 256) (Some 128) (Some 64)).
Proof.
  apply (from_proc_meminfo_dict_keeps_first_word meminfo_sample);
    [exists "16384" | exists "8192" | exists "4096" | exists "2048" | exists "1024"
     | exists "512" | exists "256" | exists "128" | exists "64"];
    exists "kB"; (split; [reflexivity |]); (split; [reflexivity |]);
    (split; [cbn; lia | reflexivity]).
Defined.

(** X25. [HostMemoryInfo.from_proc_meminfo_dict]: the call raises as
    soon as one of the nine keys it reads is missing from the dict. The
    default [0] stands in for the entry, and a number cannot be split into
    words. *)
Theorem from_proc_meminfo_dict_needs_all_keys (data : PyDict) (key : string) :
  key ∈ meminfo_keys →
  dict_lookup key data = None →
  is_Ok (HostMemoryInfo.from_proc_meminfo_dict (VDict data)) = false.
Proof.
  intros Hkey Hnone. apply scaled_missing in Hnone.
  destruct (HostMemoryInfo.from_proc_meminfo_dict (VDict data)) as [info | e] eqn:H;
    [exfalso | reflexivity].
  unfold HostMemoryInfo.from_proc_meminfo_dict in H.
  apply bind_Ok in H as (v1 & Hs1 & H). apply bind_Ok in H as (v2 & Hs2 & H).
  apply bind_Ok in H as (v3 & Hs3 & H). apply bind_Ok in H as (v4 & Hs4 & H).
  apply bind_Ok in H as (v5 & Hs5 & H). apply bind_Ok in H as (v6 & Hs6 & H).
  apply bind_Ok in H as (v7 & Hs7 & H). apply bind_Ok in H as (v8 & Hs8 & H).
  apply bind_Ok in H as (v9 & Hs9 & H).
  apply bind_Ok in H as (n1 & Hw1 & H). apply bind_Ok in H as (n2 & Hw2 & H).
  apply bind_Ok in H as (n3 & Hw3 & H). apply bind_Ok in H as (n4 & Hw4 & H).
  apply bind_Ok in H as (n5 & Hw5 & H). apply bind_Ok in H as (n6 & Hw6 & H).
  apply bind_Ok in H as (n7 & Hw7 & H). apply bind_Ok in H as (n8 & Hw8 & H).
  apply bind_Ok in H as (n9 & Hw9 & _).
  unfold meminfo_keys in Hkey.
  repeat (apply elem_of_cons in Hkey as [-> | Hkey];
          [congruence || (rewrite Hnone in *; simplify_eq; discriminate) |]).
  by apply elem_of_nil in Hkey.
Qed.

Lemma from_proc_meminfo_dict_needs_all_keys_witness :
  is_Ok (HostMemoryInfo.from_proc_meminfo_dict (VDict meminfo_of_kernel)) = false.
Proof.
  apply (from_proc_meminfo_dict_needs_all_keys meminfo_of_kernel "MemUsed").
  - apply (bool_decide_unpack _). vm_compute. exact I.
  - reflexivity.
Defined.

Lemma aggregated_from (hosts : list HostInfo.t) (acc : ClusterInformation.t) :
  foldl (λ acc host_info,
           ClusterInformation.mk (ClusterInformation.host_info_list acc)
              (ClusterInformation.total_memory_bytes acc
               + HostMemoryInfo.total (HostInfo.memory host_info))
              (match HostInfo.cpu host_info with
               | Some cpu => ClusterInformation.total_cores acc + HostCPUInfo.num_cores cpu
               | None => ClusterInformation.total_cores acc
               end))
        acc hosts
  = ClusterInformation.mk (ClusterInformation.host_info_list acc)
      (ClusterInformation.total_memory_bytes acc + memory_of hosts)
      (ClusterInformation.total_cores acc + cores_of hosts).
Proof.
  revert acc. induction hosts as [| h hosts IH]; intros acc.
  - destruct acc. unfold memory_of, cores_of. cbn. f_equal; lia.
  - cbn [foldl]. rewrite IH.
    change (memory_of (h :: hosts))
      with (HostMemoryInfo.total (HostInfo.memory h) + memory_of hosts).
    change (cores_of (h :: hosts))
      with (from_option HostCPUInfo.num_cores 0 (HostInfo.cpu h) + cores_of hosts).
    cbn [ClusterInformation.host_info_list
         ClusterInformation.total_memory_bytes ClusterInformation.total_cores].
    f_equal; [lia |]. destruct (HostInfo.cpu h); cbn [from_option]; lia.
Qed.

(** X26. [ClusterInformation.calculate_aggregated_info] adds the memory
    of every host and the cores of every host that has CPU information on
    top of the totals the object already holds, and keeps the host list. A
    freshly constructed object therefore holds the sums, and aggregating it
    once more doubles them. *)
Theorem aggregation_adds_to_totals (self : ClusterInformation.t) (hosts : list HostInfo.t) :
  let sums (ci : ClusterInformation.t) k :=
    ClusterInformation.mk (ClusterInformation.host_info_list ci)
      (ClusterInformation.total_memory_bytes ci
       + k * memory_of (ClusterInformation.host_info_list ci))
      (ClusterInformation.total_cores ci
       + k * cores_of (ClusterInformation.host_info_list ci)) in
  ClusterInformation.calculate_aggregated_info self = sums self 1
  ∧ ClusterInformation.init hosts true = sums (ClusterInformation.init hosts false) 1
  ∧ ClusterInformation.calculate_aggregated_info (ClusterInformation.init hosts true)
    = sums (ClusterInformation.init hosts false) 2.
Proof.
  cbv zeta. unfold ClusterInformation.init, ClusterInformation.calculate_aggregated_info.
  rewrite !aggregated_from.
  cbn [ClusterInformation.host_info_list ClusterInformation.total_memory_bytes
       ClusterInformation.total_cores].
  repeat split; f_equal; lia.
Qed.

Lemma sum_int_array (l : list Z) (acc : Z) :
  foldl (λ acc x, a ← acc; n ← as_int "+" x; mret (a + n)) (Ok acc) (VInt <$> l)
  = Ok (acc + total l).
Proof.
  revert acc. induction l as [| z l IH]; intros acc.
  - cbn. f_equal. lia.
  - rewrite fmap_cons. cbn [foldl].
    etransitivity; [exact (IH (acc + z)) |].
    change (total (z :: l)) with (z + total l). f_equal. lia.
Qed.

Lemma py_sum_int_array (l : list Z) : py_sum (int_array l) = Ok (total l).
Proof.
  exact (sum_int_array l 0).
Qed.

(** X27. [ClusterInformation.from_dlio_summary_json]: for a summary
    whose [host_memory_GB] and [host_cpu_count] are arrays of integers, the
    result holds the sum of the first, times [2^30], as its memory and the
    sum of the second as its cores, and an empty host list. Nothing else
    of the summary is used: not [num_hosts], and not whether the two
    arrays have the same length. *)
Theorem dlio_summary_totals (summary : PyDict) (memories cpus : list Z) :
  dict_lookup "host_memory_GB" summary = Some (int_array memories) →
  dict_lookup "host_cpu_count" summary = Some (int_array cpus) →
  ClusterInformation.from_dlio_summary_json (VDict summary)
  = Ok (ClusterInformation.mk [] (total memories * 2 ^ 30) (total cpus)).
Proof.
  intros Hmem Hcpu. unfold ClusterInformation.from_dlio_summary_json.
  cbn [py_get]. rewrite Hmem, Hcpu. cbn [default id mbind result_bind].
  rewrite !py_sum_int_array. cbn [mbind result_bind mret result_ret].
  unfold ClusterInformation.init. cbn [ClusterInformation.host_info_list].
  f_equal. f_equal; lia.
Qed.

Lemma dlio_summary_totals_witness :
  ClusterInformation.from_dlio_summary_json
    (VDict [("host_memory_GB", int_array [512; 256]); ("host_cpu_count", int_array [64]);
            ("num_hosts", VInt 7)])
  = Ok (ClusterInformation.mk [] (total [512; 256] * 2 ^ 30) (total [64])).
Proof.
  apply (dlio_summary_totals
           [("host_memory_GB", int_array [512; 256]); ("host_cpu_count", int_array [64]);
            ("num_hosts", VInt 7)] [512; 256] [64]); reflexivity.
Defined.


(** ** Output locations *)

Lemma rev_app_app (a b acc : string) :
  String.rev_app (a +:+ b) acc = String.rev_app b (String.rev_app a acc).
Proof.
  revert acc. induction a as [| c a IH]; intros acc; [reflexivity |].
  rewrite app_String. cbn [String.rev_app]. apply IH.
Qed.

(** The first character of a reversed non-empty string is its last one,
    whatever the reversal is continued with. *)
Lemma rev_app_head (p c : ascii) (b acc acc' : string) :
  String.prefix (String p EmptyString) (String.rev_app (String c b) acc)
  = String.prefix (String p EmptyString) (String.rev_app (String c b) acc').
Proof.
  revert c acc acc'. induction b as [| c' b IH]; intros c acc acc'.
  - cbn [String.rev_app String.prefix].
    destruct (ascii_dec p c); [| reflexivity]. by destruct acc, acc'.
  - change (String.rev_app (String c (String c' b)) acc)
      with (String.rev_app (String c' b) (String c acc)).
    change (String.rev_app (String c (String c' b)) acc')
      with (String.rev_app (String c' b) (String c acc')).
    apply IH.
Qed.

Lemma endswith_app (a b : string) :
  b ≠ EmptyString → endswith (a +:+ b) "/" = endswith b "/".
Proof.
  intros Hb. destruct b as [| c b]; [done |].
  unfold endswith, startswith, String.rev. rewrite rev_app_app.
  apply rev_app_head.
Qed.

Lemma open_dir_spec (s : string) :
  open_dir s = true ↔ s ≠ EmptyString ∧ endswith s "/" = false.
Proof.
  unfold open_dir. rewrite andb_true_iff, !negb_true_iff.
  split; intros [Hs He]; (split; [| exact He]).
  - intros ->. discriminate Hs.
  - by destruct s.
Qed.

Lemma segment_spec (s : string) :
  segment s = true ↔ open_dir s = true ∧ startswith s "/" = false.
Proof. unfold segment. by rewrite andb_true_iff, negb_true_iff. Qed.

Lemma path_join_relative (a b : string) :
  open_dir a = true → startswith b "/" = false →
  path_join a b = a +:+ "/" +:+ b.
Proof.
  intros [Ha He]%open_dir_spec Hb. unfold path_join. rewrite Hb, He.
  by destruct a.
Qed.

Lemma path_join_segment (a b : string) :
  open_dir a = true → segment b = true →
  path_join a b = a +:+ "/" +:+ b ∧ open_dir (a +:+ "/" +:+ b) = true.
Proof.
  intros Ha [Hb Hrel]%segment_spec. split; [by apply path_join_relative |].
  apply open_dir_spec in Ha as [Ha _]. apply open_dir_spec in Hb as [Hb He].
  apply open_dir_spec. split.
  - by destruct a.
  - rewrite endswith_app by done.
    change ("/" +:+ b) with (String "/" EmptyString +:+ b).
    by rewrite endswith_app.
Qed.

(** X28. [generate_output_location]: when the results directory is a
    name without a trailing slash and the model and the command, as far
    as the benchmark type uses them, are names with no slash at either
    end, the location is the documented one: the results directory, the
    name of the benchmark type, the model (training and checkpointing),
    the command (training and vector database) and the date, separated
    by single slashes. The date is the one given, or else the time the
    program started. *)
Theorem output_location_layout
  (DATETIME_STR : string) (benchmark : Benchmark.t) (datetime_str : option string)
  (results_dir model command : string) :
  let t := Benchmark.BENCHMARK_TYPE benchmark in
  let date := default DATETIME_STR datetime_str in
  dict_lookup "results_dir" (Benchmark.args benchmark) = Some (VStr results_dir) →
  open_dir results_dir = true →
  (t ≠ vector_database →
   dict_lookup "model" (Benchmark.args benchmark) = Some (VStr model)
   ∧ segment model = true) →
  (t ≠ checkpointing →
   dict_lookup "command" (Benchmark.args benchmark) = Some (VStr command)
   ∧ segment command = true) →
  startswith date "/" = false →
  generate_output_location DATETIME_STR benchmark datetime_str
  = Ok (str_join "/" (results_dir :: benchmark_type_name t
                        :: location_components t model command ++ [date])).
Proof.
  intros t date Hroot Hopen Hmodel Hcommand Hdate.
  unfold generate_output_location, join_attribute, args_attribute.
  fold date. rewrite Hroot. cbn [mbind result_bind fspath].
  assert (∀ name, segment (benchmark_type_name name) = true) as Hname
    by (by intros [| |]).
  destruct (path_join_segment results_dir (benchmark_type_name t) Hopen (Hname t))
    as [Htype Hopen1].
  fold t. destruct t eqn:Ht.
  - destruct Hmodel as [Hmodel Hm]; [done |].
    destruct Hcommand as [Hcommand Hc]; [done |].
    rewrite Hmodel, Hcommand, bool_decide_eq_false_2 by done.
    cbn [mbind result_bind fspath mret result_ret]. rewrite Htype.
    destruct (path_join_segment _ model Hopen1 Hm) as [-> Hopen2].
    destruct (path_join_segment _ command Hopen2 Hc) as [-> Hopen3].
    rewrite (path_join_relative _ date Hopen3 Hdate).
    f_equal. cbn [location_components app]. rewrite !str_app_assoc. reflexivity.
  - destruct Hcommand as [Hcommand Hc]; [done |].
    rewrite Hcommand.
    cbn [mbind result_bind fspath mret result_ret]. rewrite Htype.
    destruct (path_join_segment _ command Hopen1 Hc) as [-> Hopen2].
    rewrite (path_join_relative _ date Hopen2 Hdate).
    f_equal. cbn [location_components app]. rewrite !str_app_assoc. reflexivity.
  - destruct Hmodel as [Hmodel Hm]; [done |].
    rewrite Hmodel, bool_decide_eq_false_2 by done.
    cbn [mbind result_bind fspath mret result_ret]. rewrite Htype.
    destruct (path_join_segment _ model Hopen1 Hm) as [-> Hopen2].
    rewrite (path_join_relative _ date Hopen2 Hdate).
    f_equal. cbn [location_components app]. rewrite !str_app_assoc. reflexivity.
Qed.

Lemma output_location_layout_witness :
  generate_output_location "20250102_000000" live_checkpointing None
  = Ok "/results/checkpointing/llama3-8b/20250102_000000"
  ∧ generate_output_location "20250102_000000" live_vectordb (Some "today")
    = Ok "/results/vector_database/run/today".
Proof.
  split.
  - apply (output_location_layout "20250102_000000" live_checkpointing None
             "/results" "llama3-8b" ""); try reflexivity.
    + intros _. split; reflexivity.
    + intros Hne. by destruct Hne.
  - apply (output_location_layout "20250102_000000" live_vectordb (Some "today")
             "/results" "" "run"); try reflexivity.
    + intros Hne. by destruct Hne.
    + intros _. split; reflexivity.
Defined.

(** ** From result files to a category *)




(** X30. [BenchmarkVerifier]: for a single run of type vector database,
    given as a run or as a live benchmark, the constructor succeeds but
    sets no rules checker, and [verify] then raises [AttributeError]
    instead of returning a category. *)
Theorem vector_database_cannot_be_verified
  (UNET : string) (arg : VerifierArg) (self : BenchmarkVerifier.t) :
  BenchmarkVerifier.init UNET [arg] = Ok self →
  BenchmarkRun.benchmark_type <$> BenchmarkVerifier.benchmark_runs self
  = [Some vector_database] →
  BenchmarkVerifier.rules_checker self = None
  ∧ ∃ text, BenchmarkVerifier.verify self = Raise (mkExc AttributeError text).
Proof.
  intros Hself Htype. apply init_single in Hself as [run ->].
  cbn [BenchmarkVerifier.benchmark_runs fmap list_fmap] in Htype.
  injection Htype as Htype.
  cbn [BenchmarkVerifier.rules_checker]. rewrite Htype.
  split; [reflexivity |]. by eexists.
Qed.

Lemma vector_database_cannot_be_verified_witness :
  BenchmarkVerifier.rules_checker
    (BenchmarkVerifier.mk single [live_vectordb_run] None []) = None
  ∧ ∃ text, BenchmarkVerifier.verify (BenchmarkVerifier.mk single [live_vectordb_run] None [])
            = Raise (mkExc AttributeError text).
Proof.
  apply (vector_database_cannot_be_verified "unet3d" (ABenchmark live_vectordb));
    vm_compute; reflexivity.
Defined.
